(** * The answer-resolution and execution pipeline of the exam taker

    A shallow embedding of [src/core/ExamTaker.js], [src/ai/VisionAnalyzer.js]
    and [src/rdp/RemotelyClient.js], followed by [src/ai/RAGSystem.js],
    [src/utils/ActionExecutor.js] and the manual control events of the
    application.

    Each JavaScript class becomes a module holding the record of its mutable
    fields and one definition per method.  A method is a computation in a
    small state, trace and exception monad: the state is the object, the
    trace lists the effects the method performs in order (log lines, socket.io
    broadcasts, EventEmitter events, requests to external collaborators,
    websocket sends, timer waits), and [Throw] is a JavaScript exception (a
    rejected promise for an [async] method).  [await] is sequencing: a run
    is that of one handler with no other handler in between.  What other
    handlers do while one is suspended at an [await] is added by the event
    loop, for the screenshots, and by the module [Scheduled], for the
    execution of an answer.

    Modelling conventions:
    - the answers of the external collaborators (vision and reasoning model,
      knowledge base, web search, websocket, uuid generator, clock) are read
      from an environment [Env]; a collaborator that fails answers [Throw],
      and what a collaborator logs on its own side is not in the trace;
    - [new Date().toISOString()] is the environment's [now];
    - an image buffer is identified with its base64 text;
    - a confidence or score is a rational or [NaN], compared as JavaScript
      compares numbers;
    - a log line is its level and its message text, without the values
      printed after it;
    - the listeners that [setupEventHandlers] puts on the analyzer's events
      start a handler without waiting for it: an emitted event is an [Emit]
      in the trace, and the handler it starts is a run of its own. *)

From Stdlib Require Import Ascii String List Bool ZArith QArith Lia.
From Stdlib Require Import Sorted Permutation.
Import ListNotations.
Close Scope Q_scope.
Open Scope string_scope.

Set Implicit Arguments.

(** ** JavaScript values used by the pipeline *)

(** A number read from a model answer or a search result.  [NaN] also stands
    for a missing field ([undefined] converts to [NaN] in a comparison). *)
Inductive jsnum : Type :=
| Num (q : Q)
| NaN.

(** [a >= b], [a > b] and [a < b] against a numeric constant: every
    comparison with [NaN] is false. *)
Definition js_ge (a : jsnum) (b : Q) : bool :=
  match a with Num q => Qle_bool b q | NaN => false end.

Definition js_gt (a : jsnum) (b : Q) : bool :=
  match a with Num q => negb (Qle_bool q b) | NaN => false end.

Definition js_lt (a : jsnum) (b : Q) : bool :=
  match a with Num q => negb (Qle_bool b q) | NaN => false end.

(** Truthiness of a string-or-null value: [null], [undefined] and the empty
    string are falsy. *)
Definition truthy (o : option string) : bool :=
  match o with
  | Some s => negb (String.eqb s "")
  | None => false
  end.

(** [Array.prototype.join] on an array of strings-or-null: a null element
    contributes the empty string. *)
Definition js_join (sep : string) (l : list (option string)) : string :=
  String.concat sep (map (fun o => match o with Some s => s | None => "" end) l).

(** [config.json], the fields the pipeline reads. *)
Record Config : Type := {
  ai_confidence_threshold : Q;
  ai_screenshot_analysis_delay : nat;
  rag_similarity_threshold : Q;
  rag_max_results : nat
}.

Definition config_json : Config := {|
  ai_confidence_threshold := (8 # 10)%Q;
  ai_screenshot_analysis_delay := 2000;
  rag_similarity_threshold := (7 # 10)%Q;
  rag_max_results := 5
|}.

(** ** Data *)

Record Coordinates : Type := { x : Z; y : Z }.

Record AnswerOption : Type := {
  text : string;
  position : Coordinates;
  identifier : string
}.

(** The JSON the vision model returns for a screenshot. *)
Record Analysis : Type := {
  a_question : option string;
  a_question_type : string;
  a_options : list AnswerOption;
  a_confidence : jsnum
}.

(** [{...screenAnalysis, timestamp, imageBase64}] *)
Record StoredAnalysis : Type := {
  sa_analysis : Analysis;
  sa_timestamp : string;
  sa_imageBase64 : string
}.

Record RagResult : Type := {
  content : string;
  score : jsnum
}.

Record WebResult : Type := {
  extractedAnswer : option string;
  w_confidence : jsnum;
  w_source : string
}.

Record ReasoningResult : Type := {
  r_reasoning : string;
  r_answer : option string;
  r_confidence : jsnum;
  r_key_concepts : list string;
  r_uncertainty_factors : list string
}.

Record CoordinateResult : Type := {
  cr_coordinates : option Coordinates;
  cr_confidence : jsnum
}.

(** Payload of the analyzer's [question_detected] event. *)
Record QuestionData : Type := {
  qd_question : option string;
  qd_type : string;
  qd_options : list AnswerOption;
  qd_confidence : jsnum
}.

(** Payload of [answer_found]: the analyzer sets [question], the exam taker
    sets [examType] and [ragResults]. *)
Record AnswerData : Type := {
  answer : option string;
  confidence : jsnum;
  source : string;
  ad_question : option string;
  ad_examType : option string;
  ad_ragResults : list RagResult
}.

(** Payload of [uncertainty]; every key is optional. *)
Record UncertaintyData : Type := {
  u_question : option string;
  u_answer : option string;
  u_confidence : option jsnum;
  u_error : option string;
  u_reason : option string;
  u_analysis : option Analysis
}.

Definition no_uncertainty : UncertaintyData := {|
  u_question := None; u_answer := None; u_confidence := None;
  u_error := None; u_reason := None; u_analysis := None
|}.

(** [this.currentQuestion] of the exam taker. *)
Record Question : Type := {
  id : string;
  question : option string;
  type : string;
  options : list AnswerOption;
  detectedAt : string;
  status : string;
  q_answer : option string;
  q_confidence : option jsnum;
  q_source : option string;
  q_uncertainty : option UncertaintyData
}.

(** An element of [this.questionHistory]:
    [{...this.currentQuestion, answeredAt, coordinates}]. *)
Record HistoryEntry : Type := {
  h_question : option Question;
  answeredAt : string;
  coordinates : Coordinates
}.

(** Messages of the remote-control websocket protocol. *)
Inductive Message : Type :=
| ViewerDisconnected (viewerConnectionId : option string)
| MouseClick (mx my : Z) (button : string) (viewerConnectionId : option string)
| MouseMove (mx my : Z) (viewerConnectionId : option string)
| KeyPress (key : string) (modifiers : list string) (viewerConnectionId : option string)
| KeyDown (key : string) (viewerConnectionId : option string)
| KeyUp (key : string) (viewerConnectionId : option string)
| TextInput (txt : string) (viewerConnectionId : option string)
| GetScreenshot (viewerConnectionId : option string).

(** ** Effects *)

Inductive Level : Type := Info | Warn | Error | Debug.

(** [this.io.emit(name, payload)]: broadcasts to the dashboard.  Of the
    payload of [ai_reasoning] the fields computed from the search results are
    kept ([reasoning] and [keyConcepts] only repeat the exam type). *)
Inductive IoEvent : Type :=
| io_screenshot (image : string) (timestamp : string)
| io_screen_analysis (analysis : Analysis) (timestamp : string)
| io_question_detected (q : Question)
| io_ai_reasoning (examType : string) (uncertaintyFactors : list string)
    (searchResults : nat)
| io_answer_found (q : option Question) (a : AnswerData) (timestamp : string)
| io_ai_uncertainty (u : UncertaintyData) (timestamp : string)
| io_action_executed (action : string) (c : Coordinates) (q : option Question)
    (timestamp : string)
| io_manual_override_changed (enabled : bool) (timestamp : string)
| io_exam_started (examId : string) (timestamp : string)
| io_exam_stopped (examId : option string) (questionsAnswered : nat)
    (timestamp : string).

(** [this.emit(name, payload)] of the vision analyzer (an EventEmitter).
    [ai_reasoning] carries the reasoner's answer and [contextSources]. *)
Inductive AnalyzerEvent : Type :=
| question_detected (d : QuestionData)
| answer_found (d : AnswerData)
| uncertainty (d : UncertaintyData)
| ai_reasoning (r : ReasoningResult) (ragHit webHit : bool).

(** Requests to external collaborators. *)
Inductive Request : Type :=
| rag_search (query : option string) (limit : nat) (examType : option string)
| ollama_analyzeExamScreen (imageBase64 : string)
| ollama_reasonAboutAnswer (q : option string) (opts : list AnswerOption)
    (context : string)
| ollama_findAnswerCoordinates (screen : StoredAnalysis)
    (selectedAnswer : option string)
| web_searchForQuestionType (q : option string) (qtype : string).

Inductive Effect : Type :=
| Log (lvl : Level) (msg : string)
| IoEmit (e : IoEvent)
| Emit (e : AnalyzerEvent)
| Call (r : Request)
| WsSend (m : Message)
| Sleep (ms : nat)
| ClearInterval (timer : nat).

(** ** The method monad *)

Inductive Res (A : Type) : Type :=
| Ok (a : A)
| Throw (e : string).

Arguments Ok {A} a.
Arguments Throw {A} e.

(** State [S], result or exception, trace of effects. *)
Definition M (S A : Type) : Type := S -> Res A * S * list Effect.

Definition result {S A} (r : Res A * S * list Effect) : Res A := fst (fst r).
Definition state {S A} (r : Res A * S * list Effect) : S := snd (fst r).
Definition trace {S A} (r : Res A * S * list Effect) : list Effect := snd r.

Definition ret {S A} (a : A) : M S A := fun s => (Ok a, s, []).

Definition bind {S A B} (m : M S A) (k : A -> M S B) : M S B :=
  fun s =>
    match m s with
    | (Ok a, s1, t1) =>
        match k a s1 with
        | (r, s2, t2) => (r, s2, (t1 ++ t2)%list)
        end
    | (Throw e, s1, t1) => (Throw e, s1, t1)
    end.

Definition throw {S A} (e : string) : M S A := fun s => (Throw e, s, []).

(** [try { m } catch (error) { h error.message }]: the state changes and the
    effects of [m] up to the exception are kept. *)
Definition try_catch {S A} (m : M S A) (h : string -> M S A) : M S A :=
  fun s =>
    match m s with
    | (Ok a, s1, t1) => (Ok a, s1, t1)
    | (Throw e, s1, t1) =>
        match h e s1 with
        | (r, s2, t2) => (r, s2, (t1 ++ t2)%list)
        end
    end.

Definition get {S} : M S S := fun s => (Ok s, s, []).
Definition modify {S} (f : S -> S) : M S unit := fun s => (Ok tt, f s, []).
Definition tell {S} (e : Effect) : M S unit := fun s => (Ok tt, s, [e]).

(** Returning a collaborator's answer: a value, or the exception it raised. *)
Definition answer_of {S A} (r : Res A) : M S A := fun s => (r, s, []).

(** A method of a sub-object, run on the field of the enclosing object. *)
Definition zoom {S T A} (proj : S -> T) (upd : T -> S -> S) (m : M T A) : M S A :=
  fun s =>
    match m (proj s) with
    | (r, t1, tr) => (r, upd t1 s, tr)
    end.

Declare Scope method_scope.
Delimit Scope method_scope with method.
Notation "x <- m ;; k" := (bind m (fun x => k))
  (at level 61, m at next level, right associativity) : method_scope.
Notation "m ;; k" := (bind m (fun _ => k))
  (at level 61, right associativity) : method_scope.
Open Scope method_scope.

Definition log {S} (lvl : Level) (msg : string) : M S unit := tell (Log lvl msg).
Definition sleep {S} (ms : nat) : M S unit := tell (Sleep ms).

(** [logger.info(msg, meta)] with a [meta] that may be null: the logger's
    [formatMessage] takes [Object.keys(meta)], which throws a TypeError on
    [null] (the default [{}] only replaces [undefined]). *)
Definition log_about {S A} (meta : option A) (lvl : Level) (msg : string)
  : M S unit :=
  match meta with
  | Some _ => log lvl msg
  | None => throw "Cannot convert undefined or null to object"
  end.

(** ** The environment: what the collaborators answer *)

Record Env : Type := {
  uuidv4 : string;
  now : string;
  ragSystem_search : option string -> nat -> option string -> Res (list RagResult);
  analyzeExamScreen : string -> Res Analysis;
  reasonAboutAnswer : option string -> list AnswerOption -> string -> Res ReasoningResult;
  ollamaFindAnswerCoordinates : StoredAnalysis -> option string -> Res CoordinateResult;
  webSearch_isConfigured : bool;
  searchForQuestionType : option string -> string -> Res (list WebResult);
  ws_send : Message -> Res unit
}.

(** A request: recorded in the trace, answered by the environment. *)
Definition request {S A} (r : Request) (a : Res A) : M S A :=
  tell (Call r) ;; answer_of a.

(** ** RemotelyClient *)

Module RemotelyClient.

Definition WebSocket : Type := unit.

Record t : Type := {
  ws : option WebSocket;
  sessionId : option string;
  deviceId : option string;
  connected : bool;
  reconnectAttempts : nat;
  maxReconnectAttempts : nat;
  reconnectDelay : nat
}.

(** The constructor. *)
Definition new : t := {|
  ws := None; sessionId := None; deviceId := None; connected := false;
  reconnectAttempts := 0; maxReconnectAttempts := 5; reconnectDelay := 5000
|}.

Record ClickResult : Type := { success : bool; clicked : Coordinates }.
Record TypeResult : Type := { t_success : bool; typed : string }.
Record DragResult : Type :=
  { d_success : bool; startCoords : Coordinates; endCoords : Coordinates }.

Section Methods.
Variable env : Env.

Definition sendMessage (message : Message) : M t unit :=
  s <- get ;;
  match ws s with
  | Some _ =>
      if connected s
      then tell (WsSend message) ;; answer_of (ws_send env message)
      else log Warn "Cannot send message: not connected to Remotely"
  | None => log Warn "Cannot send message: not connected to Remotely"
  end.

Definition sendMouseClick (px py : Z) (button : string) : M t unit :=
  s <- get ;;
  sendMessage (MouseClick px py button (sessionId s)) ;;
  log Debug "Sent mouse click:".

Definition sendMouseMove (px py : Z) : M t unit :=
  s <- get ;;
  sendMessage (MouseMove px py (sessionId s)).

Definition sendKeyPress (key : string) (modifiers : list string) : M t unit :=
  s <- get ;;
  sendMessage (KeyPress key modifiers (sessionId s)) ;;
  log Debug "Sent key press:".

Definition sendKeyDown (key : string) : M t unit :=
  s <- get ;;
  sendMessage (KeyDown key (sessionId s)).

Definition sendKeyUp (key : string) : M t unit :=
  s <- get ;;
  sendMessage (KeyUp key (sessionId s)).

Definition sendTextInput (txt : string) : M t unit :=
  s <- get ;;
  sendMessage (TextInput txt (sessionId s)) ;;
  log Debug "Sent text input:".

Definition requestScreenshot : M t unit :=
  s <- get ;;
  sendMessage (GetScreenshot (sessionId s)).

(** [clickAnswer(coordinates, {doubleClick = false, delay = 100})] *)
Definition clickAnswer (c : Coordinates) (doubleClick : bool) (delay : nat)
  : M t ClickResult :=
  try_catch
    (sendMouseMove (x c) (y c) ;;
     sleep delay ;;
     (if doubleClick
      then sendMouseClick (x c) (y c) "left" ;;
           sleep 50 ;;
           sendMouseClick (x c) (y c) "left"
      else sendMouseClick (x c) (y c) "left") ;;
     log Info "Answer clicked via Remotely:" ;;
     ret {| success := true; clicked := c |})
    (fun error =>
       log Error "Failed to click answer via Remotely:" ;;
       throw error).

(** [typeAnswer(text, {clearFirst = false, delay = 50})] *)
Definition typeAnswer (txt : string) (clearFirst : bool) (delay : nat)
  : M t TypeResult :=
  try_catch
    ((if clearFirst
      then sendKeyPress "a" ["ctrl"] ;;
           sleep delay ;;
           sendKeyPress "Delete" [] ;;
           sleep delay
      else ret tt) ;;
     sendTextInput txt ;;
     log Info "Text typed via Remotely:" ;;
     ret {| t_success := true; typed := txt |})
    (fun error =>
       log Error "Failed to type via Remotely:" ;;
       throw error).

(** [dragAndDrop(startCoords, endCoords, {delay = 100})] *)
Definition dragAndDrop (from to : Coordinates) (delay : nat) : M t DragResult :=
  try_catch
    (sendMouseMove (x from) (y from) ;;
     sleep delay ;;
     sendKeyDown "MouseLeft" ;;
     sleep delay ;;
     sendMouseMove (x to) (y to) ;;
     sleep delay ;;
     sendKeyUp "MouseLeft" ;;
     log Info "Drag and drop performed via Remotely:" ;;
     ret {| d_success := true; startCoords := from; endCoords := to |})
    (fun error =>
       log Error "Failed to perform drag and drop via Remotely:" ;;
       throw error).

End Methods.

End RemotelyClient.

(** ** VisionAnalyzer *)

Module VisionAnalyzer.

Record t : Type := {
  lastAnalysis : option StoredAnalysis;
  analysisHistory : list StoredAnalysis
}.

(** The constructor. *)
Definition new : t := {| lastAnalysis := None; analysisHistory := [] |}.

(** [analysisHistory.push(a); if (analysisHistory.length > 10) shift()] *)
Definition remember (a : StoredAnalysis) (s : t) : t :=
  let h := (analysisHistory s ++ [a])%list in
  {| lastAnalysis := Some a;
     analysisHistory := if (10 <? length h)%nat then tl h else h |}.

(** The separator of [contextData.join]: two line feeds. *)
Definition blank_line : string := String "010"%char (String "010"%char "").

(** The locals [bestAnswer], [answerSource], [confidence] of [findAnswer]. *)
Definition Best : Type := (option string * string * jsnum)%type.

Section Methods.
Variable cfg : Config.
Variable env : Env.

(** The [else] branch of [findAnswer]: web search when configured, then
    reasoning unless the web answer has confidence at least 0.6. *)
Definition fallback (analysis : Analysis) (ragResults : list RagResult)
  : M t Best :=
  let q := a_question analysis in
  let none : Best := (None, "unknown", Num 0%Q) in
  web <-
    (if webSearch_isConfigured env
     then
       try_catch
         (webSearchResults <-
            request (web_searchForQuestionType q (a_question_type analysis))
                    (searchForQuestionType env q (a_question_type analysis)) ;;
          match hd_error webSearchResults with
          | Some w0 =>
              if js_gt (w_confidence w0) (6 # 10)%Q
              then log Info "Answer found via web search:" ;;
                   ret (webSearchResults,
                        (extractedAnswer w0, "web_search", w_confidence w0))
              else ret (webSearchResults, none)
          | None => ret (webSearchResults, none)
          end)
         (fun _ => log Error "Web search failed:" ;; ret ([], none))
     else ret ([], none)) ;;
  let '(webSearchResults, (bestAnswer, answerSource, conf)) := web in
  if negb (truthy bestAnswer) || js_lt conf (6 # 10)%Q
  then
    let contextData :=
      (match hd_error ragResults with
       | Some r0 => [Some (content r0)]
       | None => []
       end ++
       match hd_error webSearchResults with
       | Some w0 => [extractedAnswer w0]
       | None => []
       end)%list in
    let context := js_join blank_line contextData in
    reasoningResult <-
      request (ollama_reasonAboutAnswer q (a_options analysis) context)
              (reasonAboutAnswer env q (a_options analysis) context) ;;
    log Info "Answer determined by AI reasoning:" ;;
    tell (Emit (ai_reasoning reasoningResult
                  (0 <? length ragResults)%nat (0 <? length webSearchResults)%nat)) ;;
    ret (r_answer reasoningResult, "reasoning", r_confidence reasoningResult)
  else ret (bestAnswer, answerSource, conf).

Definition findAnswer (analysis : Analysis) : M t unit :=
  let q := a_question analysis in
  try_catch
    (log Info "Finding answer for question:" ;;
     ragResults <-
       request (rag_search q (rag_max_results cfg) None)
               (ragSystem_search env q (rag_max_results cfg) None) ;;
     best <-
       match hd_error ragResults with
       | Some r0 =>
           if js_gt (score r0) (rag_similarity_threshold cfg)
           then log Info "Answer found in RAG system:" ;;
                ret (Some (content r0), "rag", score r0)
           else fallback analysis ragResults
       | None => fallback analysis ragResults
       end ;;
     let '(bestAnswer, answerSource, conf) := best in
     tell (Emit (answer_found
                   {| answer := bestAnswer; confidence := conf;
                      source := answerSource; ad_question := q;
                      ad_examType := None; ad_ragResults := [] |})))
    (fun error =>
       log Error "Error finding answer:" ;;
       tell (Emit (uncertainty
                     {| u_question := q; u_answer := None;
                        u_confidence := None; u_error := Some error;
                        u_reason := Some "Answer search failed";
                        u_analysis := None |}))).

Definition processAnalysis (analysis : Analysis) : M t unit :=
  try_catch
    (if negb (truthy (a_question analysis))
        || js_lt (a_confidence analysis) (5 # 10)%Q
     then log Warn "Low confidence or no question detected:"
     else
       tell (Emit (question_detected
                     {| qd_question := a_question analysis;
                        qd_type := a_question_type analysis;
                        qd_options := a_options analysis;
                        qd_confidence := a_confidence analysis |})) ;;
       match a_options analysis with
       | [] => ret tt
       | _ :: _ => findAnswer analysis
       end)
    (fun error =>
       log Error "Error processing analysis:" ;;
       tell (Emit (uncertainty
                     {| u_question := None; u_answer := None;
                        u_confidence := None; u_error := Some error;
                        u_reason := None;
                        u_analysis := Some analysis |}))).

(** What [analyzeScreen] does once the vision model has answered. *)
Definition analyzed (imageBase64 : string) (screenAnalysis : Analysis)
  : M t Analysis :=
  modify (remember {| sa_analysis := screenAnalysis;
                      sa_timestamp := now env;
                      sa_imageBase64 := imageBase64 |}) ;;
  log Info "Screen analysis completed:" ;;
  processAnalysis screenAnalysis ;;
  ret screenAnalysis.

Definition analyzeScreen (screenshotBuffer : string) : M t Analysis :=
  try_catch
    (log Info "Starting screen analysis..." ;;
     let imageBase64 := screenshotBuffer in
     screenAnalysis <-
       request (ollama_analyzeExamScreen imageBase64)
               (analyzeExamScreen env imageBase64) ;;
     analyzed imageBase64 screenAnalysis)
    (fun error =>
       log Error "Screen analysis failed:" ;;
       throw error).

(** [selectedAnswer] is the answer's text or [null], which is what
    [findAnswer] holds for an answer that is absent; the line that logs it
    throws on [null], inside the [try]. *)
Definition findAnswerCoordinates (questionData : option Question)
    (selectedAnswer : option string) : M t (option Coordinates) :=
  try_catch
    (s <- get ;;
     match lastAnalysis s with
     | None => throw "No recent screen analysis available"
     | Some last =>
         log_about selectedAnswer Info "Finding coordinates for answer:" ;;
         coordinateResult <-
           request (ollama_findAnswerCoordinates last selectedAnswer)
                   (ollamaFindAnswerCoordinates env last selectedAnswer) ;;
         if js_lt (cr_confidence coordinateResult) (5 # 10)%Q
         then throw "Low confidence in coordinate detection"
         else log Info "Answer coordinates found:" ;;
              ret (cr_coordinates coordinateResult)
     end)
    (fun error =>
       log Error "Failed to find answer coordinates:" ;;
       throw error).

End Methods.

End VisionAnalyzer.

(** ** ExamTaker *)

Module ExamTaker.

(** [{ imageData, imageFormat, timestamp, bounds }] of a [screenshot] event;
    the handler reads [imageData] and [timestamp]. *)
Record ScreenshotData : Type := {
  imageData : string;
  timestamp : string
}.

Record t : Type := {
  sessionId : option string;
  examId : option string;
  isActive : bool;
  manualOverride : bool;
  connected : bool;
  currentExamType : string;
  visionAnalyzer : VisionAnalyzer.t;
  remotelyClient : RemotelyClient.t;
  currentQuestion : option Question;
  questionHistory : list HistoryEntry;
  screenshotInterval : option nat;
  lastScreenshot : option string
}.

(** The constructor. *)
Definition new : t := {|
  sessionId := None; examId := None; isActive := false;
  manualOverride := false; connected := false; currentExamType := "general";
  visionAnalyzer := VisionAnalyzer.new; remotelyClient := RemotelyClient.new;
  currentQuestion := None; questionHistory := [];
  screenshotInterval := None; lastScreenshot := None
|}.

(** Field assignments. *)
Definition set_examId (v : option string) (s : t) : t :=
  {| sessionId := sessionId s; examId := v; isActive := isActive s;
     manualOverride := manualOverride s; connected := connected s;
     currentExamType := currentExamType s;
     visionAnalyzer := visionAnalyzer s; remotelyClient := remotelyClient s;
     currentQuestion := currentQuestion s;
     questionHistory := questionHistory s;
     screenshotInterval := screenshotInterval s;
     lastScreenshot := lastScreenshot s |}.

Definition set_isActive (v : bool) (s : t) : t :=
  {| sessionId := sessionId s; examId := examId s; isActive := v;
     manualOverride := manualOverride s; connected := connected s;
     currentExamType := currentExamType s;
     visionAnalyzer := visionAnalyzer s; remotelyClient := remotelyClient s;
     currentQuestion := currentQuestion s;
     questionHistory := questionHistory s;
     screenshotInterval := screenshotInterval s;
     lastScreenshot := lastScreenshot s |}.

Definition set_manualOverride (v : bool) (s : t) : t :=
  {| sessionId := sessionId s; examId := examId s; isActive := isActive s;
     manualOverride := v; connected := connected s;
     currentExamType := currentExamType s;
     visionAnalyzer := visionAnalyzer s; remotelyClient := remotelyClient s;
     currentQuestion := currentQuestion s;
     questionHistory := questionHistory s;
     screenshotInterval := screenshotInterval s;
     lastScreenshot := lastScreenshot s |}.

Definition set_visionAnalyzer (v : VisionAnalyzer.t) (s : t) : t :=
  {| sessionId := sessionId s; examId := examId s; isActive := isActive s;
     manualOverride := manualOverride s; connected := connected s;
     currentExamType := currentExamType s;
     visionAnalyzer := v; remotelyClient := remotelyClient s;
     currentQuestion := currentQuestion s;
     questionHistory := questionHistory s;
     screenshotInterval := screenshotInterval s;
     lastScreenshot := lastScreenshot s |}.

Definition set_remotelyClient (v : RemotelyClient.t) (s : t) : t :=
  {| sessionId := sessionId s; examId := examId s; isActive := isActive s;
     manualOverride := manualOverride s; connected := connected s;
     currentExamType := currentExamType s;
     visionAnalyzer := visionAnalyzer s; remotelyClient := v;
     currentQuestion := currentQuestion s;
     questionHistory := questionHistory s;
     screenshotInterval := screenshotInterval s;
     lastScreenshot := lastScreenshot s |}.

Definition set_currentQuestion (v : option Question) (s : t) : t :=
  {| sessionId := sessionId s; examId := examId s; isActive := isActive s;
     manualOverride := manualOverride s; connected := connected s;
     currentExamType := currentExamType s;
     visionAnalyzer := visionAnalyzer s; remotelyClient := remotelyClient s;
     currentQuestion := v;
     questionHistory := questionHistory s;
     screenshotInterval := screenshotInterval s;
     lastScreenshot := lastScreenshot s |}.

Definition set_questionHistory (v : list HistoryEntry) (s : t) : t :=
  {| sessionId := sessionId s; examId := examId s; isActive := isActive s;
     manualOverride := manualOverride s; connected := connected s;
     currentExamType := currentExamType s;
     visionAnalyzer := visionAnalyzer s; remotelyClient := remotelyClient s;
     currentQuestion := currentQuestion s;
     questionHistory := v;
     screenshotInterval := screenshotInterval s;
     lastScreenshot := lastScreenshot s |}.

Definition set_screenshotInterval (v : option nat) (s : t) : t :=
  {| sessionId := sessionId s; examId := examId s; isActive := isActive s;
     manualOverride := manualOverride s; connected := connected s;
     currentExamType := currentExamType s;
     visionAnalyzer := visionAnalyzer s; remotelyClient := remotelyClient s;
     currentQuestion := currentQuestion s;
     questionHistory := questionHistory s;
     screenshotInterval := v;
     lastScreenshot := lastScreenshot s |}.

Definition set_lastScreenshot (v : option string) (s : t) : t :=
  {| sessionId := sessionId s; examId := examId s; isActive := isActive s;
     manualOverride := manualOverride s; connected := connected s;
     currentExamType := currentExamType s;
     visionAnalyzer := visionAnalyzer s; remotelyClient := remotelyClient s;
     currentQuestion := currentQuestion s;
     questionHistory := questionHistory s;
     screenshotInterval := screenshotInterval s;
     lastScreenshot := v |}.

(** Assignments to fields of [this.currentQuestion]. *)
Definition found (a : AnswerData) (q : Question) : Question :=
  {| id := id q; question := question q; type := type q;
     options := options q; detectedAt := detectedAt q;
     status := "answered";
     q_answer := answer a;
     q_confidence := Some (confidence a);
     q_source := Some (source a);
     q_uncertainty := q_uncertainty q |}.

Definition doubted (u : UncertaintyData) (q : Question) : Question :=
  {| id := id q; question := question q; type := type q;
     options := options q; detectedAt := detectedAt q;
     status := "uncertain";
     q_answer := q_answer q;
     q_confidence := q_confidence q;
     q_source := q_source q;
     q_uncertainty := Some u |}.

(** [this.currentQuestion?.question] *)
Definition question_text (q : option Question) : option string :=
  match q with Some q => question q | None => None end.

(** The sub-objects. *)
Definition in_visionAnalyzer {A} (m : M VisionAnalyzer.t A) : M t A :=
  zoom visionAnalyzer set_visionAnalyzer m.

Definition in_remotelyClient {A} (m : M RemotelyClient.t A) : M t A :=
  zoom remotelyClient set_remotelyClient m.

Definition io_emit (e : IoEvent) : M t unit := tell (IoEmit e).

Record Started : Type := { started_examId : string }.

Section Methods.
Variable cfg : Config.
Variable env : Env.

Definition setManualOverride (enabled : bool) : M t unit :=
  modify (set_manualOverride enabled) ;;
  io_emit (io_manual_override_changed enabled (now env)) ;;
  log Info (if enabled then "Manual override enabled"
            else "Manual override disabled").

(** [startScreenshotMonitoring] has an empty body. *)
Definition startScreenshotMonitoring : M t unit := ret tt.

Definition startExam : M t Started :=
  try_catch
    (s <- get ;;
     (if negb (connected s)
      then throw "No active RDP connection"
      else ret tt) ;;
     modify (set_examId (Some (uuidv4 env))) ;;
     modify (set_isActive true) ;;
     modify (set_questionHistory []) ;;
     startScreenshotMonitoring ;;
     io_emit (io_exam_started (uuidv4 env) (now env)) ;;
     log Info ("Exam started. Exam ID: " ++ uuidv4 env) ;;
     ret {| started_examId := uuidv4 env |})
    (fun error =>
       log Error "Failed to start exam:" ;;
       throw error).

Definition stopExam : M t unit :=
  try_catch
    (modify (set_isActive false) ;;
     s <- get ;;
     match screenshotInterval s with
     | Some timer =>
         tell (ClearInterval timer) ;;
         modify (set_screenshotInterval None)
     | None => ret tt
     end ;;
     s <- get ;;
     io_emit (io_exam_stopped (examId s) (length (questionHistory s))
                (now env)) ;;
     log Info "Exam stopped. Questions answered:")
    (fun error =>
       log Error "Failed to stop exam:" ;;
       throw error).

Definition handleUncertainty (uncertaintyData : UncertaintyData) : M t unit :=
  try_catch
    (log Warn "AI uncertainty detected:" ;;
     io_emit (io_ai_uncertainty uncertaintyData (now env)) ;;
     setManualOverride true ;;
     s <- get ;;
     match currentQuestion s with
     | Some q => modify (set_currentQuestion (Some (doubted uncertaintyData q)))
     | None => ret tt
     end)
    (fun _ => log Error "Error handling uncertainty:").

Definition executeAnswer (answerData : AnswerData) : M t unit :=
  try_catch
    (log Info "Executing answer:" ;;
     s <- get ;;
     clickCoordinates <-
       in_visionAnalyzer
         (VisionAnalyzer.findAnswerCoordinates env (currentQuestion s)
            (answer answerData)) ;;
     match clickCoordinates with
     | Some c =>
         in_remotelyClient (RemotelyClient.clickAnswer env c false 100) ;;
         sleep (ai_screenshot_analysis_delay cfg) ;;
         s <- get ;;
         modify (set_questionHistory
                   (questionHistory s ++
                    [{| h_question := currentQuestion s;
                        answeredAt := now env;
                        coordinates := c |}])%list) ;;
         io_emit (io_action_executed "click" c (currentQuestion s) (now env)) ;;
         log Info "Answer executed successfully via Remotely at"
     | None => throw "Could not determine click coordinates for answer"
     end)
    (fun error =>
       log Error "Failed to execute answer:" ;;
       s <- get ;;
       handleUncertainty
         {| u_question := question_text (currentQuestion s);
            u_answer := None; u_confidence := None;
            u_error := Some error;
            u_reason := Some "Execution failed";
            u_analysis := None |}).

Definition handleAnswerFound (answerData : AnswerData) : M t unit :=
  try_catch
    (log Info "Answer found:" ;;
     s <- get ;;
     match currentQuestion s with
     | Some q => modify (set_currentQuestion (Some (found answerData q)))
     | None => ret tt
     end ;;
     s <- get ;;
     io_emit (io_answer_found (currentQuestion s) answerData (now env)) ;;
     if js_ge (confidence answerData) (ai_confidence_threshold cfg)
     then executeAnswer answerData
     else
       handleUncertainty
         {| u_question := question_text (currentQuestion s);
            u_answer := answer answerData;
            u_confidence := Some (confidence answerData);
            u_error := None;
            u_reason := Some "Low confidence";
            u_analysis := None |})
    (fun _ => log Error "Error handling answer:").

Definition searchOnlineForAnswer (q : option string) : M t unit :=
  try_catch
    (log Info "Searching online for answer:" ;;
     handleUncertainty
       {| u_question := q; u_answer := None; u_confidence := None;
          u_error := None;
          u_reason := Some "Answer not found in knowledge base, online search not implemented yet";
          u_analysis := None |})
    (fun error =>
       log Error "Online search failed:" ;;
       handleUncertainty
         {| u_question := q; u_answer := None; u_confidence := None;
            u_error := Some error;
            u_reason := Some "Online search failed";
            u_analysis := None |}).

Definition handleQuestionDetected (questionData : QuestionData) : M t unit :=
  try_catch
    (log Info "Question detected:" ;;
     let q := {| id := uuidv4 env;
                 question := qd_question questionData;
                 type := qd_type questionData;
                 options := qd_options questionData;
                 detectedAt := now env;
                 status := "analyzing";
                 q_answer := None; q_confidence := None;
                 q_source := None; q_uncertainty := None |} in
     modify (set_currentQuestion (Some q)) ;;
     io_emit (io_question_detected q) ;;
     s <- get ;;
     ragResults <-
       request (rag_search (qd_question questionData) 5
                  (Some (currentExamType s)))
               (ragSystem_search env (qd_question questionData) 5
                  (Some (currentExamType s))) ;;
     io_emit (io_ai_reasoning (currentExamType s)
                (match ragResults with
                 | [] => ["no_matching_documents"]
                 | _ :: _ => []
                 end)
                (length ragResults)) ;;
     match hd_error ragResults with
     | Some r0 =>
         if js_gt (score r0) (rag_similarity_threshold cfg)
         then
           handleAnswerFound
             {| answer := Some (content r0);
                confidence := score r0;
                source := "rag_" ++ currentExamType s;
                ad_question := None;
                ad_examType := Some (currentExamType s);
                ad_ragResults := firstn 3 ragResults |}
         else searchOnlineForAnswer (qd_question questionData)
     | None => searchOnlineForAnswer (qd_question questionData)
     end)
    (fun error =>
       log Error "Error handling question detection:" ;;
       handleUncertainty
         {| u_question := qd_question questionData;
            u_answer := None; u_confidence := None;
            u_error := Some error;
            u_reason := None;
            u_analysis := None |}).

(** What [handleRemotelyScreenshot] does once [analyzeScreen] has
    returned: the broadcast of the analysis. *)
Definition analysed_screenshot (analysis : Analysis) : M t (option Analysis) :=
  io_emit (io_screen_analysis analysis (now env)) ;;
  ret (Some analysis).

Definition handleRemotelyScreenshot (screenshotData : ScreenshotData)
  : M t (option Analysis) :=
  try_catch
    (s <- get ;;
     if negb (isActive s) || manualOverride s
     then
       io_emit (io_screenshot (imageData screenshotData)
                  (timestamp screenshotData)) ;;
       ret None
     else
       let imageBuffer := imageData screenshotData in
       modify (set_lastScreenshot (Some imageBuffer)) ;;
       io_emit (io_screenshot (imageData screenshotData)
                  (timestamp screenshotData)) ;;
       analysis <- in_visionAnalyzer
                     (VisionAnalyzer.analyzeScreen cfg env imageBuffer) ;;
       analysed_screenshot analysis)
    (fun _ => log Error "Screenshot analysis failed:" ;; ret None).

(** [handleRemotelyScreenshot] cut at the point where it is suspended:
    [screenshot_start] runs from the arrival of the screenshot to the
    request sent to the vision model, on which [analyzeScreen] awaits
    (the result tells whether the handler is suspended there), and
    [screenshot_resume] runs from the model's answer to the end. *)
Definition screenshot_start (screenshotData : ScreenshotData) : M t bool :=
  s <- get ;;
  if negb (isActive s) || manualOverride s
  then
    io_emit (io_screenshot (imageData screenshotData)
               (timestamp screenshotData)) ;;
    ret false
  else
    modify (set_lastScreenshot (Some (imageData screenshotData))) ;;
    io_emit (io_screenshot (imageData screenshotData)
               (timestamp screenshotData)) ;;
    log Info "Starting screen analysis..." ;;
    tell (Call (ollama_analyzeExamScreen (imageData screenshotData))) ;;
    ret true.

Definition screenshot_resume (screenshotData : ScreenshotData)
    (answered : Res Analysis) : M t (option Analysis) :=
  try_catch
    (analysis <-
       in_visionAnalyzer
         (try_catch
            (screenAnalysis <- answer_of answered ;;
             VisionAnalyzer.analyzed cfg env (imageData screenshotData)
               screenAnalysis)
            (fun error =>
               log Error "Screen analysis failed:" ;;
               throw error)) ;;
     analysed_screenshot analysis)
    (fun _ => log Error "Screenshot analysis failed:" ;; ret None).

(** [setupEventHandlers]: the handler that the listener on each of the
    analyzer's events starts, without waiting for it. *)
Definition setupEventHandlers (e : AnalyzerEvent) : M t unit :=
  match e with
  | question_detected d => handleQuestionDetected d
  | answer_found d => handleAnswerFound d
  | uncertainty d => handleUncertainty d
  | ai_reasoning _ _ _ => ret tt
  end.

End Methods.

End ExamTaker.

(** ** The event loop

    Node.js runs a handler until it awaits; the screenshots that arrive in
    the meantime start handlers of their own.  The loop state holds the exam
    taker, the screenshots whose handler is suspended on the vision model (in
    order of arrival) and the effects so far. *)

Module EventLoop.

Import ExamTaker.

Record t : Type := {
  examTaker : ExamTaker.t;
  awaiting : list ScreenshotData;
  effects : list Effect
}.

Definition boot (s : ExamTaker.t) : t :=
  {| examTaker := s; awaiting := []; effects := [] |}.

Section Steps.
Variable cfg : Config.
Variable env : Env.

(** The remote client emits [screenshot]: the listener starts
    [handleRemotelyScreenshot], which runs to its first suspension. *)
Definition arrive (l : t) (sd : ScreenshotData) : t :=
  let r := screenshot_start sd (examTaker l) in
  {| examTaker := state r;
     awaiting := match result r with
                 | Ok true => (awaiting l ++ [sd])%list
                 | _ => awaiting l
                 end;
     effects := (effects l ++ trace r)%list |}.

(** The vision model answers the oldest outstanding request: its handler
    runs to the end. *)
Definition answered (l : t) : t :=
  match awaiting l with
  | [] => l
  | sd :: rest =>
      let r := screenshot_resume cfg env sd
                 (analyzeExamScreen env (imageData sd)) (examTaker l) in
      {| examTaker := state r;
         awaiting := rest;
         effects := (effects l ++ trace r)%list |}
  end.

Definition arrivals (l : t) (sds : list ScreenshotData) : t :=
  fold_left arrive sds l.

End Steps.

(** The requests for a screen analysis in a trace. *)
Definition analysis_requests (tr : list Effect) : list string :=
  flat_map (fun e => match e with
                     | Call (ollama_analyzeExamScreen img) => [img]
                     | _ => []
                     end) tr.

End EventLoop.

(** ** Reading a trace *)

Definition requests (tr : list Effect) : list Request :=
  flat_map (fun e => match e with Call r => [r] | _ => [] end) tr.

Definition emitted (tr : list Effect) : list AnalyzerEvent :=
  flat_map (fun e => match e with Emit a => [a] | _ => [] end) tr.

Definition broadcasts (tr : list Effect) : list IoEvent :=
  flat_map (fun e => match e with IoEmit a => [a] | _ => [] end) tr.

Definition sent (tr : list Effect) : list Message :=
  flat_map (fun e => match e with WsSend m => [m] | _ => [] end) tr.

(** The requests to the reasoning stage and to the web search. *)
Definition is_reasoning (r : Request) : bool :=
  match r with ollama_reasonAboutAnswer _ _ _ => true | _ => false end.

Definition is_web_search (r : Request) : bool :=
  match r with web_searchForQuestionType _ _ => true | _ => false end.

(** [executeAnswer] logs this line first, and nothing else logs it. *)
Definition executes (tr : list Effect) : Prop :=
  In (Log Info "Executing answer:") tr.

(** [clickAnswer] logs this line when it returns normally. *)
Definition clicks (tr : list Effect) : Prop :=
  In (Log Info "Answer clicked via Remotely:") tr.

(** [c >= t] as a proposition. *)
Definition at_least (c : jsnum) (t : Q) : Prop :=
  match c with Num q => (t <= q)%Q | NaN => False end.

(** ** Reference runs of the exam taker *)

Module Run.

Import ExamTaker.

(** The state [handleUncertainty] leaves, and its effects. *)
Definition flagged (u : UncertaintyData) (s : ExamTaker.t) : ExamTaker.t :=
  match currentQuestion s with
  | Some q => set_currentQuestion (Some (doubted u q)) (set_manualOverride true s)
  | None => set_manualOverride true s
  end.

Definition flagging (env : Env) (u : UncertaintyData) : list Effect :=
  [Log Warn "AI uncertainty detected:";
   IoEmit (io_ai_uncertainty u (now env));
   IoEmit (io_manual_override_changed true (now env));
   Log Info "Manual override enabled"].

(** The state after [handleAnswerFound] has written the answer into the
    current question. *)
Definition recorded (a : AnswerData) (s : ExamTaker.t) : ExamTaker.t :=
  match currentQuestion s with
  | Some q => set_currentQuestion (Some (found a q)) s
  | None => s
  end.

(** The state after [handleQuestionDetected] has created the question. *)
Definition fresh_question (env : Env) (d : QuestionData) : Question :=
  {| id := uuidv4 env; question := qd_question d; type := qd_type d;
     options := qd_options d; detectedAt := now env; status := "analyzing";
     q_answer := None; q_confidence := None; q_source := None;
     q_uncertainty := None |}.

(** The uncertainty reports the handlers build. *)
Definition low_confidence (a : AnswerData) (q : option Question) : UncertaintyData :=
  {| u_question := question_text q; u_answer := answer a;
     u_confidence := Some (confidence a); u_error := None;
     u_reason := Some "Low confidence"; u_analysis := None |}.

Definition execution_failed (error : string) (q : option Question)
  : UncertaintyData :=
  {| u_question := question_text q; u_answer := None; u_confidence := None;
     u_error := Some error; u_reason := Some "Execution failed";
     u_analysis := None |}.

Definition not_in_knowledge_base (q : option string) : UncertaintyData :=
  {| u_question := q; u_answer := None; u_confidence := None;
     u_error := None;
     u_reason := Some "Answer not found in knowledge base, online search not implemented yet";
     u_analysis := None |}.

Definition detection_failed (error : string) (q : option string)
  : UncertaintyData :=
  {| u_question := q; u_answer := None; u_confidence := None;
     u_error := Some error; u_reason := None; u_analysis := None |}.

(** The test of [handleQuestionDetected] and [findAnswer] on the search
    results: the first one, when its score is above the threshold. *)
Definition top_hit (cfg : Config) (l : list RagResult) : option RagResult :=
  match hd_error l with
  | Some r0 =>
      if js_gt (score r0) (rag_similarity_threshold cfg) then Some r0 else None
  | None => None
  end.

(** The execution attempt of [executeAnswer] fails: no coordinates, or the
    click is rejected. *)
Definition execution_fails (env : Env) (a : AnswerData) (s : ExamTaker.t) : Prop :=
  match result (VisionAnalyzer.findAnswerCoordinates env (currentQuestion s)
                  (answer a) (visionAnalyzer s)) with
  | Ok (Some c) =>
      exists e,
        result (RemotelyClient.clickAnswer env c false 100 (remotelyClient s))
        = Throw e
  | Ok None => True
  | Throw _ => True
  end.

(** The text given to the reasoner when the web search gave nothing. *)
Definition knowledge_context (l : list RagResult) : string :=
  js_join VisionAnalyzer.blank_line
    match hd_error l with Some r0 => [Some (content r0)] | None => [] end.

(** What [fallback] of the analyzer does from the request to the reasoner
    on, after the effects [before]. *)
Definition reasoned (env : Env) (analysis : Analysis) (l : list RagResult)
    (va : VisionAnalyzer.t) (before : list Effect)
  : Res VisionAnalyzer.Best * VisionAnalyzer.t * list Effect :=
  let asked :=
    (before ++
     [Call (ollama_reasonAboutAnswer (a_question analysis)
              (a_options analysis) (knowledge_context l))])%list in
  match reasonAboutAnswer env (a_question analysis) (a_options analysis)
          (knowledge_context l) with
  | Ok rr =>
      (Ok (r_answer rr, "reasoning", r_confidence rr), va,
       (asked ++
        [Log Info "Answer determined by AI reasoning:";
         Emit (ai_reasoning rr (0 <? length l)%nat false)])%list)
  | Throw e => (Throw e, va, asked)
  end.

End Run.

(** ** Handlers suspended at their awaits

    A handler runs without interruption up to an [await]; while it waits,
    the handlers of other events run and may write to the exam taker.
    [Others] gives, for each [await] of [executeAnswer] and of
    [handleQuestionDetected], what the other handlers have done to the exam
    taker when this one resumes.  The methods below are those of
    [ExamTaker] cut at these points; the state a run ends in is the exam
    taker at the handler's last step. *)

Module Scheduled.

Import ExamTaker.

Record Others : Type := {
  during_lookup : ExamTaker.t -> ExamTaker.t;  (* [await findAnswerCoordinates(..)] *)
  during_click : ExamTaker.t -> ExamTaker.t;   (* the delay inside [clickAnswer] *)
  after_click : ExamTaker.t -> ExamTaker.t;    (* [await clickAnswer(..)] *)
  during_wait : ExamTaker.t -> ExamTaker.t;    (* the wait for the page to update *)
  during_search : ExamTaker.t -> ExamTaker.t   (* [await ragSystem.search(..)] *)
}.

(** No other handler runs. *)
Definition quiet : Others :=
  {| during_lookup := fun s => s; during_click := fun s => s;
     after_click := fun s => s; during_wait := fun s => s;
     during_search := fun s => s |}.

(** The other handlers leave a field of the exam taker as it is. *)
Definition keeps {A} (field : ExamTaker.t -> A) (o : Others) : Prop :=
  forall s,
    field (during_lookup o s) = field s /\
    field (during_click o s) = field s /\
    field (after_click o s) = field s /\
    field (during_wait o s) = field s /\
    field (during_search o s) = field s.

(** [await m]: the handler resumes, with the result of [m] or with its
    exception, after the others have run. *)
Definition await {A} (others : ExamTaker.t -> ExamTaker.t) (m : M ExamTaker.t A)
  : M ExamTaker.t A :=
  fun s => match m s with (r, s1, t1) => (r, others s1, t1) end.

Section Methods.
Variable cfg : Config.
Variable env : Env.
Variable o : Others.

(** [this.remotelyClient.clickAnswer(clickCoordinates)], with the default
    options. *)
Definition clickAnswer (c : Coordinates) : M ExamTaker.t RemotelyClient.ClickResult :=
  try_catch
    (in_remotelyClient (RemotelyClient.sendMouseMove env (x c) (y c)) ;;
     await (during_click o) (sleep 100) ;;
     in_remotelyClient (RemotelyClient.sendMouseClick env (x c) (y c) "left") ;;
     log Info "Answer clicked via Remotely:" ;;
     ret {| RemotelyClient.success := true; RemotelyClient.clicked := c |})
    (fun error =>
       log Error "Failed to click answer via Remotely:" ;;
       throw error).

Definition executeAnswer (answerData : AnswerData) : M ExamTaker.t unit :=
  try_catch
    (log Info "Executing answer:" ;;
     s <- get ;;
     clickCoordinates <-
       await (during_lookup o)
         (in_visionAnalyzer
            (VisionAnalyzer.findAnswerCoordinates env (currentQuestion s)
               (answer answerData))) ;;
     match clickCoordinates with
     | Some c =>
         await (after_click o) (clickAnswer c) ;;
         await (during_wait o) (sleep (ai_screenshot_analysis_delay cfg)) ;;
         s <- get ;;
         modify (set_questionHistory
                   (questionHistory s ++
                    [{| h_question := currentQuestion s;
                        answeredAt := now env;
                        coordinates := c |}])%list) ;;
         io_emit (io_action_executed "click" c (currentQuestion s) (now env)) ;;
         log Info "Answer executed successfully via Remotely at"
     | None => throw "Could not determine click coordinates for answer"
     end)
    (fun error =>
       log Error "Failed to execute answer:" ;;
       s <- get ;;
       handleUncertainty env
         {| u_question := question_text (currentQuestion s);
            u_answer := None; u_confidence := None;
            u_error := Some error;
            u_reason := Some "Execution failed";
            u_analysis := None |}).

Definition handleAnswerFound (answerData : AnswerData) : M ExamTaker.t unit :=
  try_catch
    (log Info "Answer found:" ;;
     s <- get ;;
     match currentQuestion s with
     | Some q => modify (set_currentQuestion (Some (found answerData q)))
     | None => ret tt
     end ;;
     s <- get ;;
     io_emit (io_answer_found (currentQuestion s) answerData (now env)) ;;
     if js_ge (confidence answerData) (ai_confidence_threshold cfg)
     then executeAnswer answerData
     else
       handleUncertainty env
         {| u_question := question_text (currentQuestion s);
            u_answer := answer answerData;
            u_confidence := Some (confidence answerData);
            u_error := None;
            u_reason := Some "Low confidence";
            u_analysis := None |})
    (fun _ => log Error "Error handling answer:").

Definition handleQuestionDetected (questionData : QuestionData)
  : M ExamTaker.t unit :=
  try_catch
    (log Info "Question detected:" ;;
     let q := {| id := uuidv4 env;
                 question := qd_question questionData;
                 type := qd_type questionData;
                 options := qd_options questionData;
                 detectedAt := now env;
                 status := "analyzing";
                 q_answer := None; q_confidence := None;
                 q_source := None; q_uncertainty := None |} in
     modify (set_currentQuestion (Some q)) ;;
     io_emit (io_question_detected q) ;;
     s <- get ;;
     ragResults <-
       await (during_search o)
         (request (rag_search (qd_question questionData) 5
                     (Some (currentExamType s)))
                  (ragSystem_search env (qd_question questionData) 5
                     (Some (currentExamType s)))) ;;
     s <- get ;;
     io_emit (io_ai_reasoning (currentExamType s)
                (match ragResults with
                 | [] => ["no_matching_documents"]
                 | _ :: _ => []
                 end)
                (length ragResults)) ;;
     match hd_error ragResults with
     | Some r0 =>
         if js_gt (score r0) (rag_similarity_threshold cfg)
         then
           handleAnswerFound
             {| answer := Some (content r0);
                confidence := score r0;
                source := "rag_" ++ currentExamType s;
                ad_question := None;
                ad_examType := Some (currentExamType s);
                ad_ragResults := firstn 3 ragResults |}
         else searchOnlineForAnswer env (qd_question questionData)
     | None => searchOnlineForAnswer env (qd_question questionData)
     end)
    (fun error =>
       log Error "Error handling question detection:" ;;
       handleUncertainty env
         {| u_question := qd_question questionData;
            u_answer := None; u_confidence := None;
            u_error := Some error;
            u_reason := None;
            u_analysis := None |}).

End Methods.

(** The state in which [executeAnswer] resumes from the coordinate lookup. *)
Definition located (env : Env) (o : Others) (a : AnswerData) (s : ExamTaker.t)
  : ExamTaker.t :=
  during_lookup o
    (set_visionAnalyzer
       (state (VisionAnalyzer.findAnswerCoordinates env (currentQuestion s)
                 (answer a) (visionAnalyzer s))) s).

(** The execution attempt of [executeAnswer] fails: the lookup gives no
    coordinates, or the click is rejected. *)
Definition execution_fails (env : Env) (o : Others) (a : AnswerData)
    (s : ExamTaker.t) : Prop :=
  match result (VisionAnalyzer.findAnswerCoordinates env (currentQuestion s)
                  (answer a) (visionAnalyzer s)) with
  | Ok (Some c) =>
      exists e, result (clickAnswer env o c (located env o a s)) = Throw e
  | Ok None => True
  | Throw _ => True
  end.


End Scheduled.

(** ** Concrete sessions *)

Module Scenario.

Import ExamTaker.

Definition paris : Coordinates := {| x := 100; y := 200 |}.

Definition choices : list AnswerOption :=
  [ {| text := "Paris"; position := paris; identifier := "A" |};
    {| text := "Lyon"; position := {| x := 100; y := 260 |}; identifier := "B" |} ].

(** What the vision model reports, at a given confidence. *)
Definition report (c : Q) : Analysis :=
  {| a_question := Some "Capital of France?";
     a_question_type := "multiple_choice";
     a_options := choices;
     a_confidence := Num c |}.

Definition detected : QuestionData :=
  {| qd_question := Some "Capital of France?";
     qd_type := "multiple_choice";
     qd_options := choices;
     qd_confidence := Num (95 # 100)%Q |}.

(** An environment: the knowledge base with the given answer, the vision
    model reporting with the given confidence, the coordinate lookup with
    the given answer; no web search; a reasoner that answers "Paris" with
    confidence 0.55. *)
Definition world (kb : Res (list RagResult)) (seen : Q)
    (located : Res CoordinateResult) : Env :=
  {| uuidv4 := "7c9e6679";
     now := "2025-01-01T10:00:00.000Z";
     ragSystem_search := fun _ _ _ => kb;
     analyzeExamScreen := fun _ => Ok (report seen);
     reasonAboutAnswer := fun _ _ _ =>
       Ok {| r_reasoning := "capital city"; r_answer := Some "Paris";
             r_confidence := Num (55 # 100)%Q; r_key_concepts := [];
             r_uncertainty_factors := [] |};
     ollamaFindAnswerCoordinates := fun _ _ => located;
     webSearch_isConfigured := false;
     searchForQuestionType := fun _ _ => Ok [];
     ws_send := fun _ => Ok tt |}.

Definition at_paris : Res CoordinateResult :=
  Ok {| cr_coordinates := Some paris; cr_confidence := Num (9 # 10)%Q |}.

Definition nowhere : Res CoordinateResult :=
  Ok {| cr_coordinates := None; cr_confidence := Num (9 # 10)%Q |}.

(** The knowledge base knows nothing; the screen is read with confidence
    0.95. *)
Definition empty_kb : Env := world (Ok []) (95 # 100)%Q at_paris.

(** The knowledge base is down. *)
Definition broken_kb : Env :=
  world (Throw "RAG system not initialized") (95 # 100)%Q at_paris.

(** The screen is read with confidence 0.3, below the floor. *)
Definition blurred : Env := world (Ok []) (3 # 10)%Q at_paris.

(** The answer is not found on the screen. *)
Definition unlocated : Env := world (Ok []) (95 # 100)%Q nowhere.

(** The web search is configured and fails. *)
Definition broken_web : Env :=
  {| uuidv4 := uuidv4 empty_kb;
     now := now empty_kb;
     ragSystem_search := ragSystem_search empty_kb;
     analyzeExamScreen := analyzeExamScreen empty_kb;
     reasonAboutAnswer := reasonAboutAnswer empty_kb;
     ollamaFindAnswerCoordinates := ollamaFindAnswerCoordinates empty_kb;
     webSearch_isConfigured := true;
     searchForQuestionType := fun _ _ => Throw "timeout of 10000ms exceeded";
     ws_send := ws_send empty_kb |}.

(** The knowledge base is down and the web search, configured, fails. *)
Definition outage : Env :=
  {| uuidv4 := uuidv4 broken_kb;
     now := now broken_kb;
     ragSystem_search := ragSystem_search broken_kb;
     analyzeExamScreen := analyzeExamScreen broken_kb;
     reasonAboutAnswer := reasonAboutAnswer broken_kb;
     ollamaFindAnswerCoordinates := ollamaFindAnswerCoordinates broken_kb;
     webSearch_isConfigured := true;
     searchForQuestionType := fun _ _ => Throw "timeout of 10000ms exceeded";
     ws_send := ws_send broken_kb |}.

(** A connected exam taker before any exam, with the history of an
    earlier run. *)
Definition connected_taker : ExamTaker.t :=
  {| sessionId := Some "viewer_1"; examId := Some "earlier-exam";
     isActive := false; manualOverride := false; connected := true;
     currentExamType := "general";
     visionAnalyzer := VisionAnalyzer.new;
     remotelyClient := RemotelyClient.new;
     currentQuestion := None;
     questionHistory :=
       [ {| h_question := None; answeredAt := "2024-12-31T09:00:00.000Z";
            coordinates := paris |} ];
     screenshotInterval := Some 1; lastScreenshot := None |}.

(** An exam in progress. *)
Definition running : ExamTaker.t :=
  state (startExam empty_kb connected_taker).

(** The operator has taken control. *)
Definition overridden : ExamTaker.t := set_manualOverride true running.

(** A question read from the screen and answered "Paris" with confidence
    0.92 by the knowledge base. *)
Definition paris_answer : AnswerData :=
  {| answer := Some "Paris"; confidence := Num (92 # 100)%Q;
     source := "rag_general"; ad_question := None;
     ad_examType := Some "general"; ad_ragResults := [] |}.

Definition resolving : ExamTaker.t :=
  set_currentQuestion (Some (Run.fresh_question empty_kb detected))
    (set_visionAnalyzer
       (VisionAnalyzer.remember
          {| sa_analysis := report (95 # 100)%Q;
             sa_timestamp := now empty_kb; sa_imageBase64 := "aW1hZ2Ux" |}
          VisionAnalyzer.new)
       running).

(** The operator takes control while that resolution is in flight. *)
Definition resolving_overridden : ExamTaker.t :=
  set_manualOverride true resolving.

Definition shot (n : string) : ScreenshotData :=
  {| imageData := n; timestamp := "2025-01-01T10:00:00.000Z" |}.

End Scenario.

(** ** Further methods of the analyzer and of the exam taker *)

Module ScreenHistory.

Import VisionAnalyzer.

(** [VisionAnalyzer.clearHistory] *)
Definition clearHistory : M VisionAnalyzer.t unit :=
  modify (fun _ => {| lastAnalysis := None; analysisHistory := [] |}) ;;
  log Info "Analysis history cleared".

(** [VisionAnalyzer.getLastAnalysis] and [getAnalysisHistory] *)
Definition getLastAnalysis : M VisionAnalyzer.t (option StoredAnalysis) :=
  s <- get ;; ret (lastAnalysis s).

Definition getAnalysisHistory : M VisionAnalyzer.t (list StoredAnalysis) :=
  s <- get ;; ret (analysisHistory s).

(** The analyzer after the screenshots [imgs], analysed one after the
    other. *)
Definition analyses (cfg : Config) (env : Env) (imgs : list string)
    (va : VisionAnalyzer.t) : VisionAnalyzer.t :=
  fold_left (fun v img => state (analyzeScreen cfg env img v)) imgs va.

(** The events by which [findAnswer] ends. *)
Definition is_verdict (e : AnalyzerEvent) : bool :=
  match e with
  | answer_found _ => true
  | uncertainty _ => true
  | _ => false
  end.

End ScreenHistory.

Module Capture.

Import ExamTaker.

Section Methods.
Variable cfg : Config.
Variable env : Env.

(** [ExamTaker.captureAndAnalyzeScreen] *)
Definition captureAndAnalyzeScreen : M ExamTaker.t Analysis :=
  s <- get ;;
  match lastScreenshot s with
  | Some buffer => in_visionAnalyzer (VisionAnalyzer.analyzeScreen cfg env buffer)
  | None => throw "No screenshot available from Remotely client"
  end.


(** [isConnected], [isExamActive], [isManualOverride], [getCurrentExamType] *)
Definition isConnected : M ExamTaker.t bool := s <- get ;; ret (connected s).
Definition isExamActive : M ExamTaker.t bool := s <- get ;; ret (isActive s).
Definition isManualOverride : M ExamTaker.t bool :=
  s <- get ;; ret (manualOverride s).
Definition getCurrentExamType : M ExamTaker.t string :=
  s <- get ;; ret (currentExamType s).

End Methods.

End Capture.

(** ** Methods with effects of their own

    The classes below have effects that the pipeline's [Effect] does not
    name (HTTP requests, the remote client's own events, robot calls,
    vector-store requests).  Their methods run in the same kind of monad
    over the effects [Ext]; [Core] carries an effect of the pipeline. *)

Record Device : Type := {
  device_id : string;
  deviceName : string
}.

(** The events of the remote client (an EventEmitter). *)
Inductive ClientEvent : Type :=
| client_connected
| client_screenshot (imageData imageFormat timestamp : string)
| client_cursor_change
| client_screen_size
| client_clipboard.

(** Calls of the [robotjs] library. *)
Inductive RobotCall : Type :=
| robot_moveMouse (px py : Z)
| robot_mouseClick (button : string) (double : bool)
| robot_mouseToggle (down : bool)
| robot_dragMouse (px py : Z)
| robot_keyTap (key : string) (modifiers : list string)
| robot_typeString (txt : string)
| robot_scrollMouse (dx dy : Z).

(** Broadcasts to the dashboard that [IoEvent] does not name. *)
Inductive IoMore : Type :=
| io_rdp_connected (sessionId deviceId : option string) (timestamp : string)
| io_rdp_disconnected (timestamp : string)
| io_manual_click (px py : Z) (timestamp : string)
| io_manual_type (txt : string) (timestamp : string)
| io_exam_type_changed (examType : string) (timestamp : string)
| io_exam_readiness_check (examType : string) (isReady : bool)
    (documentCount : nat) (ragSystemReady : bool) (timestamp : string).

(** [socket.emit('debug_info', {lastAction})] of the manual control events. *)
Inductive LastAction : Type :=
| click_at (px py : Z)
| typed_text (txt : string).

Inductive Ext : Type :=
| Core (e : Effect)
| HttpGet (url apiKey : string)
| HttpPost (url apiKey deviceID : string)
| ClientEmit (e : ClientEvent)
| WsClose
| Robot (c : RobotCall)
| ActionLog (action : string)
| IoEmitMore (e : IoMore)
| SetInterval (ms : nat)
| Embed (txt : string)
| ChromaQuery (limit : nat) (subject : option string)
| ChromaAdd (documentId : string)
| ChromaGet (subject : option string)
| SocketEmit (a : LastAction).

Module Proc.

Definition P (S A : Type) : Type := S -> Res A * S * list Ext.

Definition result {S A} (r : Res A * S * list Ext) : Res A := fst (fst r).
Definition state {S A} (r : Res A * S * list Ext) : S := snd (fst r).
Definition trace {S A} (r : Res A * S * list Ext) : list Ext := snd r.

Definition ret {S A} (a : A) : P S A := fun s => (Ok a, s, []).

Definition bind {S A B} (m : P S A) (k : A -> P S B) : P S B :=
  fun s =>
    match m s with
    | (Ok a, s1, t1) =>
        match k a s1 with
        | (r, s2, t2) => (r, s2, (t1 ++ t2)%list)
        end
    | (Throw e, s1, t1) => (Throw e, s1, t1)
    end.

Definition throw {S A} (e : string) : P S A := fun s => (Throw e, s, []).

Definition try_catch {S A} (m : P S A) (h : string -> P S A) : P S A :=
  fun s =>
    match m s with
    | (Ok a, s1, t1) => (Ok a, s1, t1)
    | (Throw e, s1, t1) =>
        match h e s1 with
        | (r, s2, t2) => (r, s2, (t1 ++ t2)%list)
        end
    end.

Definition get {S} : P S S := fun s => (Ok s, s, []).
Definition modify {S} (f : S -> S) : P S unit := fun s => (Ok tt, f s, []).
Definition tell {S} (e : Ext) : P S unit := fun s => (Ok tt, s, [e]).
Definition answer_of {S A} (r : Res A) : P S A := fun s => (r, s, []).
Definition log {S} (lvl : Level) (msg : string) : P S unit :=
  tell (Core (Log lvl msg)).
Definition sleep {S} (ms : nat) : P S unit := tell (Core (Sleep ms)).

(** A request: recorded in the trace, answered by a collaborator. *)
Definition ask {S A} (e : Ext) (a : Res A) : P S A :=
  bind (tell e) (fun _ => answer_of a).

Definition zoom {S T A} (proj : S -> T) (upd : T -> S -> S) (m : P T A) : P S A :=
  fun s =>
    match m (proj s) with
    | (r, t1, tr) => (r, upd t1 s, tr)
    end.

(** A method of the pipeline, run among these. *)
Definition core {S A} (m : M S A) : P S A :=
  fun s =>
    match m s with
    | (r, s1, t1) => (r, s1, map Core t1)
    end.

End Proc.

Declare Scope proc_scope.
Notation "x <- m ;; k" := (Proc.bind m (fun x => k))
  (at level 61, m at next level, right associativity) : proc_scope.
Notation "m ;; k" := (Proc.bind m (fun _ => k))
  (at level 61, right associativity) : proc_scope.

(** The pipeline's effects among those of a run. *)
Definition core_effects (tr : list Ext) : list Effect :=
  flat_map (fun e => match e with Core c => [c] | _ => [] end) tr.

(** The primitives of JavaScript strings and numbers that the code relies
    on, taken here as given: the strings are UTF-16 text, and the numbers
    are IEEE 754 doubles, each of which is a rational. *)
Record JsString : Type := {
  toLowerCase : string -> string;
  split_whitespace : string -> list string;   (* [s.split(/\s+/)] *)
  trim : string -> string;
  js_length : string -> nat;
  one_minus : Q -> Q                          (* [1 - d], rounded to a double *)
}.

(** ** Sorting as [Array.prototype.sort] does

    [l.sort((a, b) => key(b) - key(a))] on numeric keys: the sort is stable,
    so the result is the one ordering of [l] by decreasing key in which
    elements of equal key keep their order. *)

Section SortDescending.
Variable A : Type.
Variable key : A -> Q.

(** [a], which came first, stays before [b] unless [key b - key a > 0]. *)
Definition stays_before (a b : A) : bool := Qle_bool (key b) (key a).

(** The order of the result: [b] may follow [a]. *)
Definition descending (a b : A) : Prop := (key b <= key a)%Q.

Fixpoint insert_descending (a : A) (l : list A) : list A :=
  match l with
  | [] => [a]
  | b :: t =>
      if stays_before a b then a :: b :: t else b :: insert_descending a t
  end.

Definition sort_descending (l : list A) : list A :=
  fold_right insert_descending [] l.

End SortDescending.

(** [n / d] on two sizes: [0 / 0] is [NaN]. *)
Definition ratio (n d : nat) : jsnum :=
  match d with
  | O => NaN
  | S _ => Num (Z.of_nat n # Pos.of_nat d)
  end.

(** The number under a score, for sorting. *)
Definition number (c : jsnum) : Q :=
  match c with Num q => q | NaN => 0%Q end.

(** ** RAGSystem *)

Module RAGSystem.

(** The keys of a document's metadata that the code reads or writes. *)
Record Metadata : Type := {
  subject : option string;
  kind : option string;
  added_at : option string;
  content_length : option nat
}.

Record Doc : Type := {
  doc_id : string;
  doc_content : string;
  doc_metadata : Metadata
}.

Record t : Type := {
  isInitialized : bool;
  useMemoryFallback : bool;
  memoryStore : list Doc
}.

(** The constructor. *)
Definition new : t :=
  {| isInitialized := false; useMemoryFallback := false; memoryStore := [] |}.

(** A search result: [{content, metadata, score, distance}]. *)
Record Found : Type := {
  f_content : string;
  f_metadata : Metadata;
  f_score : jsnum;
  f_distance : Q
}.

Record Added : Type := { a_id : string; a_success : bool }.

Record Stats : Type := {
  documentCount : nat;
  st_examType : option string;
  st_isReady : bool;
  avgContentLength : jsnum;
  st_error : option string
}.

(** The vector store and the embedding model. *)
Record Backend : Type := {
  generateEmbedding : string -> Res unit;
  collection_query :
    nat -> option string -> Res (option (list (string * Metadata * Q)));
  collection_add : string -> Res unit;
  collection_get : option string -> Res (option (list string));
  new_documentId : string;
  rag_now : string
}.

Definition push (d : Doc) (s : t) : t :=
  {| isInitialized := isInitialized s;
     useMemoryFallback := useMemoryFallback s;
     memoryStore := (memoryStore s ++ [d])%list |}.

(** [!examType || doc.metadata.subject === examType] *)
Definition in_exam (examType : option string) (d : Doc) : bool :=
  negb (truthy examType)
  || match subject (doc_metadata d), examType with
     | Some a, Some b => String.eqb a b
     | _, _ => false
     end.

(** [!examType || examType === 'all' || doc.metadata.subject === examType] *)
Definition in_exam_or_all (examType : option string) (d : Doc) : bool :=
  negb (truthy examType)
  || match examType with Some b => String.eqb b "all" | None => false end
  || match subject (doc_metadata d), examType with
     | Some a, Some b => String.eqb a b
     | _, _ => false
     end.

(** [new Set(words).size]: the number of distinct words. *)
Definition distinct (l : list string) : list string := nodup string_dec l.

Definition has (l : list string) (w : string) : bool :=
  if in_dec string_dec w l then true else false.

Section Methods.
Variable js : JsString.
Variable backend : Backend.

Local Open Scope proc_scope.
Import Proc.

Definition calculateTextSimilarity (text1 text2 : string) : jsnum :=
  let words1 := split_whitespace js text1 in
  let words2 := split_whitespace js text2 in
  let set1 := distinct words1 in
  let set2 := distinct words2 in
  let intersection := distinct (filter (has set2) set1) in
  let union := distinct (set1 ++ set2) in
  ratio (length intersection) (length union).

Definition scored (query : string) (d : Doc) : Found :=
  {| f_content := doc_content d;
     f_metadata := doc_metadata d;
     f_score := calculateTextSimilarity (toLowerCase js query)
                  (toLowerCase js (doc_content d));
     f_distance := 0%Q |}.

(** The in-memory branch of [search] before it sorts: the documents of the
    exam type, scored, that score above 0.1. *)
Definition candidates (query : string) (examType : option string)
    (store : list Doc) : list Found :=
  filter (fun r => js_gt (f_score r) (1 # 10)%Q)
    (map (scored query) (filter (in_exam examType) store)).

(** The in-memory branch of [search]. *)
Definition memory_search (query : string) (limit : nat)
    (examType : option string) (store : list Doc) : list Found :=
  firstn limit
    (sort_descending (fun r => number (f_score r))
       (filter (fun r => js_gt (f_score r) (1 # 10)%Q)
          (map (scored query) (filter (in_exam examType) store)))).

(** The ChromaDB branch of [search], from the store's answer on.  The
    comparison [b.score - a.score] of two doubles has the sign of their
    difference, so the sort orders the scores as rationals. *)
Definition processed (answer : option (list (string * Metadata * Q)))
  : list Found :=
  sort_descending (fun r => number (f_score r))
    (match answer with
     | Some rows =>
         map (fun row =>
                let '(document, metadata, distance) := row in
                {| f_content := document; f_metadata := metadata;
                   f_score := Num (one_minus js distance);
                   f_distance := distance |}) rows
     | None => []
     end).

Definition search (query : string) (limit : nat) (examType : option string)
  : P t (list Found) :=
  try_catch
    (s <- get ;;
     if negb (isInitialized s)
     then throw "RAG system not initialized"
     else
       log Info "Searching RAG system for:" ;;
       if useMemoryFallback s
       then
         let results := memory_search query limit examType (memoryStore s) in
         log Info "Memory search completed:" ;;
         ret results
       else
         ask (Embed query) (generateEmbedding backend query) ;;
         let whereClause := if truthy examType then examType else None in
         results <- ask (ChromaQuery limit whereClause)
                        (collection_query backend limit whereClause) ;;
         let processedResults := processed results in
         log Info "ChromaDB search completed:" ;;
         ret processedResults)
    (fun error => log Error "RAG search failed:" ;; throw error).

Definition addDocument (content : string) (metadata : Metadata) : P t Added :=
  try_catch
    (s <- get ;;
     if negb (isInitialized s)
     then throw "RAG system not initialized"
     else
       log Info "Adding document to RAG system" ;;
       let documentId := new_documentId backend in
       (if useMemoryFallback s
        then
          modify (push {| doc_id := documentId;
                          doc_content := content;
                          doc_metadata :=
                            {| subject := subject metadata;
                               kind := kind metadata;
                               added_at := Some (rag_now backend);
                               content_length := Some (js_length js content) |} |}) ;;
          log Info "Document added to memory store:"
        else
          ask (Embed content) (generateEmbedding backend content) ;;
          ask (ChromaAdd documentId) (collection_add backend documentId) ;;
          log Info "Document added to ChromaDB:") ;;
       ret {| a_id := documentId; a_success := true |})
    (fun error => log Error "Failed to add document to RAG:" ;; throw error).

Definition failed_stats (examType : option string) (error : string) : Stats :=
  {| documentCount := 0; st_examType := examType; st_isReady := false;
     avgContentLength := Num 0%Q; st_error := Some error |}.

Definition sum_lengths (l : list string) : nat :=
  fold_left (fun sum c => sum + js_length js c) l 0.

(** [count > 0 ? sum / count : 0] *)
Definition average (lengths : list string) : jsnum :=
  match lengths with
  | [] => Num 0%Q
  | _ :: _ => ratio (sum_lengths lengths) (length lengths)
  end.

Definition getExamTypeStats (examType : option string) : P t Stats :=
  try_catch
    (s <- get ;;
     if negb (isInitialized s)
     then throw "RAG system not initialized"
     else
       if useMemoryFallback s
       then
         let examDocs := filter (in_exam_or_all examType) (memoryStore s) in
         ret {| documentCount := length examDocs;
                st_examType := examType;
                st_isReady := isInitialized s;
                avgContentLength := average (map doc_content examDocs);
                st_error := None |}
       else
         let whereClause :=
           if truthy examType
              && negb (match examType with
                       | Some b => String.eqb b "all"
                       | None => false
                       end)
           then examType else None in
         results <- ask (ChromaGet whereClause)
                        (collection_get backend whereClause) ;;
         let documents := match results with Some d => d | None => [] end in
         ret {| documentCount := length documents;
                st_examType := examType;
                st_isReady := isInitialized s;
                avgContentLength := average documents;
                st_error := None |})
    (fun error =>
       log Error "Failed to get exam type stats:" ;;
       ret (failed_stats examType error)).

(** [findSimilarQuestions(question, threshold = 0.8)] *)
Definition findSimilarQuestions (question : string) (threshold : Q)
  : P t (list Found) :=
  try_catch
    (results <- search question 10 None ;;
     ret (filter (fun r =>
                    js_ge (f_score r) threshold
                    && match kind (f_metadata r) with
                       | Some k => String.eqb k "question"
                       | None => false
                       end) results))
    (fun error => log Error "Failed to find similar questions:" ;; throw error).

Definition isReady : P t bool := s <- get ;; ret (isInitialized s).

End Methods.

(** The order of the results of [search]: [b] may follow [a]. *)
Definition by_score (a b : Found) : Prop :=
  (number (f_score b) <= number (f_score a))%Q.

End RAGSystem.

(** ** RemotelyClient: connection *)

(** [s.split(c)] for a one-character separator. *)
Fixpoint split_on (c : ascii) (s : string) : list string :=
  match s with
  | EmptyString => [EmptyString]
  | String a rest =>
      match split_on c rest with
      | part :: parts =>
          if Ascii.eqb a c
          then EmptyString :: part :: parts
          else String a part :: parts
      | [] => []
      end
  end.

Module Link.

(** The client with the two fields that [connect] adds to it. *)
Record t : Type := {
  client : RemotelyClient.t;
  remotelyServerUrl : option string;
  accessKey : option string
}.

Definition new : t :=
  {| client := RemotelyClient.new; remotelyServerUrl := None; accessKey := None |}.

(** The Remotely server. *)
Record Server : Type := {
  get_devices : string -> string -> Res (option (list Device));
  get_device : string -> string -> Res bool;
  post_viewer : string -> string -> string -> Res (option string);
  generateConnectionId : string
}.

Record Connected : Type := {
  c_sessionId : string;
  connectionUrl : option string
}.

(** A parsed message of the websocket. *)
Record Incoming : Type := {
  msg_type : option string;
  msg_imageData : string;
  msg_imageFormat : option string;
  msg_connectionId : option string
}.

Definition set_client (c : RemotelyClient.t) (s : t) : t :=
  {| client := c; remotelyServerUrl := remotelyServerUrl s;
     accessKey := accessKey s |}.

(** [this.remotelyServerUrl = ...; this.deviceId = ...; this.accessKey = ...] *)
Definition remember (url deviceId key : string) (s : t) : t :=
  {| client :=
       {| RemotelyClient.ws := RemotelyClient.ws (client s);
          RemotelyClient.sessionId := RemotelyClient.sessionId (client s);
          RemotelyClient.deviceId := Some deviceId;
          RemotelyClient.connected := RemotelyClient.connected (client s);
          RemotelyClient.reconnectAttempts :=
            RemotelyClient.reconnectAttempts (client s);
          RemotelyClient.maxReconnectAttempts :=
            RemotelyClient.maxReconnectAttempts (client s);
          RemotelyClient.reconnectDelay :=
            RemotelyClient.reconnectDelay (client s) |};
     remotelyServerUrl := Some url;
     accessKey := Some key |}.

(** [this.connected = ...; this.sessionId = ...] *)
Definition session (on : bool) (id : option string) (c : RemotelyClient.t)
  : RemotelyClient.t :=
  {| RemotelyClient.ws := RemotelyClient.ws c;
     RemotelyClient.sessionId := id;
     RemotelyClient.deviceId := RemotelyClient.deviceId c;
     RemotelyClient.connected := on;
     RemotelyClient.reconnectAttempts := RemotelyClient.reconnectAttempts c;
     RemotelyClient.maxReconnectAttempts := RemotelyClient.maxReconnectAttempts c;
     RemotelyClient.reconnectDelay := RemotelyClient.reconnectDelay c |}.

(** [this.sessionId = ...] *)
Definition with_sessionId (id : option string) (c : RemotelyClient.t)
  : RemotelyClient.t :=
  session (RemotelyClient.connected c) id c.

(** [availableDevices.map(d => `${d.id} (${d.deviceName})`).join(', ')] *)
Definition deviceList (devices : list Device) : string :=
  String.concat ", "
    (map (fun d => device_id d ++ " (" ++ deviceName d ++ ")") devices).

Section Methods.
Variable js : JsString.
Variable env : Env.
Variable server : Server.
Variable clock : string.

Local Open Scope proc_scope.
Import Proc.

Definition connect (url deviceId key : string) : P t Connected :=
  try_catch
    (log Info "Connecting to Remotely server:" ;;
     modify (remember url deviceId key) ;;
     match split_on ":" (trim js key) with
     | [keyId; keySecret] =>
         let apiKey := keyId ++ ":" ++ keySecret in
         availableDevices <-
           ask (HttpGet (url ++ "/api/devices") apiKey)
               (get_devices server url apiKey) ;;
         match availableDevices with
         | Some (d :: ds) =>
             let devices := d :: ds in
             if existsb (fun device => String.eqb (device_id device) deviceId)
                  devices
             then
               found <- ask (HttpGet (url ++ "/api/devices/" ++ deviceId) apiKey)
                            (get_device server (url ++ "/api/devices/" ++ deviceId)
                               apiKey) ;;
               if found
               then
                 log Info "Device verified, establishing remote control session" ;;
                 data <-
                   ask (HttpPost (url ++ "/api/RemoteControl/Viewer/") apiKey
                          deviceId)
                       (post_viewer server url apiKey deviceId) ;;
                 if truthy data
                 then
                   modify (fun s =>
                             set_client
                               (session true (Some (generateConnectionId server))
                                  (client s)) s) ;;
                   log Info "Remotely session established:" ;;
                   tell (ClientEmit client_connected) ;;
                   ret {| c_sessionId := generateConnectionId server;
                          connectionUrl := data |}
                 else throw "Failed to establish remote control session"
               else throw ("Device " ++ deviceId ++ " not found or access denied")
             else
               throw ("Device " ++ deviceId ++ " not found. Available devices: "
                      ++ deviceList devices)
         | _ =>
             throw ("No devices are connected to the Remotely server. Please install the Remotely agent on a target computer first. Visit "
                    ++ url ++ "/downloads to download the agent.")
         end
     | _ => throw "Access key must be in format: keyId:keySecret"
     end)
    (fun error => log Error "Failed to connect to Remotely:" ;; throw error).

Definition disconnect : P t unit :=
  try_catch
    (s <- get ;;
     match RemotelyClient.ws (client s) with
     | Some _ =>
         if RemotelyClient.connected (client s)
         then
           zoom client set_client
             (core (RemotelyClient.sendMessage env
                      (ViewerDisconnected
                         (RemotelyClient.sessionId (client s))))) ;;
           tell WsClose ;;
           modify (fun s => set_client (session false None (client s)) s) ;;
           log Info "Disconnected from Remotely server"
         else ret tt
     | None => ret tt
     end)
    (fun error => log Error "Error disconnecting from Remotely:" ;; throw error).

Definition handleScreenData (message : Incoming) : P t unit :=
  try_catch
    (let imageFormat :=
       if truthy (msg_imageFormat message)
       then match msg_imageFormat message with Some f => f | None => "jpeg" end
       else "jpeg" in
     tell (ClientEmit (client_screenshot (msg_imageData message) imageFormat
                         clock)))
    (fun _ => log Error "Error handling screen data:").

(** [handleMessage(data)], given what [JSON.parse(data.toString())] gives. *)
Definition handleMessage (parsed : Res Incoming) : P t unit :=
  try_catch
    (message <- answer_of parsed ;;
     match msg_type message with
     | Some "ScreenData" => handleScreenData message
     | Some "ConnectionEstablished" =>
         modify (fun s =>
                   set_client
                     (with_sessionId (msg_connectionId message) (client s)) s) ;;
         log Info "Remotely session established:"
     | Some "CursorChange" => tell (ClientEmit client_cursor_change)
     | Some "ScreenSize" => tell (ClientEmit client_screen_size)
     | Some "ClipboardText" => tell (ClientEmit client_clipboard)
     | _ => log Debug "Unhandled Remotely message type:"
     end)
    (fun _ => log Error "Error handling Remotely message:").

End Methods.

End Link.

(** ** ActionExecutor *)

Module ActionExecutor.

Record t : Type := {
  isEnabled : bool;
  actionDelay : nat
}.

(** The constructor. *)
Definition new : t := {| isEnabled := true; actionDelay := 100 |}.

Record Clicked : Type :=
  { k_success : bool; k_x : Z; k_y : Z; k_button : string }.
Record Dragged : Type :=
  { g_success : bool; g_start : Coordinates; g_end : Coordinates }.
Record Typed : Type := { y_success : bool; y_text : string; y_length : nat }.
Record Pressed : Type :=
  { p_success : bool; p_key : string; p_modifiers : list string }.
Record Scrolled : Type :=
  { s_success : bool; s_direction : string; s_clicks : nat }.

Section Methods.
Variable js : JsString.

Local Open Scope proc_scope.
Import Proc.

(** [if (!this.isEnabled) throw new Error('ActionExecutor is disabled')] *)
Definition guard : P t unit :=
  s <- get ;;
  if negb (isEnabled s) then throw "ActionExecutor is disabled" else ret tt.

(** [await this.delay(this.actionDelay)] *)
Definition pause : P t unit := s <- get ;; sleep (actionDelay s).

Definition click (px py : Z) (button : string) : P t Clicked :=
  try_catch
    (guard ;;
     log Info "Executing click at" ;;
     tell (Robot (robot_moveMouse px py)) ;;
     pause ;;
     tell (Robot (robot_mouseClick button false)) ;;
     tell (ActionLog "click") ;;
     ret {| k_success := true; k_x := px; k_y := py; k_button := button |})
    (fun error => log Error "Click action failed:" ;; throw error).

Definition doubleClick (px py : Z) (button : string) : P t Clicked :=
  try_catch
    (guard ;;
     log Info "Executing double-click at" ;;
     tell (Robot (robot_moveMouse px py)) ;;
     pause ;;
     tell (Robot (robot_mouseClick button true)) ;;
     tell (ActionLog "double_click") ;;
     ret {| k_success := true; k_x := px; k_y := py; k_button := button |})
    (fun error => log Error "Double-click action failed:" ;; throw error).

Definition drag (startX startY endX endY : Z) : P t Dragged :=
  try_catch
    (guard ;;
     log Info "Executing drag from" ;;
     tell (Robot (robot_moveMouse startX startY)) ;;
     pause ;;
     tell (Robot (robot_mouseToggle true)) ;;
     pause ;;
     tell (Robot (robot_dragMouse endX endY)) ;;
     pause ;;
     tell (Robot (robot_mouseToggle false)) ;;
     tell (ActionLog "drag") ;;
     ret {| g_success := true;
            g_start := {| x := startX; y := startY |};
            g_end := {| x := endX; y := endY |} |})
    (fun error => log Error "Drag action failed:" ;; throw error).

Definition type (txt : string) (clearFirst : bool) : P t Typed :=
  try_catch
    (guard ;;
     log Info "Typing text:" ;;
     (if clearFirst
      then tell (Robot (robot_keyTap "a" ["command"])) ;; pause
      else ret tt) ;;
     tell (Robot (robot_typeString txt)) ;;
     tell (ActionLog "type") ;;
     ret {| y_success := true; y_text := txt; y_length := js_length js txt |})
    (fun error => log Error "Type action failed:" ;; throw error).

Definition keyPress (key : string) (modifiers : list string) : P t Pressed :=
  try_catch
    (guard ;;
     log Info "Pressing key:" ;;
     tell (Robot (robot_keyTap key modifiers)) ;;
     tell (ActionLog "key_press") ;;
     ret {| p_success := true; p_key := key; p_modifiers := modifiers |})
    (fun error => log Error "Key press action failed:" ;; throw error).

(** The loop of [scroll]: one wheel step and a wait of 50 ms per click. *)
Fixpoint wheel (dy : Z) (clicks : nat) : P t unit :=
  match clicks with
  | O => ret tt
  | S n => tell (Robot (robot_scrollMouse 0 dy)) ;; sleep 50 ;; wheel dy n
  end.

Definition scroll (direction : string) (clicks : nat) : P t Scrolled :=
  try_catch
    (guard ;;
     log Info "Scrolling" ;;
     let scrollDirection := if String.eqb direction "up" then "up" else "down" in
     wheel (if String.eqb scrollDirection "up" then (-1)%Z else 1%Z) clicks ;;
     tell (ActionLog "scroll") ;;
     ret {| s_success := true; s_direction := scrollDirection;
            s_clicks := clicks |})
    (fun error => log Error "Scroll action failed:" ;; throw error).

Definition moveMouse (px py : Z) : P t Coordinates :=
  try_catch
    (guard ;;
     tell (Robot (robot_moveMouse px py)) ;;
     log Debug "Mouse moved" ;;
     ret {| x := px; y := py |})
    (fun error => log Error "Mouse move failed:" ;; throw error).

Definition enable : P t unit :=
  modify (fun s => {| isEnabled := true; actionDelay := actionDelay s |}) ;;
  log Info "ActionExecutor enabled".

Definition disable : P t unit :=
  modify (fun s => {| isEnabled := false; actionDelay := actionDelay s |}) ;;
  log Info "ActionExecutor disabled".

Definition isActionEnabled : P t bool := s <- get ;; ret (isEnabled s).

(** [this.actionDelay = Math.max(0, delayMs)] on a whole number of ms. *)
Definition setActionDelay (delayMs : Z) : P t unit :=
  modify (fun s => {| isEnabled := isEnabled s;
                      actionDelay := Z.to_nat (Z.max 0 delayMs) |}) ;;
  log Info "Action delay set to".

(** [clickAnswer(optionData)], with [{x, y, identifier, text} = optionData] *)
Definition clickAnswer (px py : Z) (identifier txt : string) : P t Clicked :=
  try_catch
    (log Info "Clicking answer option" ;;
     r <- click px py "left" ;;
     tell (ActionLog "answer_click") ;;
     ret r)
    (fun error => log Error "Answer click failed:" ;; throw error).

End Methods.

End ActionExecutor.

(** ** The exam taker with its collaborators

    [connectRDP], [disconnect], the screenshot timer, the manual actions and
    the readiness check of [ExamTaker], and the manual control events of the
    application, on the exam taker together with the objects it holds. *)

Module Session.

Record t : Type := {
  examTaker : ExamTaker.t;
  remotelyServerUrl : option string;
  accessKey : option string;
  actionExecutor : ActionExecutor.t;
  ragSystem : RAGSystem.t
}.

(** [new ExamTaker(io, ragSystem)] *)
Definition new (rag : RAGSystem.t) : t :=
  {| examTaker := ExamTaker.new; remotelyServerUrl := None; accessKey := None;
     actionExecutor := ActionExecutor.new; ragSystem := rag |}.

Definition set_examTaker (e : ExamTaker.t) (s : t) : t :=
  {| examTaker := e; remotelyServerUrl := remotelyServerUrl s;
     accessKey := accessKey s; actionExecutor := actionExecutor s;
     ragSystem := ragSystem s |}.

Definition set_actionExecutor (a : ActionExecutor.t) (s : t) : t :=
  {| examTaker := examTaker s; remotelyServerUrl := remotelyServerUrl s;
     accessKey := accessKey s; actionExecutor := a;
     ragSystem := ragSystem s |}.

Definition set_ragSystem (r : RAGSystem.t) (s : t) : t :=
  {| examTaker := examTaker s; remotelyServerUrl := remotelyServerUrl s;
     accessKey := accessKey s; actionExecutor := actionExecutor s;
     ragSystem := r |}.

(** [this.remotelyClient] with its credentials. *)
Definition link (s : t) : Link.t :=
  {| Link.client := ExamTaker.remotelyClient (examTaker s);
     Link.remotelyServerUrl := remotelyServerUrl s;
     Link.accessKey := accessKey s |}.

Definition set_link (l : Link.t) (s : t) : t :=
  {| examTaker := ExamTaker.set_remotelyClient (Link.client l) (examTaker s);
     remotelyServerUrl := Link.remotelyServerUrl l;
     accessKey := Link.accessKey l;
     actionExecutor := actionExecutor s;
     ragSystem := ragSystem s |}.

(** Assignments to [this.connected], [this.sessionId], [this.currentExamType]. *)
Definition set_connected (v : bool) (e : ExamTaker.t) : ExamTaker.t :=
  {| ExamTaker.sessionId := ExamTaker.sessionId e;
     ExamTaker.examId := ExamTaker.examId e;
     ExamTaker.isActive := ExamTaker.isActive e;
     ExamTaker.manualOverride := ExamTaker.manualOverride e;
     ExamTaker.connected := v;
     ExamTaker.currentExamType := ExamTaker.currentExamType e;
     ExamTaker.visionAnalyzer := ExamTaker.visionAnalyzer e;
     ExamTaker.remotelyClient := ExamTaker.remotelyClient e;
     ExamTaker.currentQuestion := ExamTaker.currentQuestion e;
     ExamTaker.questionHistory := ExamTaker.questionHistory e;
     ExamTaker.screenshotInterval := ExamTaker.screenshotInterval e;
     ExamTaker.lastScreenshot := ExamTaker.lastScreenshot e |}.

Definition set_sessionId (v : option string) (e : ExamTaker.t) : ExamTaker.t :=
  {| ExamTaker.sessionId := v;
     ExamTaker.examId := ExamTaker.examId e;
     ExamTaker.isActive := ExamTaker.isActive e;
     ExamTaker.manualOverride := ExamTaker.manualOverride e;
     ExamTaker.connected := ExamTaker.connected e;
     ExamTaker.currentExamType := ExamTaker.currentExamType e;
     ExamTaker.visionAnalyzer := ExamTaker.visionAnalyzer e;
     ExamTaker.remotelyClient := ExamTaker.remotelyClient e;
     ExamTaker.currentQuestion := ExamTaker.currentQuestion e;
     ExamTaker.questionHistory := ExamTaker.questionHistory e;
     ExamTaker.screenshotInterval := ExamTaker.screenshotInterval e;
     ExamTaker.lastScreenshot := ExamTaker.lastScreenshot e |}.

Definition set_currentExamType (v : string) (e : ExamTaker.t) : ExamTaker.t :=
  {| ExamTaker.sessionId := ExamTaker.sessionId e;
     ExamTaker.examId := ExamTaker.examId e;
     ExamTaker.isActive := ExamTaker.isActive e;
     ExamTaker.manualOverride := ExamTaker.manualOverride e;
     ExamTaker.connected := ExamTaker.connected e;
     ExamTaker.currentExamType := v;
     ExamTaker.visionAnalyzer := ExamTaker.visionAnalyzer e;
     ExamTaker.remotelyClient := ExamTaker.remotelyClient e;
     ExamTaker.currentQuestion := ExamTaker.currentQuestion e;
     ExamTaker.questionHistory := ExamTaker.questionHistory e;
     ExamTaker.screenshotInterval := ExamTaker.screenshotInterval e;
     ExamTaker.lastScreenshot := ExamTaker.lastScreenshot e |}.

Record Readiness : Type := { r_documentCount : nat; r_isReady : bool }.

Section Methods.
Variable js : JsString.
Variable cfg : Config.
Variable env : Env.
Variable server : Link.Server.
Variable backend : RAGSystem.Backend.

(** [config.rdp.screenshotInterval], and the handle [setInterval] returns. *)
Variable rdp_screenshotInterval : nat.
Variable new_timer : nat.

Local Open Scope proc_scope.
Import Proc.

Definition in_examTaker {A} (m : M ExamTaker.t A) : P t A :=
  zoom examTaker set_examTaker (core m).

Definition in_link {A} (m : P Link.t A) : P t A := zoom link set_link m.

Definition io_more (e : IoMore) : P t unit := tell (IoEmitMore e).

(** The listener on the client's [connected] event. *)
Definition on_connected : P t unit :=
  modify (fun s => set_examTaker (set_connected true (examTaker s)) s) ;;
  s <- get ;;
  io_more (io_rdp_connected
             (RemotelyClient.sessionId (ExamTaker.remotelyClient (examTaker s)))
             (RemotelyClient.deviceId (ExamTaker.remotelyClient (examTaker s)))
             (now env)).

(** The listener on the client's [disconnected] event. *)
Definition on_disconnected : P t unit :=
  modify (fun s => set_examTaker (set_connected false (examTaker s)) s) ;;
  io_more (io_rdp_disconnected (now env)).

(** [startScreenshotRequests] *)
Definition startScreenshotRequests : P t unit :=
  tell (SetInterval rdp_screenshotInterval) ;;
  modify (fun s =>
            set_examTaker
              (ExamTaker.set_screenshotInterval (Some new_timer) (examTaker s))
              s).

(** One period of that timer. *)
Definition tick : P t unit :=
  s <- get ;;
  if RemotelyClient.connected (ExamTaker.remotelyClient (examTaker s))
  then in_examTaker
         (ExamTaker.in_remotelyClient (RemotelyClient.requestScreenshot env))
  else ret tt.

(** [connectRDP]: the client emits [connected] as the last thing before it
    returns, and the listener runs at once. *)
Definition connectRDP (url deviceId key : string) : P t string :=
  try_catch
    (log Info "Attempting Remotely connection to device:" ;;
     result <- in_link (Link.connect js server url deviceId key) ;;
     on_connected ;;
     modify (fun s =>
               set_examTaker
                 (set_sessionId (Some (Link.c_sessionId result)) (examTaker s))
                 s) ;;
     log Info "Remotely connected successfully. Session ID:" ;;
     startScreenshotRequests ;;
     ret (Link.c_sessionId result))
    (fun error => log Error "Remotely connection failed:" ;; throw error).

Definition disconnect : P t unit :=
  try_catch
    (s <- get ;;
     (if ExamTaker.isActive (examTaker s)
      then in_examTaker (ExamTaker.stopExam env)
      else ret tt) ;;
     in_link (Link.disconnect env) ;;
     modify (fun s =>
               set_examTaker
                 (set_sessionId None (set_connected false (examTaker s))) s) ;;
     log Info "Remotely disconnected successfully")
    (fun error => log Error "Remotely disconnection failed:" ;; throw error).

Definition performClick (px py : Z) : P t unit :=
  try_catch
    (zoom actionExecutor set_actionExecutor (ActionExecutor.click px py "left") ;;
     io_more (io_manual_click px py (now env)) ;;
     log Info "Manual click performed at")
    (fun error => log Error "Manual click failed:" ;; throw error).

Definition performType (txt : string) : P t unit :=
  try_catch
    (zoom actionExecutor set_actionExecutor (ActionExecutor.type js txt false) ;;
     io_more (io_manual_type txt (now env)) ;;
     log Info "Manual typing performed:")
    (fun error => log Error "Manual typing failed:" ;; throw error).

(** [setExamType]: the analyzer has no [setExamType], so the last step of the
    method never runs. *)
Definition setExamType (examType : string) : P t unit :=
  modify (fun s => set_examTaker (set_currentExamType examType (examTaker s)) s) ;;
  log Info "Exam type changed to:" ;;
  io_more (io_exam_type_changed examType (now env)).

Definition getExamTypeStats : P t RAGSystem.Stats :=
  try_catch
    (s <- get ;;
     zoom ragSystem set_ragSystem
       (RAGSystem.getExamTypeStats js backend
          (Some (ExamTaker.currentExamType (examTaker s)))))
    (fun error =>
       log Error "Failed to get exam type stats:" ;;
       ret (RAGSystem.failed_stats None error)).

Definition validateExamReadiness : P t bool :=
  try_catch
    (stats <- getExamTypeStats ;;
     s <- get ;;
     let isReady :=
       (0 <? RAGSystem.documentCount stats)%nat
       && RAGSystem.isInitialized (ragSystem s) in
     io_more (io_exam_readiness_check
                (ExamTaker.currentExamType (examTaker s)) isReady
                (RAGSystem.documentCount stats)
                (RAGSystem.isInitialized (ragSystem s)) (now env)) ;;
     ret isReady)
    (fun _ => log Error "Failed to validate exam readiness:" ;; ret false).

(** The application's [manual_click] and [manual_type] socket events. *)
Definition manual_click (px py : Z) : P t unit :=
  s <- get ;;
  if ExamTaker.manualOverride (examTaker s)
  then performClick px py ;; tell (SocketEmit (click_at px py))
  else ret tt.

Definition manual_type (txt : string) : P t unit :=
  s <- get ;;
  if ExamTaker.manualOverride (examTaker s)
  then performType txt ;; tell (SocketEmit (typed_text txt))
  else ret tt.

End Methods.

(** The robot calls and the websocket messages of a run. *)
Definition robot_calls (tr : list Ext) : list RobotCall :=
  flat_map (fun e => match e with Robot c => [c] | _ => [] end) tr.

Definition http_requests (tr : list Ext) : list Ext :=
  filter (fun e => match e with
                   | HttpGet _ _ => true
                   | HttpPost _ _ _ => true
                   | _ => false
                   end) tr.

End Session.

(** ** Readers of the effects of a run *)

Definition client_events (tr : list Ext) : list ClientEvent :=
  flat_map (fun e => match e with ClientEmit c => [c] | _ => [] end) tr.

Definition timers (tr : list Ext) : list nat :=
  flat_map (fun e => match e with SetInterval ms => [ms] | _ => [] end) tr.

Definition more_broadcasts (tr : list Ext) : list IoMore :=
  flat_map (fun e => match e with IoEmitMore a => [a] | _ => [] end) tr.

Definition socket_emits (tr : list Ext) : list LastAction :=
  flat_map (fun e => match e with SocketEmit a => [a] | _ => [] end) tr.

(** The requests to the embedding model and to the vector store. *)
Definition backend_requests (tr : list Ext) : list Ext :=
  filter (fun e => match e with
                   | Embed _ => true
                   | ChromaQuery _ _ => true
                   | ChromaAdd _ => true
                   | ChromaGet _ => true
                   | _ => false
                   end) tr.

(** The answer that [handleQuestionDetected] passes on for a knowledge-base
    hit [r0], the first of the results [l]. *)
Definition hit_answer (s : ExamTaker.t) (l : list RagResult) (r0 : RagResult)
  : AnswerData :=
  {| answer := Some (content r0); confidence := score r0;
     source := "rag_" ++ ExamTaker.currentExamType s; ad_question := None;
     ad_examType := Some (ExamTaker.currentExamType s);
     ad_ragResults := firstn 3 l |}.

(** ** Reference objects for the methods above *)

Module Cases.

(** The string primitives on ASCII text, and the subtraction where it is
    exact. *)
Definition is_space (a : ascii) : bool :=
  Ascii.eqb a " "%char || Ascii.eqb a "009"%char
  || Ascii.eqb a "010"%char || Ascii.eqb a "013"%char.

Definition lower (a : ascii) : ascii :=
  let n := nat_of_ascii a in
  if ((65 <=? n)%nat && (n <=? 90)%nat)%bool then ascii_of_nat (n + 32) else a.

Fixpoint lowercase (s : string) : string :=
  match s with
  | EmptyString => EmptyString
  | String a rest => String (lower a) (lowercase rest)
  end.

(** [s.split(/\s+/)]: the pieces between the runs of white space; [gap]
    holds after a white-space character. *)
Fixpoint pieces (gap : bool) (s : string) : list string :=
  match s with
  | EmptyString => [EmptyString]
  | String a rest =>
      if is_space a
      then if gap then pieces true rest else EmptyString :: pieces true rest
      else match pieces false rest with
           | part :: parts => String a part :: parts
           | [] => [String a EmptyString]
           end
  end.

Fixpoint trim_start (s : string) : string :=
  match s with
  | EmptyString => EmptyString
  | String a rest => if is_space a then trim_start rest else s
  end.

Definition backwards (s : string) : string :=
  string_of_list_ascii (rev (list_ascii_of_string s)).

Definition trim_both (s : string) : string :=
  backwards (trim_start (backwards (trim_start s))).

Definition ascii_text : JsString :=
  {| toLowerCase := lowercase;
     split_whitespace := pieces false;
     trim := trim_both;
     js_length := String.length;
     one_minus := fun d => (1 - d)%Q |}.

(** The knowledge base answers "Paris" with the given score. *)
Definition paris_hit (c : Q) : RagResult :=
  {| content := "Paris"; score := Num c |}.

Definition knowing (c : Q) : Env :=
  Scenario.world (Ok [paris_hit c]) (95 # 100)%Q Scenario.at_paris.

(** The websocket rejects every message. *)
Definition dropping : Env :=
  {| uuidv4 := uuidv4 Scenario.empty_kb;
     now := now Scenario.empty_kb;
     ragSystem_search := ragSystem_search Scenario.empty_kb;
     analyzeExamScreen := analyzeExamScreen Scenario.empty_kb;
     reasonAboutAnswer := reasonAboutAnswer Scenario.empty_kb;
     ollamaFindAnswerCoordinates := ollamaFindAnswerCoordinates Scenario.empty_kb;
     webSearch_isConfigured := false;
     searchForQuestionType := searchForQuestionType Scenario.empty_kb;
     ws_send := fun _ => Throw "WebSocket is not open: readyState 3 (CLOSED)" |}.

(** A client with an open websocket. *)
Definition online : RemotelyClient.t :=
  {| RemotelyClient.ws := Some tt;
     RemotelyClient.sessionId := Some "viewer_1";
     RemotelyClient.deviceId := Some "device-1";
     RemotelyClient.connected := true;
     RemotelyClient.reconnectAttempts := 0;
     RemotelyClient.maxReconnectAttempts := 5;
     RemotelyClient.reconnectDelay := 5000 |}.

(** A report without a confidence that is a number, and one of a question
    with no options to choose from. *)
Definition unrated : Analysis :=
  {| a_question := Some "Capital of France?";
     a_question_type := "multiple_choice";
     a_options := Scenario.choices;
     a_confidence := NaN |}.

Definition open_question : Analysis :=
  {| a_question := Some "Name the capital of France.";
     a_question_type := "text_input";
     a_options := [];
     a_confidence := Num (9 # 10)%Q |}.

(** A second question, detected while the answer to the first is being
    located on the screen. *)
Definition later_question : Question :=
  {| id := "3f2b9c1e"; question := Some "Capital of Italy?";
     type := "multiple_choice"; options := [];
     detectedAt := "2025-01-01T10:00:01.000Z"; status := "analyzing";
     q_answer := None; q_confidence := None; q_source := None;
     q_uncertainty := None |}.

Definition overtaking : Scheduled.Others :=
  {| Scheduled.during_lookup :=
       ExamTaker.set_currentQuestion (Some later_question);
     Scheduled.during_click := fun s => s;
     Scheduled.after_click := fun s => s;
     Scheduled.during_wait := fun s => s;
     Scheduled.during_search := fun s => s |}.

(** The operator took control before the exam was started. *)
Definition taken_over : ExamTaker.t :=
  ExamTaker.set_manualOverride true Scenario.connected_taker.

(** A Remotely server with one device. *)
Definition lab : Link.Server :=
  {| Link.get_devices := fun _ _ =>
       Ok (Some [{| device_id := "device-1"; deviceName := "EXAM-PC" |}]);
     Link.get_device := fun _ _ => Ok true;
     Link.post_viewer := fun _ _ _ =>
       Ok (Some "https://remotely.lab/RemoteControl/Viewer?sessionId=42");
     Link.generateConnectionId := "viewer_k3j9x0q2a_1735725600000" |}.

(** A knowledge base held in memory, and one held in ChromaDB. *)
Definition untagged : RAGSystem.Metadata :=
  {| RAGSystem.subject := None; RAGSystem.kind := None;
     RAGSystem.added_at := None; RAGSystem.content_length := None |}.

Definition geography : RAGSystem.Metadata :=
  {| RAGSystem.subject := Some "geography"; RAGSystem.kind := Some "question";
     RAGSystem.added_at := None; RAGSystem.content_length := None |}.

Definition notes : RAGSystem.t :=
  {| RAGSystem.isInitialized := true;
     RAGSystem.useMemoryFallback := true;
     RAGSystem.memoryStore :=
       [ {| RAGSystem.doc_id := "doc_1";
            RAGSystem.doc_content := "Paris is the capital of France";
            RAGSystem.doc_metadata := geography |};
         {| RAGSystem.doc_id := "doc_2";
            RAGSystem.doc_content := "Water boils at 100 degrees";
            RAGSystem.doc_metadata := untagged |} ] |}.

Definition indexed : RAGSystem.t :=
  {| RAGSystem.isInitialized := true;
     RAGSystem.useMemoryFallback := false;
     RAGSystem.memoryStore := [] |}.

Definition rows : list (string * RAGSystem.Metadata * Q) :=
  [ ("Water boils at 100 degrees", untagged, (1 # 2)%Q);
    ("Paris is the capital of France", geography, (1 # 8)%Q) ].

Definition chroma : RAGSystem.Backend :=
  {| RAGSystem.generateEmbedding := fun _ => Ok tt;
     RAGSystem.collection_query := fun _ _ => Ok (Some rows);
     RAGSystem.collection_add := fun _ => Ok tt;
     RAGSystem.collection_get := fun _ => Ok (Some (map (fun r => fst (fst r)) rows));
     RAGSystem.new_documentId := "doc_1735725600000_x7f3k2m9q";
     RAGSystem.rag_now := "2025-01-01T10:00:00.000Z" |}.

(** An executor that was disabled. *)
Definition disabled : ActionExecutor.t :=
  {| ActionExecutor.isEnabled := false; ActionExecutor.actionDelay := 100 |}.

End Cases.

(** * Properties *)

(** Unfolds the monad, leaving the methods and the collaborators' answers. *)
Ltac run :=
  cbv [bind ret throw try_catch get modify tell answer_of zoom log sleep
       request result state trace fst snd
       ExamTaker.in_visionAnalyzer ExamTaker.in_remotelyClient ExamTaker.io_emit].

Lemma js_ge_at_least c t : js_ge c t = true <-> at_least c t.
Proof.
  destruct c as [q|]; simpl.
  - apply Qle_bool_iff.
  - split; [discriminate | contradiction].
Qed.

(** ** The remote client *)

Section RemotelyClientRuns.
Import RemotelyClient.
Variable env : Env.

(** Without a connection [sendMessage] drops the message with a warning. *)
Lemma sendMessage_offline m s :
  connected s = false ->
  sendMessage env m s =
  (Ok tt, s, [Log Warn "Cannot send message: not connected to Remotely"]).
Proof.
  intros H. unfold sendMessage. run. rewrite H.
  destruct (ws s); reflexivity.
Qed.

(** The same without a websocket, which is how the constructor leaves it. *)
Lemma sendMessage_no_socket m s :
  ws s = None ->
  sendMessage env m s =
  (Ok tt, s, [Log Warn "Cannot send message: not connected to Remotely"]).
Proof.
  intros H. unfold sendMessage. run. rewrite H. reflexivity.
Qed.

End RemotelyClientRuns.

(** C3, as amended.  While [connected] is false, [clickAnswer], [typeAnswer]
    and [dragAndDrop] send nothing over the websocket and leave the client
    unchanged: [sendMessage] drops every message with a warning.  The call
    does not fail: it returns its success value to the caller. *)
Theorem offline_injection_is_dropped env s c doubleClick txt clearFirst from to delay :
  RemotelyClient.connected s = false ->
  let click := RemotelyClient.clickAnswer env c doubleClick delay s in
  let typing := RemotelyClient.typeAnswer env txt clearFirst delay s in
  let drag := RemotelyClient.dragAndDrop env from to delay s in
  (sent (trace click) = [] /\ state click = s /\
   result click =
   Ok {| RemotelyClient.success := true; RemotelyClient.clicked := c |}) /\
  (sent (trace typing) = [] /\ state typing = s /\
   result typing =
   Ok {| RemotelyClient.t_success := true; RemotelyClient.typed := txt |}) /\
  (sent (trace drag) = [] /\ state drag = s /\
   result drag =
   Ok {| RemotelyClient.d_success := true;
         RemotelyClient.startCoords := from;
         RemotelyClient.endCoords := to |}).
Proof.
  intros H.
  unfold RemotelyClient.clickAnswer, RemotelyClient.typeAnswer,
    RemotelyClient.dragAndDrop, RemotelyClient.sendMouseMove,
    RemotelyClient.sendMouseClick, RemotelyClient.sendKeyPress,
    RemotelyClient.sendKeyDown, RemotelyClient.sendKeyUp,
    RemotelyClient.sendTextInput.
  cbv zeta.
  repeat split.
  all: destruct doubleClick, clearFirst; run;
    rewrite ?(sendMessage_offline env _ s H); cbn; reflexivity.
Qed.

Lemma offline_injection_is_dropped_witness :
  RemotelyClient.connected RemotelyClient.new = false /\
  sent (trace (RemotelyClient.clickAnswer Scenario.empty_kb Scenario.paris
                 false 100 RemotelyClient.new)) = [].
Proof.
  split; [reflexivity |].
  apply (offline_injection_is_dropped Scenario.empty_kb RemotelyClient.new
           Scenario.paris false "Paris" false Scenario.paris Scenario.paris 100).
  reflexivity.
Defined.

(** C3, refuted as stated.  A client that was never connected answers
    [success: true] to a click, to typing and to a drag: the calls succeed
    while [connected] is false, and the caller sees no error. *)
Lemma offline_click_reports_success :
  RemotelyClient.connected RemotelyClient.new = false /\
  result (RemotelyClient.clickAnswer Scenario.empty_kb Scenario.paris false 100
            RemotelyClient.new)
  = Ok {| RemotelyClient.success := true; RemotelyClient.clicked := Scenario.paris |} /\
  result (RemotelyClient.typeAnswer Scenario.empty_kb "Paris" false 50
            RemotelyClient.new)
  = Ok {| RemotelyClient.t_success := true; RemotelyClient.typed := "Paris" |} /\
  result (RemotelyClient.dragAndDrop Scenario.empty_kb Scenario.paris
            Scenario.paris 100 RemotelyClient.new)
  = Ok {| RemotelyClient.d_success := true;
          RemotelyClient.startCoords := Scenario.paris;
          RemotelyClient.endCoords := Scenario.paris |}.
Proof. repeat split. Qed.

(** ** Starting and stopping an exam *)

Lemma stopExam_run env s :
  ExamTaker.stopExam env s =
  (Ok tt,
   ExamTaker.set_screenshotInterval None (ExamTaker.set_isActive false s),
   (match ExamTaker.screenshotInterval s with
    | Some timer => [ClearInterval timer]
    | None => []
    end ++
    [IoEmit (io_exam_stopped (ExamTaker.examId s)
               (length (ExamTaker.questionHistory s)) (now env));
     Log Info "Exam stopped. Questions answered:"])%list).
Proof.
  unfold ExamTaker.stopExam. run.
  destruct s as [a b c d e f g h i j [k|] l]; reflexivity.
Qed.

(** C9.  [stopExam] always returns, and a second call in a row leaves the
    exam taker exactly as the first did: inactive, with the question history
    it had before the first call. *)
Theorem stopExam_idempotent env s :
  let once := state (ExamTaker.stopExam env s) in
  let twice := state (ExamTaker.stopExam env once) in
  result (ExamTaker.stopExam env s) = Ok tt /\
  result (ExamTaker.stopExam env once) = Ok tt /\
  twice = once /\
  ExamTaker.isActive once = false /\
  ExamTaker.questionHistory once = ExamTaker.questionHistory s.
Proof.
  cbv zeta. rewrite !stopExam_run. cbn. repeat split; reflexivity.
Qed.

(** C10.  With a connection, [startExam] returns a new exam id, stores it,
    sets the exam active and empties the question history, whatever the
    history held before. *)
Theorem startExam_resets_history env s :
  ExamTaker.connected s = true ->
  let r := ExamTaker.startExam env s in
  result r = Ok {| ExamTaker.started_examId := uuidv4 env |} /\
  ExamTaker.questionHistory (state r) = [] /\
  ExamTaker.isActive (state r) = true /\
  ExamTaker.examId (state r) = Some (uuidv4 env).
Proof.
  intros H. unfold ExamTaker.startExam, ExamTaker.startScreenshotMonitoring. run.
  rewrite H. cbn. auto.
Qed.

Lemma startExam_resets_history_witness :
  ExamTaker.connected Scenario.connected_taker = true /\
  ExamTaker.questionHistory Scenario.connected_taker <> [] /\
  ExamTaker.questionHistory
    (state (ExamTaker.startExam Scenario.empty_kb Scenario.connected_taker)) = [].
Proof.
  split; [reflexivity |]. split; [discriminate |].
  apply (startExam_resets_history Scenario.empty_kb Scenario.connected_taker).
  reflexivity.
Defined.

(** Without a connection [startExam] throws and changes nothing. *)
Lemma startExam_needs_connection env s :
  ExamTaker.connected s = false ->
  result (ExamTaker.startExam env s) = Throw "No active RDP connection" /\
  state (ExamTaker.startExam env s) = s.
Proof.
  intros H. unfold ExamTaker.startExam. run. rewrite H. cbn. auto.
Qed.

(** ** Uncertainty, execution and the confidence gate *)

Section ExamTakerRuns.
Import ExamTaker Run.
Variable cfg : Config.
Variable env : Env.

Lemma handleUncertainty_run u s :
  handleUncertainty env u s = (Ok tt, flagged u s, flagging env u).
Proof.
  unfold handleUncertainty, setManualOverride, flagged, flagging. run.
  cbn. destruct (currentQuestion s); reflexivity.
Qed.

(** [executeAnswer] by cases on the coordinate lookup and on the click. *)
Lemma executeAnswer_run a s :
  executeAnswer cfg env a s =
  let fc := VisionAnalyzer.findAnswerCoordinates env (currentQuestion s)
              (answer a) (visionAnalyzer s) in
  let s1 := set_visionAnalyzer (state fc) s in
  let failed e s' tr :=
    (Ok tt, flagged (execution_failed e (currentQuestion s)) s',
     (Log Info "Executing answer:" :: tr ++
      Log Error "Failed to execute answer:" ::
      flagging env (execution_failed e (currentQuestion s)))%list) in
  match result fc with
  | Ok (Some c) =>
      let ck := RemotelyClient.clickAnswer env c false 100 (remotelyClient s) in
      let s2 := set_remotelyClient (state ck) s1 in
      match result ck with
      | Ok _ =>
          (Ok tt,
           set_questionHistory
             (questionHistory s ++
              [{| h_question := currentQuestion s; answeredAt := now env;
                  coordinates := c |}])%list s2,
           (Log Info "Executing answer:" :: trace fc ++ trace ck ++
            [Sleep (ai_screenshot_analysis_delay cfg);
             IoEmit (io_action_executed "click" c (currentQuestion s) (now env));
             Log Info "Answer executed successfully via Remotely at"])%list)
      | Throw e => failed e s2 (trace fc ++ trace ck)%list
      end
  | Ok None =>
      failed "Could not determine click coordinates for answer" s1 (trace fc)
  | Throw e => failed e s1 (trace fc)
  end.
Proof.
  unfold executeAnswer. run.
  destruct (VisionAnalyzer.findAnswerCoordinates env (currentQuestion s)
              (answer a) (visionAnalyzer s)) as [[[[c|]|e] va] tr1];
    cbn -[handleUncertainty].
  - destruct (RemotelyClient.clickAnswer env c false 100 (remotelyClient s))
      as [[[k|e] rc] tr2]; cbn -[handleUncertainty].
    + reflexivity.
    + rewrite handleUncertainty_run. cbn.
      rewrite ?app_nil_r, <- ?app_assoc. reflexivity.
  - rewrite handleUncertainty_run. cbn. rewrite ?app_nil_r. reflexivity.
  - rewrite handleUncertainty_run. cbn. rewrite ?app_nil_r. reflexivity.
Qed.

Lemma executeAnswer_returns a s : result (executeAnswer cfg env a s) = Ok tt.
Proof.
  rewrite executeAnswer_run. cbv zeta.
  destruct (result (VisionAnalyzer.findAnswerCoordinates _ _ _ _)) as [[c|]|e];
    try reflexivity.
  destruct (result (RemotelyClient.clickAnswer _ _ _ _ _)); reflexivity.
Qed.

Lemma executeAnswer_logs a s :
  exists tl,
    trace (executeAnswer cfg env a s) = Log Info "Executing answer:" :: tl.
Proof.
  rewrite executeAnswer_run. cbv zeta.
  destruct (result (VisionAnalyzer.findAnswerCoordinates _ _ _ _)) as [[c|]|e];
    try (eexists; reflexivity).
  destruct (result (RemotelyClient.clickAnswer _ _ _ _ _)); eexists; reflexivity.
Qed.

(** The execution step reads neither [manualOverride] nor [isActive]. *)
Lemma executeAnswer_ignores_override a b s :
  trace (executeAnswer cfg env a (set_manualOverride b s))
  = trace (executeAnswer cfg env a s).
Proof.
  rewrite !executeAnswer_run. cbv zeta. cbn [currentQuestion visionAnalyzer
    remotelyClient set_manualOverride questionHistory].
  destruct (result (VisionAnalyzer.findAnswerCoordinates _ _ _ _)) as [[c|]|e];
    try reflexivity.
  destruct (result (RemotelyClient.clickAnswer _ _ _ _ _)); reflexivity.
Qed.

Lemma handleAnswerFound_run a s :
  handleAnswerFound cfg env a s =
  let s1 := recorded a s in
  let next :=
    if js_ge (confidence a) (ai_confidence_threshold cfg)
    then executeAnswer cfg env a s1
    else handleUncertainty env (low_confidence a (currentQuestion s1)) s1 in
  (Ok tt, state next,
   Log Info "Answer found:" ::
   IoEmit (io_answer_found (currentQuestion s1) a (now env)) :: trace next).
Proof.
  unfold handleAnswerFound. run. unfold recorded.
  destruct (currentQuestion s) as [q|] eqn:Hq;
    cbn -[handleUncertainty executeAnswer].
  - destruct (js_ge (confidence a) (ai_confidence_threshold cfg)).
    + pose proof (executeAnswer_returns a
                    (set_currentQuestion (Some (found a q)) s)) as R.
      destruct (executeAnswer cfg env a _) as [[r s'] tr].
      cbn in *. subst r. reflexivity.
    + unfold low_confidence. rewrite handleUncertainty_run. reflexivity.
  - rewrite Hq. destruct (js_ge (confidence a) (ai_confidence_threshold cfg)).
    + pose proof (executeAnswer_returns a s) as R.
      destruct (executeAnswer cfg env a _) as [[r s'] tr].
      cbn in *. subst r. reflexivity.
    + unfold low_confidence. rewrite handleUncertainty_run. reflexivity.
Qed.

End ExamTakerRuns.

(** C1.  [handleAnswerFound] enters [executeAnswer] exactly when the
    confidence of the result is at least [config.ai.confidence_threshold]:
    then it continues as [executeAnswer] on the recorded answer.  Otherwise
    it continues as [handleUncertainty] with reason "Low confidence": it
    makes no request for coordinates, no click, sends nothing to the remote
    session and leaves manual override on. *)
Theorem confidence_gate cfg env a s :
  let r := ExamTaker.handleAnswerFound cfg env a s in
  let s1 := Run.recorded a s in
  let found :=
    [Log Info "Answer found:";
     IoEmit (io_answer_found (ExamTaker.currentQuestion s1) a (now env))] in
  (executes (trace r) <-> at_least (confidence a) (ai_confidence_threshold cfg)) /\
  (if js_ge (confidence a) (ai_confidence_threshold cfg)
   then
     state r = state (ExamTaker.executeAnswer cfg env a s1) /\
     trace r = (found ++ trace (ExamTaker.executeAnswer cfg env a s1))%list
   else
     let u := Run.low_confidence a (ExamTaker.currentQuestion s1) in
     state r = Run.flagged u s1 /\
     trace r = (found ++ Run.flagging env u)%list /\
     ExamTaker.manualOverride (state r) = true /\
     ~ clicks (trace r) /\ sent (trace r) = [] /\ requests (trace r) = []).
Proof.
  cbv zeta. rewrite handleAnswerFound_run. cbv zeta.
  rewrite <- js_ge_at_least.
  destruct (js_ge (confidence a) (ai_confidence_threshold cfg)) eqn:G.
  - split; [| split; reflexivity].
    split; [reflexivity | intros _].
    destruct (executeAnswer_logs cfg env a (Run.recorded a s)) as [tl E].
    unfold executes. cbn [trace snd] in *. rewrite E. simpl. auto.
  - rewrite handleUncertainty_run. cbn [state trace fst snd].
    split.
    + split; [| discriminate].
      unfold executes, Run.flagging. simpl.
      intros [H|[H|[H|[H|[H|[H|[]]]]]]]; discriminate H.
    + repeat split.
      * unfold Run.flagged.
        destruct (ExamTaker.currentQuestion (Run.recorded a s)); reflexivity.
      * unfold clicks, Run.flagging. simpl.
        intros [H|[H|[H|[H|[H|[H|[]]]]]]]; discriminate H.
Qed.

(** ** Execution among other handlers *)

Section ScheduledRuns.
Import ExamTaker Run.
Variable cfg : Config.
Variable env : Env.

Lemma await_quiet A (m : M ExamTaker.t A) s :
  Scheduled.await (fun s => s) m s = m s.
Proof. unfold Scheduled.await. destruct (m s) as [[r s1] t1]. reflexivity. Qed.

(** With no other handler running, the cut methods are the methods. *)
Lemma clickAnswer_quiet c s :
  Scheduled.clickAnswer env Scheduled.quiet c s =
  in_remotelyClient (RemotelyClient.clickAnswer env c false 100) s.
Proof.
  unfold Scheduled.clickAnswer, RemotelyClient.clickAnswer,
    RemotelyClient.sendMouseMove, RemotelyClient.sendMouseClick,
    RemotelyClient.sendMessage, Scheduled.await, Scheduled.quiet.
  run. cbn [Scheduled.during_click].
  destruct s as [a b c0 d e f g [w i dv [|] ra mr rd] q h si ls];
    destruct w as [w|]; cbn; try reflexivity.
  destruct (ws_send env (MouseMove (x c) (y c) i)) as [[]|e1]; cbn;
    [| reflexivity].
  destruct (ws_send env (MouseClick (x c) (y c) "left" i)) as [[]|e2];
    reflexivity.
Qed.

(** [executeAnswer] among other handlers, by cases on the coordinate lookup
    and on the click. *)
Lemma scheduled_executeAnswer_run o a s :
  Scheduled.executeAnswer cfg env o a s =
  let fc := VisionAnalyzer.findAnswerCoordinates env (currentQuestion s)
              (answer a) (visionAnalyzer s) in
  let s1 := Scheduled.located env o a s in
  let failed e s' tr :=
    (Ok tt, flagged (execution_failed e (currentQuestion s')) s',
     (Log Info "Executing answer:" :: tr ++
      Log Error "Failed to execute answer:" ::
      flagging env (execution_failed e (currentQuestion s')))%list) in
  match result fc with
  | Ok (Some c) =>
      let ck := Scheduled.clickAnswer env o c s1 in
      let s2 := Scheduled.after_click o (state ck) in
      match result ck with
      | Ok _ =>
          let s3 := Scheduled.during_wait o s2 in
          (Ok tt,
           set_questionHistory
             (questionHistory s3 ++
              [{| h_question := currentQuestion s3; answeredAt := now env;
                  coordinates := c |}])%list s3,
           (Log Info "Executing answer:" :: trace fc ++ trace ck ++
            [Sleep (ai_screenshot_analysis_delay cfg);
             IoEmit (io_action_executed "click" c (currentQuestion s3) (now env));
             Log Info "Answer executed successfully via Remotely at"])%list)
      | Throw e => failed e s2 (trace fc ++ trace ck)%list
      end
  | Ok None =>
      failed "Could not determine click coordinates for answer" s1 (trace fc)
  | Throw e => failed e s1 (trace fc)
  end.
Proof.
  unfold Scheduled.executeAnswer, Scheduled.located, Scheduled.await. run.
  destruct (VisionAnalyzer.findAnswerCoordinates env (currentQuestion s)
              (answer a) (visionAnalyzer s)) as [[[[c|]|e] va] tr1];
    cbn -[handleUncertainty Scheduled.clickAnswer].
  - destruct (Scheduled.clickAnswer env o c _) as [[[k|e] s2] tr2];
      cbn -[handleUncertainty].
    + reflexivity.
    + rewrite handleUncertainty_run. cbn.
      rewrite ?app_nil_r, <- ?app_assoc. reflexivity.
  - rewrite handleUncertainty_run. cbn. rewrite ?app_nil_r. reflexivity.
  - rewrite handleUncertainty_run. cbn. rewrite ?app_nil_r. reflexivity.
Qed.

Lemma executeAnswer_quiet a s :
  Scheduled.executeAnswer cfg env Scheduled.quiet a s = executeAnswer cfg env a s.
Proof.
  rewrite scheduled_executeAnswer_run, executeAnswer_run. cbv zeta.
  unfold Scheduled.located. cbn [Scheduled.quiet Scheduled.during_lookup
    Scheduled.after_click Scheduled.during_wait].
  destruct (VisionAnalyzer.findAnswerCoordinates env (currentQuestion s)
              (answer a) (visionAnalyzer s)) as [[[[c|]|e] va] tr1];
    cbn [result state trace fst snd]; try reflexivity.
  rewrite clickAnswer_quiet. unfold in_remotelyClient, zoom.
  cbn [remotelyClient set_visionAnalyzer].
  destruct (RemotelyClient.clickAnswer env c false 100 (remotelyClient s))
    as [[[k|e] rc] tr2]; reflexivity.
Qed.

Lemma scheduled_executeAnswer_returns o a s :
  result (Scheduled.executeAnswer cfg env o a s) = Ok tt.
Proof.
  rewrite scheduled_executeAnswer_run. cbv zeta.
  destruct (result (VisionAnalyzer.findAnswerCoordinates _ _ _ _)) as [[c|]|e];
    try reflexivity.
  destruct (result (Scheduled.clickAnswer _ _ _ _)); reflexivity.
Qed.

Lemma scheduled_handleAnswerFound_run o a s :
  Scheduled.handleAnswerFound cfg env o a s =
  let s1 := recorded a s in
  let next :=
    if js_ge (confidence a) (ai_confidence_threshold cfg)
    then Scheduled.executeAnswer cfg env o a s1
    else handleUncertainty env (low_confidence a (currentQuestion s1)) s1 in
  (Ok tt, state next,
   Log Info "Answer found:" ::
   IoEmit (io_answer_found (currentQuestion s1) a (now env)) :: trace next).
Proof.
  unfold Scheduled.handleAnswerFound. run. unfold recorded.
  destruct (currentQuestion s) as [q|] eqn:Hq;
    cbn -[handleUncertainty Scheduled.executeAnswer].
  - destruct (js_ge (confidence a) (ai_confidence_threshold cfg)).
    + pose proof (scheduled_executeAnswer_returns o a
                    (set_currentQuestion (Some (found a q)) s)) as R.
      destruct (Scheduled.executeAnswer cfg env o a _) as [[r s'] tr].
      cbn in *. subst r. reflexivity.
    + unfold low_confidence. rewrite handleUncertainty_run. reflexivity.
  - rewrite Hq. destruct (js_ge (confidence a) (ai_confidence_threshold cfg)).
    + pose proof (scheduled_executeAnswer_returns o a s) as R.
      destruct (Scheduled.executeAnswer cfg env o a _) as [[r s'] tr].
      cbn in *. subst r. reflexivity.
    + unfold low_confidence. rewrite handleUncertainty_run. reflexivity.
Qed.

Lemma handleAnswerFound_quiet a s :
  Scheduled.handleAnswerFound cfg env Scheduled.quiet a s
  = handleAnswerFound cfg env a s.
Proof.
  rewrite scheduled_handleAnswerFound_run, handleAnswerFound_run. cbv zeta.
  rewrite executeAnswer_quiet. reflexivity.
Qed.

End ScheduledRuns.

Section ScheduledStates.
Import ExamTaker Run.
Variable cfg : Config.
Variable env : Env.
Variable o : Scheduled.Others.

Lemma flagged_facts u s :
  manualOverride (flagged u s) = true /\
  questionHistory (flagged u s) = questionHistory s /\
  isActive (flagged u s) = isActive s /\
  currentQuestion (flagged u s) = option_map (doubted u) (currentQuestion s).
Proof.
  unfold flagged. destruct (currentQuestion s) eqn:E; cbn; rewrite ?E; auto.
Qed.

Lemma set_remotelyClient_same s : set_remotelyClient (remotelyClient s) s = s.
Proof. destruct s. reflexivity. Qed.

Lemma sendMessage_state m rc :
  state (RemotelyClient.sendMessage env m rc) = rc.
Proof.
  unfold RemotelyClient.sendMessage. run.
  destruct (RemotelyClient.ws rc); [| reflexivity].
  destruct (RemotelyClient.connected rc); [| reflexivity].
  cbn. destruct (ws_send env m); reflexivity.
Qed.

Lemma sendMouseMove_state px py s :
  state (in_remotelyClient (RemotelyClient.sendMouseMove env px py) s) = s.
Proof.
  unfold in_remotelyClient, zoom, RemotelyClient.sendMouseMove, bind, get.
  pose proof (sendMessage_state
                (MouseMove px py (RemotelyClient.sessionId (remotelyClient s)))
                (remotelyClient s)) as E.
  destruct (RemotelyClient.sendMessage env _ (remotelyClient s))
    as [[[[]|e] rc] t]; cbn in *; subst rc; apply set_remotelyClient_same.
Qed.

Lemma sendMouseClick_state px py button s :
  state (in_remotelyClient (RemotelyClient.sendMouseClick env px py button) s) = s.
Proof.
  unfold in_remotelyClient, zoom, RemotelyClient.sendMouseClick, bind, get, log,
    tell.
  pose proof (sendMessage_state
                (MouseClick px py button
                   (RemotelyClient.sessionId (remotelyClient s)))
                (remotelyClient s)) as E.
  destruct (RemotelyClient.sendMessage env _ (remotelyClient s))
    as [[[[]|e] rc] t]; cbn in *; subst rc; apply set_remotelyClient_same.
Qed.

(** [clickAnswer] writes nothing: it ends in the state it started in, or in
    the one the others left during its delay. *)
Lemma scheduled_clickAnswer_state c s :
  state (Scheduled.clickAnswer env o c s) = s \/
  state (Scheduled.clickAnswer env o c s) = Scheduled.during_click o s.
Proof.
  unfold Scheduled.clickAnswer.
  cbv [try_catch bind ret throw log sleep tell Scheduled.await].
  pose proof (sendMouseMove_state (x c) (y c) s) as E1.
  destruct (in_remotelyClient (RemotelyClient.sendMouseMove env (x c) (y c)) s)
    as [[[[]|e1] s1] t1]; cbn in E1; subst s1; [| left; reflexivity].
  pose proof (sendMouseClick_state (x c) (y c) "left"
                (Scheduled.during_click o s)) as E2.
  destruct (in_remotelyClient
              (RemotelyClient.sendMouseClick env (x c) (y c) "left")
              (Scheduled.during_click o s))
    as [[[[]|e2] s2] t2]; cbn in E2; subst s2; right; reflexivity.
Qed.

Lemma scheduled_clickAnswer_keeps A (field : ExamTaker.t -> A) c s :
  Scheduled.keeps field o ->
  field (state (Scheduled.clickAnswer env o c s)) = field s.
Proof.
  intros K. destruct (scheduled_clickAnswer_state c s) as [E|E]; rewrite E;
    [reflexivity | apply K].
Qed.

Lemma located_keeps A (field : ExamTaker.t -> A) a s :
  Scheduled.keeps field o ->
  (forall va x, field (set_visionAnalyzer va x) = field x) ->
  field (Scheduled.located env o a s) = field s.
Proof.
  intros K V. unfold Scheduled.located.
  rewrite (proj1 (K _)). apply V.
Qed.

End ScheduledStates.



(** When a second question is detected while the coordinates of the answer
    to the first are looked up, the failed execution marks the second
    question, which carries no answer. *)
Lemma failed_execution_marks_the_current_question :
  let r := Scheduled.handleAnswerFound config_json Scenario.unlocated
             Cases.overtaking Scenario.paris_answer Scenario.resolving in
  option_map id (ExamTaker.currentQuestion (state r)) = Some "3f2b9c1e" /\
  option_map status (ExamTaker.currentQuestion (state r)) = Some "uncertain" /\
  option_map q_answer (ExamTaker.currentQuestion (state r)) = Some None /\
  ExamTaker.manualOverride (state r) = true.
Proof. cbv zeta. repeat split. Qed.


(** ** Manual override *)

Lemma handleRemotelyScreenshot_skips cfg env sd s :
  negb (ExamTaker.isActive s) || ExamTaker.manualOverride s = true ->
  ExamTaker.handleRemotelyScreenshot cfg env sd s =
  (Ok None, s,
   [IoEmit (io_screenshot (ExamTaker.imageData sd) (ExamTaker.timestamp sd))]).
Proof.
  intros H. unfold ExamTaker.handleRemotelyScreenshot. run. rewrite H.
  reflexivity.
Qed.

(** C2, as amended.  While manual override is on, an incoming screenshot is
    forwarded to the dashboard and nothing else happens: the screen is not
    interpreted, so no resolution and no click start from it.  A resolution
    already under way is not held back: [executeAnswer] has the same effects
    with the override on as with it off. *)
Theorem override_forwards_without_analysis cfg env sd a s :
  ExamTaker.manualOverride s = true ->
  ExamTaker.handleRemotelyScreenshot cfg env sd s =
  (Ok None, s,
   [IoEmit (io_screenshot (ExamTaker.imageData sd) (ExamTaker.timestamp sd))]) /\
  trace (ExamTaker.executeAnswer cfg env a s) =
  trace (ExamTaker.executeAnswer cfg env a (ExamTaker.set_manualOverride false s)).
Proof.
  intros H. split.
  - apply handleRemotelyScreenshot_skips. rewrite H. apply orb_true_r.
  - symmetry. apply executeAnswer_ignores_override.
Qed.

Lemma override_forwards_without_analysis_witness :
  ExamTaker.manualOverride Scenario.overridden = true /\
  requests (trace (ExamTaker.handleRemotelyScreenshot config_json
                     Scenario.empty_kb (Scenario.shot "aW1hZ2Ux")
                     Scenario.overridden)) = [].
Proof.
  split; [reflexivity |].
  destruct (@override_forwards_without_analysis config_json Scenario.empty_kb
              (Scenario.shot "aW1hZ2Ux") Scenario.paris_answer
              Scenario.overridden eq_refl) as [E _].
  rewrite E. reflexivity.
Defined.

(** C2, refuted as stated.  With the exam active and the override on, a
    screenshot does not reach the vision model; and an answer whose
    resolution was under way when the operator took control is still
    clicked and recorded as executed. *)
Lemma override_stops_interpretation_not_execution :
  let seen := ExamTaker.handleRemotelyScreenshot config_json Scenario.empty_kb
                (Scenario.shot "aW1hZ2Ux") Scenario.overridden in
  let done := ExamTaker.executeAnswer config_json Scenario.empty_kb
                Scenario.paris_answer Scenario.resolving_overridden in
  (ExamTaker.isActive Scenario.overridden = true /\
   ExamTaker.manualOverride Scenario.overridden = true /\
   requests (trace seen) = []) /\
  (ExamTaker.manualOverride Scenario.resolving_overridden = true /\
   clicks (trace done) /\
   In (io_action_executed "click" Scenario.paris
         (ExamTaker.currentQuestion Scenario.resolving_overridden)
         (now Scenario.empty_kb))
      (broadcasts (trace done)) /\
   length (ExamTaker.questionHistory (state done)) = 1).
Proof.
  cbv zeta. repeat split.
  - unfold clicks. vm_compute. tauto.
  - vm_compute. tauto.
Qed.

(** ** Resolution of a detected question *)

Section Detection.
Import ExamTaker Run.
Variable cfg : Config.
Variable env : Env.

Lemma searchOnlineForAnswer_run q s :
  searchOnlineForAnswer env q s =
  (Ok tt, flagged (not_in_knowledge_base q) s,
   Log Info "Searching online for answer:" ::
   flagging env (not_in_knowledge_base q)).
Proof.
  unfold searchOnlineForAnswer. run. rewrite handleUncertainty_run. reflexivity.
Qed.

(** The knowledge base answers, with nothing above the threshold. *)
Lemma handleQuestionDetected_miss d s l :
  ragSystem_search env (qd_question d) 5 (Some (currentExamType s)) = Ok l ->
  top_hit cfg l = None ->
  handleQuestionDetected cfg env d s =
  (Ok tt,
   flagged (not_in_knowledge_base (qd_question d))
     (set_currentQuestion (Some (fresh_question env d)) s),
   [Log Info "Question detected:";
    IoEmit (io_question_detected (fresh_question env d));
    Call (rag_search (qd_question d) 5 (Some (currentExamType s)));
    IoEmit (io_ai_reasoning (currentExamType s)
              match l with [] => ["no_matching_documents"] | _ :: _ => [] end
              (length l));
    Log Info "Searching online for answer:"] ++
   flagging env (not_in_knowledge_base (qd_question d)))%list.
Proof.
  intros R T. unfold handleQuestionDetected. run.
  cbn -[handleAnswerFound searchOnlineForAnswer handleUncertainty].
  rewrite R. unfold top_hit in T.
  destruct (hd_error l) as [r0|].
  - destruct (js_gt (score r0) (rag_similarity_threshold cfg)); [discriminate |].
    rewrite searchOnlineForAnswer_run. reflexivity.
  - rewrite searchOnlineForAnswer_run. reflexivity.
Qed.

(** The knowledge base fails. *)
Lemma handleQuestionDetected_lookup_error d s e :
  ragSystem_search env (qd_question d) 5 (Some (currentExamType s)) = Throw e ->
  handleQuestionDetected cfg env d s =
  (Ok tt,
   flagged (detection_failed e (qd_question d))
     (set_currentQuestion (Some (fresh_question env d)) s),
   [Log Info "Question detected:";
    IoEmit (io_question_detected (fresh_question env d));
    Call (rag_search (qd_question d) 5 (Some (currentExamType s)));
    Log Error "Error handling question detection:"] ++
   flagging env (detection_failed e (qd_question d)))%list.
Proof.
  intros R. unfold handleQuestionDetected. run.
  cbn -[handleAnswerFound searchOnlineForAnswer handleUncertainty].
  rewrite R. rewrite handleUncertainty_run. reflexivity.
Qed.

End Detection.

Section Fallback.
Import VisionAnalyzer Run.
Variable env : Env.

(** A web search that throws is absorbed: the reasoner is asked next. *)
Lemma fallback_web_error analysis l va e :
  webSearch_isConfigured env = true ->
  searchForQuestionType env (a_question analysis) (a_question_type analysis)
  = Throw e ->
  fallback env analysis l va =
  reasoned env analysis l va
    [Call (web_searchForQuestionType (a_question analysis)
             (a_question_type analysis));
     Log Error "Web search failed:"].
Proof.
  intros W E. unfold fallback, reasoned, knowledge_context. run.
  rewrite W, E. cbn. rewrite app_nil_r.
  destruct (reasonAboutAnswer env _ _ _); reflexivity.
Qed.

(** Without a configured web search the reasoner is asked at once. *)
Lemma fallback_no_web analysis l va :
  webSearch_isConfigured env = false ->
  fallback env analysis l va = reasoned env analysis l va [].
Proof.
  intros W. unfold fallback, reasoned, knowledge_context. run.
  rewrite W. cbn. rewrite app_nil_r.
  destruct (reasonAboutAnswer env _ _ _); reflexivity.
Qed.

Lemma reasoned_requests analysis l va before :
  requests (trace (reasoned env analysis l va before)) =
  (requests before ++
   [ollama_reasonAboutAnswer (a_question analysis) (a_options analysis)
      (knowledge_context l)])%list.
Proof.
  unfold reasoned, requests.
  destruct (reasonAboutAnswer env _ _ _); cbn [trace snd];
    rewrite ?flat_map_app; cbn; rewrite ?app_nil_r; reflexivity.
Qed.

Lemma reasoned_emits_no_uncertainty analysis l va before u :
  ~ In (uncertainty u) (emitted before) ->
  ~ In (uncertainty u) (emitted (trace (reasoned env analysis l va before))).
Proof.
  unfold reasoned, emitted. intros H.
  destruct (reasonAboutAnswer env _ _ _); cbn [trace snd];
    rewrite ?flat_map_app; cbn; rewrite ?app_nil_r; rewrite ?in_app_iff;
    cbn; intuition discriminate.
Qed.

End Fallback.

(** C4, as amended.  When the knowledge base answers with no result above
    the similarity threshold, [handleQuestionDetected] attempts no further
    stage: its only request is the knowledge search, neither the web search
    nor the reasoner is asked, the operator is told that the answer was not
    found, the question is marked [uncertain] and manual override is on. *)
Theorem knowledge_miss_goes_to_uncertainty cfg env d s l :
  ragSystem_search env (qd_question d) 5 (Some (ExamTaker.currentExamType s))
  = Ok l ->
  Run.top_hit cfg l = None ->
  let r := ExamTaker.handleQuestionDetected cfg env d s in
  requests (trace r) =
    [rag_search (qd_question d) 5 (Some (ExamTaker.currentExamType s))] /\
  In (io_ai_uncertainty (Run.not_in_knowledge_base (qd_question d)) (now env))
     (broadcasts (trace r)) /\
  option_map status (ExamTaker.currentQuestion (state r)) = Some "uncertain" /\
  ExamTaker.manualOverride (state r) = true.
Proof.
  intros R T. cbv zeta. rewrite (handleQuestionDetected_miss cfg env d s R T).
  cbn. repeat split. auto.
Qed.

Lemma knowledge_miss_goes_to_uncertainty_witness :
  Run.top_hit config_json [] = None /\
  ExamTaker.manualOverride
    (state (ExamTaker.handleQuestionDetected config_json Scenario.empty_kb
              Scenario.detected Scenario.running)) = true.
Proof.
  split; [reflexivity |].
  apply (@knowledge_miss_goes_to_uncertainty config_json Scenario.empty_kb
           Scenario.detected Scenario.running [] eq_refl eq_refl).
Defined.

(** C4, refuted as stated.  The knowledge base knows nothing about the
    detected question: it is marked [uncertain] and the reasoner was never
    asked. *)
Lemma uncertain_without_reasoner :
  let r := ExamTaker.handleQuestionDetected config_json Scenario.empty_kb
             Scenario.detected Scenario.running in
  ragSystem_search Scenario.empty_kb (qd_question Scenario.detected) 5
    (Some (ExamTaker.currentExamType Scenario.running)) = Ok [] /\
  filter is_reasoning (requests (trace r)) = [] /\
  option_map status (ExamTaker.currentQuestion (state r)) = Some "uncertain".
Proof. cbv zeta. repeat split. Qed.

(** The analyzer's own [findAnswer] does ask the reasoner after a miss, when
    no web search is configured. *)
Lemma findAnswer_asks_reasoner cfg env analysis va l :
  ragSystem_search env (a_question analysis) (rag_max_results cfg) None = Ok l ->
  Run.top_hit cfg l = None ->
  webSearch_isConfigured env = false ->
  requests (trace (VisionAnalyzer.findAnswer cfg env analysis va)) =
  [rag_search (a_question analysis) (rag_max_results cfg) None;
   ollama_reasonAboutAnswer (a_question analysis) (a_options analysis)
     (Run.knowledge_context l)].
Proof.
  intros R T W. unfold VisionAnalyzer.findAnswer. run.
  cbn -[VisionAnalyzer.fallback]. rewrite R.
  pose proof (reasoned_requests env analysis l va []) as Q. revert Q.
  unfold Run.top_hit in T.
  destruct (hd_error l) as [r0|];
    [destruct (js_gt (score r0) (rag_similarity_threshold cfg));
     [discriminate |] |].
  all: rewrite (fallback_no_web env analysis l va W).
  all: destruct (Run.reasoned env analysis l va [])
         as [[[[[b src] c]|e] va'] tr].
  all: unfold requests; cbn; rewrite ?flat_map_app; cbn; rewrite ?app_nil_r.
  all: intros Q; rewrite Q; reflexivity.
Qed.

(** C5, as amended.  A knowledge lookup that throws takes
    [handleQuestionDetected] to its catch block: the error message is
    broadcast to the operator in [ai_uncertainty], the question is marked
    [uncertain], manual override is on and no other stage is requested.  A
    web search that throws inside the analyzer's [fallback] is logged and
    absorbed: the reasoner is asked next and no uncertainty is emitted for
    it. *)
Theorem lookup_failure_handling cfg env d s e analysis l va e' :
  ragSystem_search env (qd_question d) 5 (Some (ExamTaker.currentExamType s))
  = Throw e ->
  webSearch_isConfigured env = true ->
  searchForQuestionType env (a_question analysis) (a_question_type analysis)
  = Throw e' ->
  let r := ExamTaker.handleQuestionDetected cfg env d s in
  let f := VisionAnalyzer.fallback env analysis l va in
  (requests (trace r) =
     [rag_search (qd_question d) 5 (Some (ExamTaker.currentExamType s))] /\
   In (io_ai_uncertainty (Run.detection_failed e (qd_question d)) (now env))
      (broadcasts (trace r)) /\
   option_map status (ExamTaker.currentQuestion (state r)) = Some "uncertain" /\
   ExamTaker.manualOverride (state r) = true) /\
  (requests (trace f) =
     [web_searchForQuestionType (a_question analysis) (a_question_type analysis);
      ollama_reasonAboutAnswer (a_question analysis) (a_options analysis)
        (Run.knowledge_context l)] /\
   forall u, ~ In (uncertainty u) (emitted (trace f))).
Proof.
  intros R W E. cbv zeta. split.
  - rewrite (handleQuestionDetected_lookup_error cfg env d s R).
    cbn. repeat split. auto.
  - rewrite (fallback_web_error env analysis l va W E). split.
    + rewrite reasoned_requests. reflexivity.
    + intros u. apply reasoned_emits_no_uncertainty. cbn. tauto.
Qed.

Lemma lookup_failure_handling_witness :
  ragSystem_search Scenario.outage (qd_question Scenario.detected) 5
    (Some (ExamTaker.currentExamType Scenario.running))
  = Throw "RAG system not initialized" /\
  webSearch_isConfigured Scenario.outage = true /\
  ExamTaker.manualOverride
    (state (ExamTaker.handleQuestionDetected config_json Scenario.outage
              Scenario.detected Scenario.running)) = true.
Proof.
  split; [reflexivity |]. split; [reflexivity |].
  apply (@lookup_failure_handling config_json Scenario.outage
           Scenario.detected Scenario.running "RAG system not initialized"
           (Scenario.report (95 # 100)%Q) [] VisionAnalyzer.new
           "timeout of 10000ms exceeded" eq_refl eq_refl eq_refl).
Defined.

(** C5, refuted as stated.  The knowledge base is down: its error message
    reaches the operator, the question is marked [uncertain] at once, and
    neither the online search nor the reasoner was tried. *)
Lemma lookup_failure_skips_to_uncertain :
  let r := ExamTaker.handleQuestionDetected config_json Scenario.broken_kb
             Scenario.detected Scenario.running in
  In (io_ai_uncertainty
        (Run.detection_failed "RAG system not initialized"
           (qd_question Scenario.detected))
        (now Scenario.broken_kb))
     (broadcasts (trace r)) /\
  option_map status (ExamTaker.currentQuestion (state r)) = Some "uncertain" /\
  ~ In (Log Info "Searching online for answer:") (trace r) /\
  filter is_reasoning (requests (trace r)) = [] /\
  filter is_web_search (requests (trace r)) = [].
Proof.
  cbv zeta. split; [vm_compute; tauto |]. split; [reflexivity |].
  split; [| split; reflexivity].
  vm_compute. intuition discriminate.
Qed.

(** ** Incoming screenshots *)

Section Screenshots.
Import ExamTaker.
Variable cfg : Config.
Variable env : Env.

(** Below the floor [processAnalysis] only logs a warning. *)
Lemma processAnalysis_below_floor a va :
  js_lt (a_confidence a) (5 # 10)%Q = true ->
  VisionAnalyzer.processAnalysis cfg env a va =
  (Ok tt, va, [Log Warn "Low confidence or no question detected:"]).
Proof.
  intros H. unfold VisionAnalyzer.processAnalysis. run. rewrite H.
  rewrite orb_true_r. reflexivity.
Qed.

Lemma handleRemotelyScreenshot_below_floor sd s a :
  isActive s = true ->
  manualOverride s = false ->
  analyzeExamScreen env (imageData sd) = Ok a ->
  js_lt (a_confidence a) (5 # 10)%Q = true ->
  handleRemotelyScreenshot cfg env sd s =
  (Ok (Some a),
   set_visionAnalyzer
     (VisionAnalyzer.remember
        {| sa_analysis := a; sa_timestamp := now env;
           sa_imageBase64 := imageData sd |} (visionAnalyzer s))
     (set_lastScreenshot (Some (imageData sd)) s),
   [IoEmit (io_screenshot (imageData sd) (timestamp sd));
    Log Info "Starting screen analysis...";
    Call (ollama_analyzeExamScreen (imageData sd));
    Log Info "Screen analysis completed:";
    Log Warn "Low confidence or no question detected:";
    IoEmit (io_screen_analysis a (now env))]).
Proof.
  intros A O E F.
  unfold handleRemotelyScreenshot, analysed_screenshot,
    VisionAnalyzer.analyzeScreen, VisionAnalyzer.analyzed.
  run. rewrite A, O. cbn -[VisionAnalyzer.processAnalysis].
  rewrite E. rewrite processAnalysis_below_floor by exact F.
  reflexivity.
Qed.

(** The handler is its start followed, when suspended, by its resumption
    on the vision model's answer. *)
Lemma handleRemotelyScreenshot_split sd s :
  handleRemotelyScreenshot cfg env sd s =
  (suspended <- screenshot_start sd ;;
   if suspended
   then screenshot_resume cfg env sd (analyzeExamScreen env (imageData sd))
   else ret None) s.
Proof.
  unfold handleRemotelyScreenshot, screenshot_start, screenshot_resume,
    VisionAnalyzer.analyzeScreen.
  run.
  destruct (negb (isActive s) || manualOverride s); [reflexivity |].
  cbn -[VisionAnalyzer.analyzed analysed_screenshot].
  destruct (analyzeExamScreen env (imageData sd)) as [a|e]; [| reflexivity].
  destruct (VisionAnalyzer.analyzed cfg env (imageData sd) a (visionAnalyzer s))
    as [[[r|e] va] tr]; cbn -[analysed_screenshot]; [| reflexivity].
  destruct (analysed_screenshot env r _) as [[[r'|e'] s'] tr'];
    cbn; rewrite ?app_nil_r; reflexivity.
Qed.

End Screenshots.

(** C6, as amended.  A report whose confidence is below the floor of 0.5
    creates no question, starts no handler (the analyzer emits nothing) and
    reaches no collaborator: the only request is the screen analysis itself,
    the current question, the history and the override flag are as before.
    The report is not dropped silently: it is logged with a warning, kept as
    the analyzer's last analysis and broadcast in [screen_analysis]. *)
Theorem below_floor_report_starts_nothing cfg env sd s a :
  ExamTaker.isActive s = true ->
  ExamTaker.manualOverride s = false ->
  analyzeExamScreen env (ExamTaker.imageData sd) = Ok a ->
  js_lt (a_confidence a) (5 # 10)%Q = true ->
  let r := ExamTaker.handleRemotelyScreenshot cfg env sd s in
  (emitted (trace r) = [] /\
   requests (trace r) = [ollama_analyzeExamScreen (ExamTaker.imageData sd)] /\
   sent (trace r) = [] /\
   ExamTaker.currentQuestion (state r) = ExamTaker.currentQuestion s /\
   ExamTaker.questionHistory (state r) = ExamTaker.questionHistory s /\
   ExamTaker.manualOverride (state r) = false) /\
  (broadcasts (trace r) =
     [io_screenshot (ExamTaker.imageData sd) (ExamTaker.timestamp sd);
      io_screen_analysis a (now env)] /\
   In (Log Warn "Low confidence or no question detected:") (trace r) /\
   option_map sa_analysis
     (VisionAnalyzer.lastAnalysis (ExamTaker.visionAnalyzer (state r))) = Some a).
Proof.
  intros A O E F. cbv zeta.
  rewrite (handleRemotelyScreenshot_below_floor cfg env sd s A O E F).
  cbn. rewrite O. repeat split. auto 10.
Qed.

Lemma below_floor_report_starts_nothing_witness :
  js_lt (a_confidence (Scenario.report (3 # 10)%Q)) (5 # 10)%Q = true /\
  emitted (trace (ExamTaker.handleRemotelyScreenshot config_json
                    Scenario.blurred (Scenario.shot "aW1hZ2Ux")
                    Scenario.running)) = [].
Proof.
  split; [reflexivity |].
  apply (@below_floor_report_starts_nothing config_json Scenario.blurred
           (Scenario.shot "aW1hZ2Ux") Scenario.running
           (Scenario.report (3 # 10)%Q) eq_refl eq_refl eq_refl eq_refl).
Defined.

(** C6, refuted as stated.  The screen is read with confidence 0.3: the
    report is broadcast to the dashboard in a [screen_analysis] event and a
    warning is logged. *)
Lemma below_floor_report_is_broadcast :
  let r := ExamTaker.handleRemotelyScreenshot config_json Scenario.blurred
             (Scenario.shot "aW1hZ2Ux") Scenario.running in
  js_lt (a_confidence (Scenario.report (3 # 10)%Q)) (5 # 10)%Q = true /\
  In (io_screen_analysis (Scenario.report (3 # 10)%Q) (now Scenario.blurred))
     (broadcasts (trace r)) /\
  In (Log Warn "Low confidence or no question detected:") (trace r).
Proof.
  cbv zeta. split; [reflexivity |]. split; vm_compute; tauto.
Qed.

(** ** Screenshots in flight *)

Section Loop.
Import ExamTaker EventLoop.

Lemma arrive_suspends l sd :
  isActive (examTaker l) = true ->
  manualOverride (examTaker l) = false ->
  arrive l sd =
  {| examTaker := set_lastScreenshot (Some (imageData sd)) (examTaker l);
     awaiting := awaiting l ++ [sd];
     effects := effects l ++
                [IoEmit (io_screenshot (imageData sd) (timestamp sd));
                 Log Info "Starting screen analysis...";
                 Call (ollama_analyzeExamScreen (imageData sd))] |}%list.
Proof.
  intros A O. unfold arrive, screenshot_start. run. rewrite A, O. reflexivity.
Qed.

Lemma analysis_requests_app t1 t2 :
  analysis_requests (t1 ++ t2) =
  (analysis_requests t1 ++ analysis_requests t2)%list.
Proof. apply flat_map_app. Qed.

Lemma arrivals_all_suspend sds : forall l,
  isActive (examTaker l) = true ->
  manualOverride (examTaker l) = false ->
  let l' := arrivals l sds in
  awaiting l' = (awaiting l ++ sds)%list /\
  analysis_requests (effects l') =
    (analysis_requests (effects l) ++ map imageData sds)%list /\
  isActive (examTaker l') = true /\
  manualOverride (examTaker l') = false.
Proof.
  induction sds as [|sd sds IH]; intros l A O; cbv zeta.
  - cbn. rewrite !app_nil_r. auto.
  - unfold arrivals. cbn [fold_left]. fold (arrivals (arrive l sd) sds).
    pose proof (arrive_suspends l sd A O) as E.
    destruct (IH (arrive l sd)) as (W & R & A' & O');
      [rewrite E; exact A | rewrite E; exact O |].
    repeat split; [| | exact A' | exact O'].
    + rewrite W, E. cbn [awaiting]. rewrite <- app_assoc. reflexivity.
    + rewrite R, E. cbn [effects]. rewrite analysis_requests_app. cbn.
      rewrite <- app_assoc. reflexivity.
Qed.

(** One screenshot and then the model's answer is the handler run to its
    end. *)
Lemma arrive_then_answered cfg env s sd :
  let l := answered cfg env (arrive (boot s) sd) in
  let r := handleRemotelyScreenshot cfg env sd s in
  examTaker l = state r /\ effects l = trace r /\ awaiting l = [].
Proof.
  cbv zeta. rewrite handleRemotelyScreenshot_split.
  unfold answered, arrive, boot, bind. cbn [examTaker awaiting effects].
  destruct (screenshot_start sd s) as [[[[|]|e] s1] t1] eqn:E;
    cbn [result state trace fst snd app awaiting examTaker effects].
  - destruct (screenshot_resume cfg env sd _ s1) as [[r2 s2] t2].
    cbn. auto.
  - cbn. rewrite app_nil_r. auto.
  - auto.
Qed.

End Loop.

(** C8, as amended.  Screenshots are not queued.  Every screenshot that
    arrives while the exam is active and the override is off starts its
    analysis on arrival, whatever is still outstanding: after any number of
    arrivals with no answer from the vision model in between, every one of
    them is in flight, in order of arrival, with its own request sent; none
    is held back and none is dropped. *)
Theorem screenshots_are_analysed_concurrently l sds :
  ExamTaker.isActive (EventLoop.examTaker l) = true ->
  ExamTaker.manualOverride (EventLoop.examTaker l) = false ->
  let l' := EventLoop.arrivals l sds in
  EventLoop.awaiting l' = (EventLoop.awaiting l ++ sds)%list /\
  EventLoop.analysis_requests (EventLoop.effects l') =
    (EventLoop.analysis_requests (EventLoop.effects l)
     ++ map ExamTaker.imageData sds)%list.
Proof.
  intros A O. cbv zeta.
  destruct (arrivals_all_suspend sds l A O) as (W & R & _).
  split; assumption.
Qed.

Lemma screenshots_are_analysed_concurrently_witness :
  ExamTaker.isActive Scenario.running = true /\
  ExamTaker.manualOverride Scenario.running = false /\
  EventLoop.awaiting
    (EventLoop.arrivals (EventLoop.boot Scenario.running)
       [Scenario.shot "aW1hZ2Ux"; Scenario.shot "aW1hZ2Uy"])
  = [Scenario.shot "aW1hZ2Ux"; Scenario.shot "aW1hZ2Uy"].
Proof.
  split; [reflexivity |]. split; [reflexivity |].
  apply (@screenshots_are_analysed_concurrently
           (EventLoop.boot Scenario.running)
           [Scenario.shot "aW1hZ2Ux"; Scenario.shot "aW1hZ2Uy"]
           eq_refl eq_refl).
Defined.

(** C8, refuted as stated.  Three screenshots arrive before the vision model
    has answered the first: three analyses are in flight at once, each with
    its request sent, and the second screenshot was not dropped when the
    third arrived. *)
Lemma three_screenshots_three_analyses :
  let l := EventLoop.arrivals (EventLoop.boot Scenario.running)
             [Scenario.shot "aW1hZ2Ux"; Scenario.shot "aW1hZ2Uy";
              Scenario.shot "aW1hZ2Uz"] in
  length (EventLoop.awaiting l) = 3 /\
  EventLoop.analysis_requests (EventLoop.effects l)
  = ["aW1hZ2Ux"; "aW1hZ2Uy"; "aW1hZ2Uz"] /\
  In (Scenario.shot "aW1hZ2Uy") (EventLoop.awaiting l).
Proof.
  cbv zeta. split; [reflexivity |]. split; [reflexivity |].
  vm_compute. tauto.
Qed.

(** * Further properties

    Properties of the methods beyond the numbered claims, read off the
    code. *)

(** ** The analyzer *)

(** Case analysis on the next stuck [match] of the goal. *)
Ltac next_case :=
  match goal with
  | |- context [match ?x with _ => _ end] =>
      lazymatch x with
      | context [match _ with _ => _ end] => fail
      | _ => destruct x eqn:?
      end
  end.

Section Analyzer.
Import VisionAnalyzer ScreenHistory.
Variable cfg : Config.
Variable env : Env.

Lemma fallback_shape analysis l va :
  let r := fallback env analysis l va in
  state r = va /\ filter is_verdict (emitted (trace r)) = [].
Proof.
  cbv zeta. unfold fallback. run.
  repeat (next_case; cbn); auto.
Qed.

Lemma findAnswer_shape analysis va :
  let r := findAnswer cfg env analysis va in
  result r = Ok tt /\ state r = va /\
  length (filter is_verdict (emitted (trace r))) = 1.
Proof.
  cbv zeta. unfold findAnswer. run.
  destruct (ragSystem_search env (a_question analysis) (rag_max_results cfg) None)
    as [l|e]; cbn -[fallback]; [| auto].
  assert (F := fallback_shape analysis l va). cbv zeta in F.
  destruct (hd_error l) as [r0|];
    [destruct (js_gt (score r0) (rag_similarity_threshold cfg)); [cbn; auto |] |].
  all: destruct (fallback env analysis l va) as [[[[[b src] c]|e] va'] tr];
    cbn in *; destruct F as [-> F];
    unfold emitted in *; rewrite flat_map_app, filter_app, F; cbn; auto.
Qed.
End Analyzer.

Section Analyzer.
Import VisionAnalyzer ScreenHistory.
Variable cfg : Config.
Variable env : Env.

Lemma processAnalysis_shape a va :
  let r := processAnalysis cfg env a va in
  result r = Ok tt /\ state r = va.
Proof.
  cbv zeta. unfold processAnalysis. run.
  destruct (negb (truthy (a_question a)) || js_lt (a_confidence a) (5 # 10)%Q);
    [auto |].
  cbn -[findAnswer].
  destruct (a_options a) as [|o os]; [auto |].
  destruct (@findAnswer_shape cfg env a va) as (R & S & _).
  destruct (findAnswer cfg env a va) as [[r s] t]. cbn in *. subst. auto.
Qed.

Lemma analyzeScreen_state img va :
  state (analyzeScreen cfg env img va) =
  match analyzeExamScreen env img with
  | Ok a => remember {| sa_analysis := a; sa_timestamp := now env;
                        sa_imageBase64 := img |} va
  | Throw _ => va
  end.
Proof.
  unfold analyzeScreen, analyzed. run.
  destruct (analyzeExamScreen env img) as [a|e]; cbn -[processAnalysis];
    [| reflexivity].
  destruct (@processAnalysis_shape a
              (remember {| sa_analysis := a; sa_timestamp := now env;
                           sa_imageBase64 := img |} va)) as (R & S).
  destruct (processAnalysis cfg env a _) as [[r s] t]. cbn in *. subst.
  reflexivity.
Qed.

Lemma remember_bound a va :
  length (analysisHistory va) <= 10 ->
  length (analysisHistory (remember a va)) <= 10.
Proof.
  intros H. unfold remember. cbn [analysisHistory].
  destruct (Nat.ltb_spec 10 (length (analysisHistory va ++ [a]))) as [L|L].
  - rewrite length_app in L. cbn in L.
    destruct (analysisHistory va ++ [a])%list eqn:E.
    + cbn. lia.
    + cbn. apply (f_equal (@length _)) in E. rewrite length_app in E.
      cbn in E. lia.
  - exact L.
Qed.

Lemma remember_last a va :
  lastAnalysis (remember a va) = Some a /\
  last (analysisHistory (remember a va)) a = a /\
  analysisHistory (remember a va) <> [] .
Proof.
  unfold remember. cbn [lastAnalysis analysisHistory]. split; [reflexivity |].
  destruct (10 <? length (analysisHistory va ++ [a]))%nat eqn:L.
  - apply Nat.ltb_lt in L. rewrite length_app in L. cbn in L.
    destruct (analysisHistory va) as [|h t]; [cbn in L; lia |].
    cbn [app tl].
    destruct t as [|h' t']; [cbn in L; lia |].
    split; [| discriminate].
    change (h' :: t' ++ [a])%list with ((h' :: t') ++ [a])%list.
    apply last_last.
  - split; [apply last_last |].
    destruct (analysisHistory va); discriminate.
Qed.

End Analyzer.

Section Analyzer.
Import VisionAnalyzer ScreenHistory.
Variable cfg : Config.
Variable env : Env.

Lemma top_hit_some l r0 :
  Run.top_hit cfg l = Some r0 ->
  hd_error l = Some r0 /\ js_gt (score r0) (rag_similarity_threshold cfg) = true.
Proof.
  unfold Run.top_hit. destruct (hd_error l) as [r|]; [| discriminate].
  destruct (js_gt (score r) (rag_similarity_threshold cfg)) eqn:G;
    [| discriminate].
  intros E. injection E as <-. auto.
Qed.

Lemma findAnswerCoordinates_run q sel va :
  findAnswerCoordinates env q sel va =
  let failed e tr :=
    (Throw e, va, (tr ++ [Log Error "Failed to find answer coordinates:"])%list) in
  match lastAnalysis va with
  | None => failed "No recent screen analysis available" []
  | Some last =>
      match sel with
      | None => failed "Cannot convert undefined or null to object" []
      | Some _ =>
          let asked := [Log Info "Finding coordinates for answer:";
                        Call (ollama_findAnswerCoordinates last sel)] in
          match ollamaFindAnswerCoordinates env last sel with
          | Ok cr =>
              if js_lt (cr_confidence cr) (5 # 10)%Q
              then failed "Low confidence in coordinate detection" asked
              else (Ok (cr_coordinates cr), va,
                    (asked ++ [Log Info "Answer coordinates found:"])%list)
          | Throw e => failed e asked
          end
      end
  end.
Proof.
  unfold findAnswerCoordinates, log_about. run.
  destruct (lastAnalysis va) as [last|]; [| reflexivity].
  destruct sel as [txt|]; [| reflexivity].
  cbn. destruct (ollamaFindAnswerCoordinates env last (Some txt)) as [cr|e];
    [| reflexivity].
  destruct (js_lt (cr_confidence cr) (5 # 10)%Q); reflexivity.
Qed.

End Analyzer.

(** X1.  When the knowledge base answers and its first result scores above
    [rag.similarity_threshold], [VisionAnalyzer.findAnswer] makes that one
    lookup and nothing else (no web search, no reasoning request) and emits
    exactly one event: [answer_found] with the result's content, its score
    as confidence and source "rag".  The analyzer is left unchanged. *)
Theorem findAnswer_knowledge_hit cfg env analysis va l r0 :
  ragSystem_search env (a_question analysis) (rag_max_results cfg) None = Ok l ->
  Run.top_hit cfg l = Some r0 ->
  let r := VisionAnalyzer.findAnswer cfg env analysis va in
  requests (trace r) =
    [rag_search (a_question analysis) (rag_max_results cfg) None] /\
  emitted (trace r) =
    [answer_found {| answer := Some (content r0); confidence := score r0;
                     source := "rag"; ad_question := a_question analysis;
                     ad_examType := None; ad_ragResults := [] |}] /\
  result r = Ok tt /\ state r = va.
Proof.
  intros R T. destruct (@top_hit_some cfg l r0 T) as [H G]. cbv zeta.
  unfold VisionAnalyzer.findAnswer. run. rewrite R. cbn -[VisionAnalyzer.fallback].
  rewrite H, G. cbn. auto.
Qed.

Lemma findAnswer_knowledge_hit_witness :
  Run.top_hit config_json [Cases.paris_hit (92 # 100)%Q]
  = Some (Cases.paris_hit (92 # 100)%Q) /\
  requests (trace (VisionAnalyzer.findAnswer config_json
                     (Cases.knowing (92 # 100)%Q)
                     (Scenario.report (95 # 100)%Q) VisionAnalyzer.new))
  = [rag_search (Some "Capital of France?") 5 None].
Proof.
  split; [reflexivity |].
  apply (@findAnswer_knowledge_hit config_json (Cases.knowing (92 # 100)%Q)
           (Scenario.report (95 # 100)%Q) VisionAnalyzer.new
           [Cases.paris_hit (92 # 100)%Q] (Cases.paris_hit (92 # 100)%Q));
    reflexivity.
Defined.


Section Analyzer.
Import VisionAnalyzer ScreenHistory.
Variable cfg : Config.
Variable env : Env.

Lemma fallback_requests analysis l va :
  length (requests (trace (fallback env analysis l va))) <= 2.
Proof.
  unfold fallback. run.
  repeat (next_case; cbn -[js_join]); lia.
Qed.

Lemma findAnswer_requests analysis va :
  exists rest,
    requests (trace (findAnswer cfg env analysis va))
    = rag_search (a_question analysis) (rag_max_results cfg) None :: rest /\
    length rest <= 2.
Proof.
  unfold findAnswer. run.
  destruct (ragSystem_search env (a_question analysis) (rag_max_results cfg) None)
    as [l|e]; cbn -[fallback]; [| exists []; split; [reflexivity | cbn; lia]].
  assert (F := fallback_requests analysis l va).
  destruct (hd_error l) as [r0|];
    [destruct (js_gt (score r0) (rag_similarity_threshold cfg));
     [exists []; split; [reflexivity | cbn; lia] |] |].
  all: destruct (fallback env analysis l va) as [[[[[b src] c]|e] va'] tr];
    cbn in *; unfold requests in *; rewrite ?flat_map_app; cbn;
    rewrite ?app_nil_r; eexists; (split; [reflexivity | exact F]).
Qed.

End Analyzer.

(** X2.  [VisionAnalyzer.findAnswer] never throws, leaves the analyzer unchanged
    and ends with exactly one verdict, an [answer_found] or an
    [uncertainty] event, whatever the knowledge base, the web search and
    the reasoner answer or throw.  Its first request is the knowledge-base
    lookup, and at most two requests follow it. *)
Theorem findAnswer_one_verdict cfg env analysis va :
  let r := VisionAnalyzer.findAnswer cfg env analysis va in
  result r = Ok tt /\ state r = va /\
  length (filter ScreenHistory.is_verdict (emitted (trace r))) = 1 /\
  exists rest,
    requests (trace r)
    = rag_search (a_question analysis) (rag_max_results cfg) None :: rest /\
    length rest <= 2.
Proof.
  cbv zeta.
  destruct (@findAnswer_shape cfg env analysis va) as (R & S & V).
  split; [exact R |]. split; [exact S |]. split; [exact V |].
  apply findAnswer_requests.
Qed.

(** ** The exam taker's handlers *)

Lemma try_catch_total S A (m : M S A) (h : string -> M S A) s :
  (forall e s', exists a, result (h e s') = Ok a) ->
  exists a, result (try_catch m h s) = Ok a.
Proof.
  intros H. unfold try_catch.
  destruct (m s) as [[[a|e] s1] t1]; [eexists; reflexivity |].
  destruct (H e s1) as [a Ha].
  destruct (h e s1) as [[r s2] t2]. cbn in *. subst. eexists. reflexivity.
Qed.

Section Taker.
Import ExamTaker Run.
Variable cfg : Config.
Variable env : Env.

Lemma handleQuestionDetected_hit d s l r0 :
  ragSystem_search env (qd_question d) 5 (Some (currentExamType s)) = Ok l ->
  top_hit cfg l = Some r0 ->
  handleQuestionDetected cfg env d s =
  let next := handleAnswerFound cfg env (hit_answer s l r0)
                (set_currentQuestion (Some (fresh_question env d)) s) in
  (Ok tt, state next,
   [Log Info "Question detected:";
    IoEmit (io_question_detected (fresh_question env d));
    Call (rag_search (qd_question d) 5 (Some (currentExamType s)));
    IoEmit (io_ai_reasoning (currentExamType s)
              match l with [] => ["no_matching_documents"] | _ :: _ => [] end
              (length l))] ++ trace next)%list.
Proof.
  intros R T. destruct (@top_hit_some cfg l r0 T) as [H G]. cbv zeta.
  unfold handleQuestionDetected. run.
  cbn -[handleAnswerFound searchOnlineForAnswer handleUncertainty].
  rewrite R, H, G.
  pose proof (handleAnswerFound_run cfg env (hit_answer s l r0)
                (set_currentQuestion (Some (fresh_question env d)) s)) as E.
  unfold hit_answer, fresh_question in *. cbn in E. 
  destruct (handleAnswerFound cfg env _ _) as [[r s'] t].
  injection E as -> _ _. reflexivity.
Qed.

Lemma handleQuestionDetected_returns d s :
  result (handleQuestionDetected cfg env d s) = Ok tt.
Proof.
  destruct (ragSystem_search env (qd_question d) 5 (Some (currentExamType s)))
    as [l|e] eqn:R.
  - destruct (top_hit cfg l) as [r0|] eqn:T.
    + rewrite (handleQuestionDetected_hit d s R T). reflexivity.
    + rewrite (handleQuestionDetected_miss cfg env d s R T). reflexivity.
  - rewrite (handleQuestionDetected_lookup_error cfg env d s R). reflexivity.
Qed.

Lemma handleRemotelyScreenshot_returns sd s :
  exists o, result (handleRemotelyScreenshot cfg env sd s) = Ok o.
Proof.
  unfold handleRemotelyScreenshot. apply try_catch_total.
  intros e s'. eexists. reflexivity.
Qed.

End Taker.

(** X3.  None of the handlers of the exam taker lets an error escape:
    [handleRemotelyScreenshot], [handleQuestionDetected],
    [handleAnswerFound], [executeAnswer], [searchOnlineForAnswer] and
    [handleUncertainty] return normally from every state, whatever the
    collaborators answer or throw. *)
Theorem handlers_never_throw cfg env s :
  (forall sd, exists o,
     result (ExamTaker.handleRemotelyScreenshot cfg env sd s) = Ok o) /\
  (forall d, result (ExamTaker.handleQuestionDetected cfg env d s) = Ok tt) /\
  (forall a, result (ExamTaker.handleAnswerFound cfg env a s) = Ok tt) /\
  (forall a, result (ExamTaker.executeAnswer cfg env a s) = Ok tt) /\
  (forall q, result (ExamTaker.searchOnlineForAnswer env q s) = Ok tt) /\
  (forall u, result (ExamTaker.handleUncertainty env u s) = Ok tt).
Proof.
  repeat split; intros.
  - apply handleRemotelyScreenshot_returns.
  - apply handleQuestionDetected_returns.
  - rewrite handleAnswerFound_run. reflexivity.
  - apply executeAnswer_returns.
  - rewrite searchOnlineForAnswer_run. reflexivity.
  - rewrite handleUncertainty_run. reflexivity.
Qed.

Section Detected.
Import ExamTaker Run.
Variable cfg : Config.
Variable env : Env.
Variable o : Scheduled.Others.

(** [handleQuestionDetected] among other handlers, by cases on the
    knowledge base's answer. *)
Lemma scheduled_handleQuestionDetected_run d s :
  Scheduled.handleQuestionDetected cfg env o d s =
  let s1 := Scheduled.during_search o
              (set_currentQuestion (Some (fresh_question env d)) s) in
  let asked :=
    [Log Info "Question detected:";
     IoEmit (io_question_detected (fresh_question env d));
     Call (rag_search (qd_question d) 5 (Some (currentExamType s)))] in
  match ragSystem_search env (qd_question d) 5 (Some (currentExamType s)) with
  | Ok l =>
      let searched :=
        (asked ++
         [IoEmit (io_ai_reasoning (currentExamType s1)
                    match l with [] => ["no_matching_documents"] | _ :: _ => [] end
                    (length l))])%list in
      match top_hit cfg l with
      | Some r0 =>
          let next := Scheduled.handleAnswerFound cfg env o (hit_answer s1 l r0) s1 in
          (Ok tt, state next, (searched ++ trace next)%list)
      | None =>
          (Ok tt, flagged (not_in_knowledge_base (qd_question d)) s1,
           (searched ++ Log Info "Searching online for answer:" ::
            flagging env (not_in_knowledge_base (qd_question d)))%list)
      end
  | Throw e =>
      (Ok tt, flagged (detection_failed e (qd_question d)) s1,
       (asked ++ Log Error "Error handling question detection:" ::
        flagging env (detection_failed e (qd_question d)))%list)
  end.
Proof.
  unfold Scheduled.handleQuestionDetected, Scheduled.await. run.
  cbn -[Scheduled.handleAnswerFound searchOnlineForAnswer handleUncertainty].
  destruct (ragSystem_search env (qd_question d) 5 (Some (currentExamType s)))
    as [l|e].
  - unfold top_hit. destruct (hd_error l) as [r0|].
    + destruct (js_gt (score r0) (rag_similarity_threshold cfg)).
      * pose proof (scheduled_handleAnswerFound_run cfg env o
                      (hit_answer
                         (Scheduled.during_search o
                            (set_currentQuestion (Some (fresh_question env d)) s))
                         l r0)
                      (Scheduled.during_search o
                         (set_currentQuestion (Some (fresh_question env d)) s)))
          as E.
        unfold hit_answer, fresh_question in *. cbn in E.
        destruct (Scheduled.handleAnswerFound cfg env o _ _) as [[r s'] t].
        injection E as -> _ _. reflexivity.
      * rewrite searchOnlineForAnswer_run. reflexivity.
    + rewrite searchOnlineForAnswer_run. reflexivity.
  - rewrite handleUncertainty_run. reflexivity.
Qed.

End Detected.

Lemma handleQuestionDetected_quiet cfg env d s :
  Scheduled.handleQuestionDetected cfg env Scheduled.quiet d s
  = ExamTaker.handleQuestionDetected cfg env d s.
Proof.
  rewrite scheduled_handleQuestionDetected_run. cbv zeta.
  cbn [Scheduled.quiet Scheduled.during_search].
  destruct (ragSystem_search env (qd_question d) 5
              (Some (ExamTaker.currentExamType s))) as [l|e] eqn:R.
  - destruct (Run.top_hit cfg l) as [r0|] eqn:T.
    + rewrite (@handleQuestionDetected_hit cfg env d s l r0 R T). cbv zeta.
      rewrite handleAnswerFound_quiet. cbn [ExamTaker.currentExamType
        ExamTaker.set_currentQuestion hit_answer].
      reflexivity.
    + rewrite (@handleQuestionDetected_miss cfg env d s l R T). reflexivity.
  - rewrite (@handleQuestionDetected_lookup_error cfg env d s e R). reflexivity.
Qed.

Section Settled.
Import ExamTaker Run.
Variable cfg : Config.
Variable env : Env.
Variable o : Scheduled.Others.
Hypothesis same_question : Scheduled.keeps currentQuestion o.

Lemma scheduled_executeAnswer_current a s :
  currentQuestion (state (Scheduled.executeAnswer cfg env o a s))
  = currentQuestion s \/
  exists u, currentQuestion (state (Scheduled.executeAnswer cfg env o a s))
            = option_map (doubted u) (currentQuestion s).
Proof.
  rewrite scheduled_executeAnswer_run. cbv zeta.
  assert (L : currentQuestion (Scheduled.located env o a s) = currentQuestion s)
    by (apply (located_keeps env a s same_question); reflexivity).
  destruct (result (VisionAnalyzer.findAnswerCoordinates _ _ _ _)) as [[c|]|e].
  - assert (C : currentQuestion
                  (Scheduled.after_click o
                     (state (Scheduled.clickAnswer env o c
                               (Scheduled.located env o a s))))
                = currentQuestion s).
    { rewrite (proj1 (proj2 (proj2 (same_question _)))).
      rewrite (scheduled_clickAnswer_keeps env c _ same_question). exact L. }
    destruct (result (Scheduled.clickAnswer _ _ _ _)).
    + left. cbn [state fst snd currentQuestion set_questionHistory].
      rewrite (proj1 (proj2 (proj2 (proj2 (same_question _))))). exact C.
    + right. eexists. cbn [state fst snd].
      rewrite (proj2 (proj2 (proj2 (flagged_facts _ _)))), C. reflexivity.
  - right. eexists. cbn [state fst snd].
    rewrite (proj2 (proj2 (proj2 (flagged_facts _ _)))), L. reflexivity.
  - right. eexists. cbn [state fst snd].
    rewrite (proj2 (proj2 (proj2 (flagged_facts _ _)))), L. reflexivity.
Qed.

Lemma scheduled_handleAnswerFound_current a s q :
  currentQuestion s = Some q ->
  currentQuestion (state (Scheduled.handleAnswerFound cfg env o a s))
  = Some (found a q) \/
  exists u, currentQuestion (state (Scheduled.handleAnswerFound cfg env o a s))
            = Some (doubted u (found a q)).
Proof.
  intros Hq. rewrite scheduled_handleAnswerFound_run. cbv zeta.
  cbn [state fst snd].
  assert (C : currentQuestion (recorded a s) = Some (found a q)).
  { unfold recorded. rewrite Hq. reflexivity. }
  destruct (js_ge (confidence a) (ai_confidence_threshold cfg)).
  - destruct (scheduled_executeAnswer_current a (recorded a s)) as [E|[u E]];
      rewrite C in E; [left | right; exists u]; exact E.
  - right. rewrite handleUncertainty_run. cbn [state fst snd]. eexists.
    rewrite (proj2 (proj2 (proj2 (flagged_facts _ _)))), C. reflexivity.
Qed.

End Settled.

(** X11.  If no other handler writes the current question while
    [handleQuestionDetected] is suspended (on the knowledge-base search, on
    the coordinate lookup, on the click and its waits), then at the
    handler's last step the current question is the one just detected (new
    id, the detected text and options) and its status is 'answered' or
    'uncertain': it is not left at 'analyzing'. *)
Theorem detected_question_is_settled cfg env o d s :
  Scheduled.keeps ExamTaker.currentQuestion o ->
  exists q,
    ExamTaker.currentQuestion
      (state (Scheduled.handleQuestionDetected cfg env o d s)) = Some q /\
    id q = uuidv4 env /\
    question q = qd_question d /\
    options q = qd_options d /\
    (status q = "answered" \/ status q = "uncertain").
Proof.
  intros K. rewrite scheduled_handleQuestionDetected_run. cbv zeta.
  set (s1 := Scheduled.during_search o
               (ExamTaker.set_currentQuestion
                  (Some (Run.fresh_question env d)) s)).
  assert (C : ExamTaker.currentQuestion s1 = Some (Run.fresh_question env d)).
  { subst s1. rewrite (proj2 (proj2 (proj2 (proj2 (K _))))). reflexivity. }
  destruct (ragSystem_search env (qd_question d) 5
              (Some (ExamTaker.currentExamType s))) as [l|e].
  - destruct (Run.top_hit cfg l) as [r0|].
    + cbn [state fst snd].
      destruct (@scheduled_handleAnswerFound_current cfg env o K
                  (hit_answer s1 l r0) s1 (Run.fresh_question env d) C)
        as [E|[u E]];
        rewrite E; eexists; (split; [reflexivity |]); cbn; auto.
    + cbn [state fst snd].
      rewrite (proj2 (proj2 (proj2 (flagged_facts _ _)))), C. cbn.
      eexists. split; [reflexivity |]. cbn. auto.
  - cbn [state fst snd].
    rewrite (proj2 (proj2 (proj2 (flagged_facts _ _)))), C. cbn.
    eexists. split; [reflexivity |]. cbn. auto.
Qed.

Lemma detected_question_is_settled_witness :
  Scheduled.keeps ExamTaker.currentQuestion Scheduled.quiet /\
  exists q,
    ExamTaker.currentQuestion
      (state (Scheduled.handleQuestionDetected config_json Scenario.empty_kb
                Scheduled.quiet Scenario.detected Scenario.running)) = Some q /\
    status q = "uncertain".
Proof.
  assert (K : Scheduled.keeps ExamTaker.currentQuestion Scheduled.quiet)
    by (intros s; repeat split).
  split; [exact K |].
  destruct (@detected_question_is_settled config_json Scenario.empty_kb
              Scheduled.quiet Scenario.detected Scenario.running K)
    as (q & E & _).
  exists q. split; [exact E |].
  vm_compute in E. injection E as <-. reflexivity.
Defined.

(** X12.  A knowledge-base hit above the similarity threshold whose score is
    below [ai.confidence_threshold] is not executed: the lookup is the only
    request, [executeAnswer] is not entered, the override is enabled, the
    history is unchanged, and the question ends 'uncertain' with the hit's
    content as answer and reason 'Low confidence'. *)
Theorem knowledge_hit_below_gate cfg env d s l r0 :
  ragSystem_search env (qd_question d) 5 (Some (ExamTaker.currentExamType s))
  = Ok l ->
  Run.top_hit cfg l = Some r0 ->
  js_ge (score r0) (ai_confidence_threshold cfg) = false ->
  let r := ExamTaker.handleQuestionDetected cfg env d s in
  requests (trace r) =
    [rag_search (qd_question d) 5 (Some (ExamTaker.currentExamType s))] /\
  ~ executes (trace r) /\
  ExamTaker.manualOverride (state r) = true /\
  ExamTaker.questionHistory (state r) = ExamTaker.questionHistory s /\
  exists q,
    ExamTaker.currentQuestion (state r) = Some q /\
    status q = "uncertain" /\
    q_answer q = Some (content r0) /\
    option_map u_reason (q_uncertainty q) = Some (Some "Low confidence").
Proof.
  intros R T G. cbv zeta. rewrite (@handleQuestionDetected_hit cfg env d s l r0 R T).
  cbv zeta. rewrite handleAnswerFound_run. cbv zeta.
  cbn [confidence hit_answer]. rewrite G. rewrite handleUncertainty_run.
  cbn [state trace fst snd].
  split; [reflexivity |].
  split; [unfold executes; cbn; intuition discriminate |].
  split; [apply flagged_facts |].
  split; [rewrite (proj1 (proj2 (flagged_facts _ _))); reflexivity |].
  rewrite (proj2 (proj2 (proj2 (flagged_facts _ _)))). cbn.
  eexists. split; [reflexivity |]. cbn. auto.
Qed.

Lemma knowledge_hit_below_gate_witness :
  Run.top_hit config_json [Cases.paris_hit (75 # 100)%Q]
  = Some (Cases.paris_hit (75 # 100)%Q) /\
  js_ge (score (Cases.paris_hit (75 # 100)%Q))
    (ai_confidence_threshold config_json) = false /\
  ExamTaker.manualOverride
    (state (ExamTaker.handleQuestionDetected config_json
              (Cases.knowing (75 # 100)%Q) Scenario.detected Scenario.running))
  = true.
Proof.
  split; [reflexivity |]. split; [reflexivity |].
  apply (@knowledge_hit_below_gate config_json (Cases.knowing (75 # 100)%Q)
           Scenario.detected Scenario.running
           [Cases.paris_hit (75 # 100)%Q] (Cases.paris_hit (75 # 100)%Q));
    reflexivity.
Defined.

(** X4.  After any sequence of screenshots analysed from a new analyzer, the
    analysis history holds at most 10 entries and at most one per
    screenshot; [lastAnalysis] is null exactly when the history is empty,
    and otherwise it is the last entry of the history. *)
Theorem analysis_history_bounded cfg env imgs :
  let va := ScreenHistory.analyses cfg env imgs VisionAnalyzer.new in
  length (VisionAnalyzer.analysisHistory va) <= 10 /\
  length (VisionAnalyzer.analysisHistory va) <= length imgs /\
  (VisionAnalyzer.lastAnalysis va = None <->
   VisionAnalyzer.analysisHistory va = []) /\
  (forall a, VisionAnalyzer.lastAnalysis va = Some a ->
             last (VisionAnalyzer.analysisHistory va) a = a).
Proof.
  cbv zeta. unfold ScreenHistory.analyses.
  assert (G : forall imgs va n,
             length (VisionAnalyzer.analysisHistory va) <= 10 ->
             length (VisionAnalyzer.analysisHistory va) <= n ->
             (VisionAnalyzer.lastAnalysis va = None <->
              VisionAnalyzer.analysisHistory va = []) ->
             (forall a, VisionAnalyzer.lastAnalysis va = Some a ->
                        last (VisionAnalyzer.analysisHistory va) a = a) ->
             let va' := fold_left
                          (fun v img =>
                             state (VisionAnalyzer.analyzeScreen cfg env img v))
                          imgs va in
             length (VisionAnalyzer.analysisHistory va') <= 10 /\
             length (VisionAnalyzer.analysisHistory va') <= n + length imgs /\
             (VisionAnalyzer.lastAnalysis va' = None <->
              VisionAnalyzer.analysisHistory va' = []) /\
             (forall a, VisionAnalyzer.lastAnalysis va' = Some a ->
                        last (VisionAnalyzer.analysisHistory va') a = a)).
  { clear imgs. induction imgs as [|img imgs IH]; intros va n B N E L; cbv zeta.
    - cbn. rewrite Nat.add_0_r. auto.
    - cbn [fold_left length]. rewrite analyzeScreen_state.
      replace (n + S (length imgs)) with (S n + length imgs) by lia.
      destruct (analyzeExamScreen env img) as [a|e].
      + apply IH.
        * apply remember_bound. exact B.
        * unfold VisionAnalyzer.remember. cbn [VisionAnalyzer.analysisHistory].
          destruct (10 <? _)%nat.
          -- destruct (VisionAnalyzer.analysisHistory va ++ [_])%list eqn:Q;
               cbn; [lia |].
             apply (f_equal (@length _)) in Q. rewrite length_app in Q.
             cbn in Q. lia.
          -- rewrite length_app. cbn. lia.
        * destruct (remember_last {| sa_analysis := a; sa_timestamp := now env;
                                     sa_imageBase64 := img |} va) as (E1 & _ & E3).
          rewrite E1. split; [discriminate | contradiction].
        * intros a' Ha.
          destruct (remember_last {| sa_analysis := a; sa_timestamp := now env;
                                     sa_imageBase64 := img |} va) as (E1 & E2 & _).
          rewrite E1 in Ha. injection Ha as <-. exact E2.
      + apply IH; auto. }
  pose proof (G imgs VisionAnalyzer.new 0) as H. cbn in H.
  destruct H as (A & B & C & D);
    [lia | lia | tauto | discriminate |].
  auto.
Qed.

Section Taker.
Import ExamTaker Run.
Variable cfg : Config.
Variable env : Env.

Lemma handleRemotelyScreenshot_analyses sd s :
  isActive s = true ->
  manualOverride s = false ->
  exists tl,
    trace (handleRemotelyScreenshot cfg env sd s) =
    IoEmit (io_screenshot (imageData sd) (timestamp sd)) ::
    Log Info "Starting screen analysis..." ::
    Call (ollama_analyzeExamScreen (imageData sd)) :: tl /\
    lastScreenshot (state (handleRemotelyScreenshot cfg env sd s))
    = Some (imageData sd).
Proof.
  intros A O. rewrite handleRemotelyScreenshot_split.
  unfold bind, screenshot_start. run. rewrite A, O. cbn -[screenshot_resume].
  assert (L : forall r s0,
             lastScreenshot (state (screenshot_resume cfg env sd r s0))
             = lastScreenshot s0).
  { intros r s0. unfold screenshot_resume, analysed_screenshot. run.
    destruct r as [a|e]; cbn -[VisionAnalyzer.analyzed].
    - destruct (VisionAnalyzer.analyzed cfg env (imageData sd) a _)
        as [[[r'|e'] va] t]; reflexivity.
    - reflexivity. }
  specialize (L (analyzeExamScreen env (imageData sd))
                (set_lastScreenshot (Some (imageData sd)) s)).
  destruct (screenshot_resume cfg env sd _ _) as [[r s'] t].
  cbn in *. eexists. split; [reflexivity | exact L].
Qed.

Lemma setManualOverride_run b s :
  setManualOverride env b s =
  (Ok tt, set_manualOverride b s,
   [IoEmit (io_manual_override_changed b (now env));
    Log Info (if b then "Manual override enabled"
              else "Manual override disabled")]).
Proof. reflexivity. Qed.

Lemma startExam_run s :
  connected s = true ->
  startExam env s =
  (Ok {| started_examId := uuidv4 env |},
   set_questionHistory [] (set_isActive true (set_examId (Some (uuidv4 env)) s)),
   [IoEmit (io_exam_started (uuidv4 env) (now env));
    Log Info ("Exam started. Exam ID: " ++ uuidv4 env)]).
Proof.
  intros C. unfold startExam, startScreenshotMonitoring. run. rewrite C.
  reflexivity.
Qed.

End Taker.



(** X7.  During an exam, after [handleUncertainty] the next screenshot is only
    forwarded to the dashboard and not analysed; once the operator calls
    [setManualOverride(false)], the next screenshot is sent to the vision
    model again. *)
Theorem uncertainty_halts_analysis cfg env u s sd :
  ExamTaker.isActive s = true ->
  let halted := state (ExamTaker.handleUncertainty env u s) in
  let resumed := state (ExamTaker.setManualOverride env false halted) in
  ExamTaker.handleRemotelyScreenshot cfg env sd halted =
    (Ok None, halted,
     [IoEmit (io_screenshot (ExamTaker.imageData sd) (ExamTaker.timestamp sd))]) /\
  In (ollama_analyzeExamScreen (ExamTaker.imageData sd))
     (requests (trace (ExamTaker.handleRemotelyScreenshot cfg env sd resumed))).
Proof.
  intros A. cbv zeta. rewrite handleUncertainty_run. cbn [state fst snd]. split.
  - apply handleRemotelyScreenshot_skips.
    rewrite (proj1 (flagged_facts u s)). apply orb_true_r.
  - rewrite setManualOverride_run. cbn [state fst snd].
    destruct (@handleRemotelyScreenshot_analyses cfg env sd
                (ExamTaker.set_manualOverride false (Run.flagged u s)))
      as (tl & E & _).
    + cbn. rewrite (proj1 (proj2 (proj2 (flagged_facts u s)))). exact A.
    + reflexivity.
    + rewrite E. cbn. auto.
Qed.

Lemma uncertainty_halts_analysis_witness :
  ExamTaker.isActive Scenario.running = true /\
  In (ollama_analyzeExamScreen "aW1hZ2Uy")
     (requests
        (trace
           (ExamTaker.handleRemotelyScreenshot config_json Scenario.empty_kb
              (Scenario.shot "aW1hZ2Uy")
              (state
                 (ExamTaker.setManualOverride Scenario.empty_kb false
                    (state
                       (ExamTaker.handleUncertainty Scenario.empty_kb
                          (Run.not_in_knowledge_base (Some "Capital of France?"))
                          Scenario.running))))))).
Proof.
  split; [reflexivity |].
  apply (@uncertainty_halts_analysis config_json Scenario.empty_kb
           (Run.not_in_knowledge_base (Some "Capital of France?"))
           Scenario.running (Scenario.shot "aW1hZ2Uy")).
  reflexivity.
Defined.

(** X8.  [startExam] does not reset the manual override nor the current
    question: started with the override on, the exam is active but a
    screenshot that arrives is not analysed (no request is made). *)
Theorem startExam_keeps_override cfg env s sd :
  ExamTaker.connected s = true ->
  ExamTaker.manualOverride s = true ->
  let started := state (ExamTaker.startExam env s) in
  ExamTaker.isActive started = true /\
  ExamTaker.manualOverride started = true /\
  ExamTaker.currentQuestion started = ExamTaker.currentQuestion s /\
  requests (trace (ExamTaker.handleRemotelyScreenshot cfg env sd started)) = [].
Proof.
  intros C O. cbv zeta. rewrite (startExam_run env s C). cbn [state fst snd].
  split; [reflexivity |]. split; [exact O |]. split; [reflexivity |].
  rewrite handleRemotelyScreenshot_skips; [reflexivity |].
  cbn. rewrite O. reflexivity.
Qed.

Lemma startExam_keeps_override_witness :
  ExamTaker.connected Cases.taken_over = true /\
  ExamTaker.manualOverride Cases.taken_over = true /\
  requests
    (trace
       (ExamTaker.handleRemotelyScreenshot config_json Scenario.empty_kb
          (Scenario.shot "aW1hZ2Ux")
          (state (ExamTaker.startExam Scenario.empty_kb Cases.taken_over))))
  = [].
Proof.
  split; [reflexivity |]. split; [reflexivity |].
  apply (@startExam_keeps_override config_json Scenario.empty_kb
           Cases.taken_over (Scenario.shot "aW1hZ2Ux"));
    reflexivity.
Defined.

(** ** The remote client on an open websocket, and the analyzer's floor *)

Section Online.
Import RemotelyClient.
Variable env : Env.

Lemma sendMessage_online m s w :
  ws s = Some w ->
  connected s = true ->
  sendMessage env m s = (ws_send env m, s, [WsSend m]).
Proof.
  intros W C. unfold sendMessage. run. rewrite W, C. cbn.
  destruct (ws_send env m); reflexivity.
Qed.

End Online.

(** X9.  With an open websocket, [connected] true and sends that succeed, the
    messages on the wire are, in order: for [clickAnswer] a MouseMove and
    one MouseClick (two for a double click); for [typeAnswer] the TextInput,
    preceded by KeyPress a+ctrl and KeyPress Delete when [clearFirst]; for
    [dragAndDrop] MouseMove, KeyDown MouseLeft, MouseMove, KeyUp MouseLeft.
    Each carries the client's session id. *)
Theorem online_injection_messages env s w c doubleClick txt clearFirst from to delay :
  RemotelyClient.ws s = Some w ->
  RemotelyClient.connected s = true ->
  (forall m, ws_send env m = Ok tt) ->
  let id := RemotelyClient.sessionId s in
  sent (trace (RemotelyClient.clickAnswer env c doubleClick delay s)) =
    (MouseMove (x c) (y c) id ::
     if doubleClick
     then [MouseClick (x c) (y c) "left" id; MouseClick (x c) (y c) "left" id]
     else [MouseClick (x c) (y c) "left" id]) /\
  sent (trace (RemotelyClient.typeAnswer env txt clearFirst delay s)) =
    ((if clearFirst
      then [KeyPress "a" ["ctrl"] id; KeyPress "Delete" [] id]
      else []) ++ [TextInput txt id])%list /\
  sent (trace (RemotelyClient.dragAndDrop env from to delay s)) =
    [MouseMove (x from) (y from) id; KeyDown "MouseLeft" id;
     MouseMove (x to) (y to) id; KeyUp "MouseLeft" id].
Proof.
  intros W C S.
  unfold RemotelyClient.clickAnswer, RemotelyClient.typeAnswer,
    RemotelyClient.dragAndDrop, RemotelyClient.sendMouseMove,
    RemotelyClient.sendMouseClick, RemotelyClient.sendKeyPress,
    RemotelyClient.sendKeyDown, RemotelyClient.sendKeyUp,
    RemotelyClient.sendTextInput.
  cbv zeta.
  repeat split.
  all: destruct doubleClick, clearFirst; run;
    repeat (rewrite (sendMessage_online env _ s W C), S;
            cbn -[RemotelyClient.sendMessage]);
    reflexivity.
Qed.

Lemma online_injection_messages_witness :
  RemotelyClient.ws Cases.online = Some tt /\
  RemotelyClient.connected Cases.online = true /\
  sent (trace (RemotelyClient.dragAndDrop Scenario.empty_kb Scenario.paris
                 Scenario.paris 100 Cases.online))
  = [MouseMove 100 200 (Some "viewer_1"); KeyDown "MouseLeft" (Some "viewer_1");
     MouseMove 100 200 (Some "viewer_1"); KeyUp "MouseLeft" (Some "viewer_1")].
Proof.
  split; [reflexivity |]. split; [reflexivity |].
  apply (@online_injection_messages Scenario.empty_kb Cases.online tt
           Scenario.paris false "Paris" false Scenario.paris Scenario.paris 100);
    reflexivity.
Defined.

(** X10.  If the websocket rejects the first message of [clickAnswer], the call
    logs the failure and rethrows the same error: nothing after the
    MouseMove is sent, no click is reported, the client is unchanged. *)
Theorem rejected_send_propagates env s w c doubleClick delay e :
  RemotelyClient.ws s = Some w ->
  RemotelyClient.connected s = true ->
  ws_send env (MouseMove (x c) (y c) (RemotelyClient.sessionId s)) = Throw e ->
  RemotelyClient.clickAnswer env c doubleClick delay s =
  (Throw e, s,
   [WsSend (MouseMove (x c) (y c) (RemotelyClient.sessionId s));
    Log Error "Failed to click answer via Remotely:"]).
Proof.
  intros W C S.
  unfold RemotelyClient.clickAnswer, RemotelyClient.sendMouseMove. run.
  rewrite (sendMessage_online env _ s W C), S. reflexivity.
Qed.

Lemma rejected_send_propagates_witness :
  RemotelyClient.ws Cases.online = Some tt /\
  RemotelyClient.connected Cases.online = true /\
  result (RemotelyClient.clickAnswer Cases.dropping Scenario.paris false 100
            Cases.online)
  = Throw "WebSocket is not open: readyState 3 (CLOSED)".
Proof.
  split; [reflexivity |]. split; [reflexivity |].
  rewrite (@rejected_send_propagates Cases.dropping Cases.online tt
             Scenario.paris false 100
             "WebSocket is not open: readyState 3 (CLOSED)");
    reflexivity.
Defined.

(** X13.  A report with a question whose confidence is not a number passes the
    floor of [processAnalysis] ([NaN < 0.5] is false): [question_detected]
    is emitted with that confidence, and the call returns normally with the
    analyzer unchanged. *)
Theorem nan_confidence_is_accepted cfg env a va :
  truthy (a_question a) = true ->
  a_confidence a = NaN ->
  let r := VisionAnalyzer.processAnalysis cfg env a va in
  result r = Ok tt /\ state r = va /\
  exists tl,
    trace r =
    Emit (question_detected
            {| qd_question := a_question a; qd_type := a_question_type a;
               qd_options := a_options a; qd_confidence := NaN |}) :: tl.
Proof.
  intros Q N. cbv zeta.
  destruct (@processAnalysis_shape cfg env a va) as (R & S).
  split; [exact R |]. split; [exact S |].
  unfold VisionAnalyzer.processAnalysis. run. rewrite Q, N.
  cbn -[VisionAnalyzer.findAnswer].
  destruct (a_options a); [eexists; reflexivity |].
  destruct (VisionAnalyzer.findAnswer cfg env a va) as [[[r|e] s] t];
    eexists; reflexivity.
Qed.

Lemma nan_confidence_is_accepted_witness :
  truthy (a_question Cases.unrated) = true /\
  a_confidence Cases.unrated = NaN /\
  result (VisionAnalyzer.processAnalysis config_json Scenario.empty_kb
            Cases.unrated VisionAnalyzer.new) = Ok tt.
Proof.
  split; [reflexivity |]. split; [reflexivity |].
  apply (@nan_confidence_is_accepted config_json Scenario.empty_kb
           Cases.unrated VisionAnalyzer.new);
    reflexivity.
Defined.

(** X14.  For an accepted report with no options, [processAnalysis] emits
    [question_detected] and nothing else: [findAnswer] is not called, so
    the analyzer emits no verdict and makes no request. *)
Theorem question_without_options cfg env a va :
  truthy (a_question a) = true ->
  js_lt (a_confidence a) (5 # 10)%Q = false ->
  a_options a = [] ->
  VisionAnalyzer.processAnalysis cfg env a va =
  (Ok tt, va,
   [Emit (question_detected
            {| qd_question := a_question a; qd_type := a_question_type a;
               qd_options := []; qd_confidence := a_confidence a |})]).
Proof.
  intros Q L O. unfold VisionAnalyzer.processAnalysis. run. rewrite Q, L, O.
  reflexivity.
Qed.

Lemma question_without_options_witness :
  a_options Cases.open_question = [] /\
  emitted
    (trace (VisionAnalyzer.processAnalysis config_json Scenario.empty_kb
              Cases.open_question VisionAnalyzer.new))
  = [question_detected
       {| qd_question := Some "Name the capital of France.";
          qd_type := "text_input"; qd_options := [];
          qd_confidence := Num (9 # 10)%Q |}].
Proof.
  split; [reflexivity |].
  rewrite (@question_without_options config_json Scenario.empty_kb
             Cases.open_question VisionAnalyzer.new);
    reflexivity.
Defined.


(** X16.  After [clearHistory] on the analyzer, [executeAnswer] fails before any
    request or message: nothing is asked of the vision model and nothing is
    sent to the remote session; the override is enabled, the history is
    unchanged and the failure 'No recent screen analysis available' is
    broadcast as [ai_uncertainty] with reason 'Execution failed'. *)
Theorem executeAnswer_without_analysis cfg env a s :
  let cleared :=
    ExamTaker.set_visionAnalyzer
      (state (ScreenHistory.clearHistory (ExamTaker.visionAnalyzer s))) s in
  let r := ExamTaker.executeAnswer cfg env a cleared in
  requests (trace r) = [] /\ sent (trace r) = [] /\ ~ clicks (trace r) /\
  ExamTaker.manualOverride (state r) = true /\
  ExamTaker.questionHistory (state r) = ExamTaker.questionHistory s /\
  In (io_ai_uncertainty
        (Run.execution_failed "No recent screen analysis available"
           (ExamTaker.currentQuestion s)) (now env))
     (broadcasts (trace r)).
Proof.
  cbv zeta. rewrite executeAnswer_run. cbv zeta.
  rewrite findAnswerCoordinates_run. cbn.
  split; [reflexivity |]. split; [reflexivity |].
  split; [unfold clicks; cbn; intuition discriminate |].
  split; [apply flagged_facts |].
  split; [rewrite (proj1 (proj2 (flagged_facts _ _))); reflexivity |].
  auto.
Qed.

(** ** Sorting *)

Section SortFacts.
Variable A : Type.
Variable key : A -> Q.

Lemma insert_descending_perm a l :
  Permutation (insert_descending key a l) (a :: l).
Proof.
  induction l as [|b t IH]; cbn; [reflexivity |].
  destruct (stays_before key a b); [reflexivity |].
  rewrite IH. apply perm_swap.
Qed.

Lemma sort_descending_perm l : Permutation (sort_descending key l) l.
Proof.
  induction l as [|a t IH]; cbn; [constructor |].
  rewrite insert_descending_perm. constructor. exact IH.
Qed.

Lemma insert_descending_sorted a l :
  StronglySorted (descending key) l ->
  StronglySorted (descending key) (insert_descending key a l).
Proof.
  induction 1 as [|b t S IH F]; cbn.
  - repeat constructor.
  - unfold stays_before. destruct (Qle_bool (key b) (key a)) eqn:E.
    + apply Qle_bool_iff in E. constructor; [constructor; assumption |].
      constructor; [exact E |].
      eapply Forall_impl; [| exact F]. intros c H. unfold descending in *.
      eapply Qle_trans; eassumption.
    + constructor; [exact IH |].
      assert (L : (key a <= key b)%Q).
      { apply Qlt_le_weak. apply Qnot_le_lt. intros H.
        apply Qle_bool_iff in H. congruence. }
      eapply Permutation_Forall.
      * symmetry. apply insert_descending_perm.
      * constructor; assumption.
Qed.

Lemma sort_descending_sorted l :
  StronglySorted (descending key) (sort_descending key l).
Proof.
  induction l as [|a t IH]; cbn; [constructor |].
  apply insert_descending_sorted. exact IH.
Qed.

Lemma firstn_in n (l : list A) x : In x (firstn n l) -> In x l.
Proof.
  intros H. rewrite <- (firstn_skipn n l). apply in_or_app. left. exact H.
Qed.

End SortFacts.

(** ** The knowledge base *)

Ltac prun :=
  cbv [Proc.bind Proc.ret Proc.throw Proc.try_catch Proc.get Proc.modify
       Proc.tell Proc.answer_of Proc.zoom Proc.log Proc.sleep Proc.ask
       Proc.core].

Section Similarity.
Import RAGSystem.

Lemma has_spec l w : has l w = true <-> In w l.
Proof.
  unfold has. destruct (in_dec string_dec w l); split; auto; discriminate.
Qed.

Lemma distinct_nodup l : NoDup (distinct l).
Proof. apply NoDup_nodup. Qed.

Lemma distinct_in l w : In w (distinct l) <-> In w l.
Proof. apply nodup_In. Qed.

Lemma same_size (a b : list string) :
  NoDup a -> NoDup b -> (forall w, In w a <-> In w b) -> length a = length b.
Proof.
  intros Na Nb H. apply Nat.le_antisymm; apply NoDup_incl_length; auto;
    intros w Hw; apply H; exact Hw.
Qed.

Lemma pos_of_succ d : Z.pos (Pos.of_nat (S d)) = Z.of_nat (S d).
Proof.
  rewrite <- positive_nat_Z. rewrite Nat2Pos.id by discriminate. reflexivity.
Qed.

Lemma ratio_range n d :
  n <= d ->
  match ratio n d with
  | Num q => (0 <= q)%Q /\ (q <= 1)%Q
  | NaN => d = 0
  end.
Proof.
  intros H. destruct d as [|d]; [reflexivity |].
  unfold ratio, Qle. cbn [Qnum Qden]. rewrite pos_of_succ. split; lia.
Qed.

Lemma ratio_one n :
  n <> 0 -> exists q, ratio n n = Num q /\ (q == 1)%Q.
Proof.
  intros H. destruct n as [|n]; [contradiction |].
  eexists. split; [reflexivity |].
  unfold Qeq. cbn [Qnum Qden]. rewrite pos_of_succ. lia.
Qed.

Variable js : JsString.

Lemma similarity_sizes t1 t2 :
  let set1 := distinct (split_whitespace js t1) in
  let set2 := distinct (split_whitespace js t2) in
  length (distinct (filter (has set2) set1))
  <= length (distinct (set1 ++ set2)).
Proof.
  cbv zeta. apply NoDup_incl_length; [apply distinct_nodup |].
  intros w Hw. rewrite distinct_in, filter_In in Hw.
  rewrite distinct_in. apply in_or_app. left. tauto.
Qed.

Lemma similarity_range t1 t2 :
  match calculateTextSimilarity js t1 t2 with
  | Num q => (0 <= q)%Q /\ (q <= 1)%Q
  | NaN => split_whitespace js t1 = [] /\ split_whitespace js t2 = []
  end.
Proof.
  unfold calculateTextSimilarity. cbv zeta.
  pose proof (ratio_range (similarity_sizes t1 t2)) as R. cbv zeta in R.
  destruct (ratio _ _); [exact R |].
  assert (E : (distinct (split_whitespace js t1)
               ++ distinct (split_whitespace js t2))%list = []).
  { destruct (_ ++ _)%list as [|w l] eqn:E; [reflexivity |].
    assert (In w (distinct (w :: l))) by (apply distinct_in; left; reflexivity).
    destruct (distinct (w :: l)); [contradiction | discriminate]. }
  apply app_eq_nil in E. destruct E as [E1 E2].
  split.
  - destruct (split_whitespace js t1) as [|w l]; [reflexivity |].
    assert (In w (distinct (w :: l))) by (apply distinct_in; left; reflexivity).
    rewrite E1 in *. contradiction.
  - destruct (split_whitespace js t2) as [|w l]; [reflexivity |].
    assert (In w (distinct (w :: l))) by (apply distinct_in; left; reflexivity).
    rewrite E2 in *. contradiction.
Qed.

Lemma similarity_symmetric t1 t2 :
  calculateTextSimilarity js t1 t2 = calculateTextSimilarity js t2 t1.
Proof.
  unfold calculateTextSimilarity. cbv zeta. f_equal.
  - apply same_size; try apply distinct_nodup.
    intros w. rewrite !distinct_in, !filter_In, !has_spec, !distinct_in. tauto.
  - apply same_size; try apply distinct_nodup.
    intros w. rewrite !distinct_in, !in_app_iff. tauto.
Qed.

Lemma similarity_same_words t1 t2 :
  split_whitespace js t1 = split_whitespace js t2 ->
  split_whitespace js t1 <> [] ->
  exists q, calculateTextSimilarity js t1 t2 = Num q /\ (q == 1)%Q.
Proof.
  intros E N. unfold calculateTextSimilarity. cbv zeta. rewrite <- E.
  set (s := distinct (split_whitespace js t1)).
  assert (L1 : length (distinct (filter (has s) s)) = length s).
  { apply same_size; try apply distinct_nodup.
    intros w. rewrite distinct_in, filter_In, has_spec. tauto. }
  assert (L2 : length (distinct (s ++ s)) = length s).
  { apply same_size; try apply distinct_nodup.
    intros w. rewrite distinct_in, in_app_iff. tauto. }
  rewrite L1, L2. apply ratio_one.
  subst s. destruct (split_whitespace js t1) as [|w l]; [contradiction |].
  assert (In w (distinct (w :: l))) by (apply distinct_in; left; reflexivity).
  destruct (distinct (w :: l)); [contradiction | discriminate].
Qed.

End Similarity.

Section Search.
Import RAGSystem.
Variable js : JsString.
Variable backend : Backend.

Lemma search_memory_run query limit examType s :
  isInitialized s = true ->
  useMemoryFallback s = true ->
  search js backend query limit examType s =
  (Ok (memory_search js query limit examType (memoryStore s)), s,
   [Core (Log Info "Searching RAG system for:");
    Core (Log Info "Memory search completed:")]).
Proof.
  intros I F. unfold search. prun. rewrite I, F. reflexivity.
Qed.

Lemma search_uninitialized query limit examType s :
  isInitialized s = false ->
  search js backend query limit examType s =
  (Throw "RAG system not initialized", s,
   [Core (Log Error "RAG search failed:")]).
Proof.
  intros I. unfold search. prun. rewrite I. reflexivity.
Qed.

Lemma candidates_in query examType store r :
  In r (candidates js query examType store) <->
  js_gt (f_score r) (1 # 10)%Q = true /\
  exists d, In d store /\ in_exam examType d = true /\ r = scored js query d.
Proof.
  unfold candidates. rewrite filter_In, in_map_iff. split.
  - intros [(d & <- & Hd) G]. apply filter_In in Hd. split; [exact G |].
    exists d. tauto.
  - intros [G (d & Hd & E & ->)]. split; [| exact G].
    exists d. split; [reflexivity |]. apply filter_In. tauto.
Qed.

Lemma memory_search_shape query limit examType store :
  exists ranked,
    memory_search js query limit examType store = firstn limit ranked /\
    Permutation ranked (candidates js query examType store) /\
    StronglySorted by_score ranked.
Proof.
  eexists. split; [reflexivity |]. split.
  - apply sort_descending_perm.
  - apply (sort_descending_sorted (fun r => number (f_score r))).
Qed.

Lemma memory_search_finds_exact query limit examType store d :
  In d store ->
  in_exam examType d = true ->
  split_whitespace js (toLowerCase js query)
  = split_whitespace js (toLowerCase js (doc_content d)) ->
  split_whitespace js (toLowerCase js query) <> [] ->
  0 < limit ->
  exists top rest q,
    memory_search js query limit examType store = top :: rest /\
    f_score top = Num q /\ (q == 1)%Q.
Proof.
  intros Hd Hx Hw Hn Hl.
  destruct (memory_search_shape query limit examType store)
    as (ranked & E & Pm & St).
  destruct (similarity_same_words js (toLowerCase js query)
              (toLowerCase js (doc_content d)) Hw Hn) as (q1 & S1 & Q1).
  assert (C : In (scored js query d) (candidates js query examType store)).
  { apply candidates_in. split.
    - cbn. rewrite S1. cbn. apply negb_true_iff.
      destruct (Qle_bool q1 (1 # 10)) eqn:B; [| reflexivity].
      apply Qle_bool_iff in B. rewrite Q1 in B.
      unfold Qle in B. cbn in B. lia.
    - exists d. auto. }
  assert (R : In (scored js query d) ranked).
  { eapply Permutation_in; [symmetry; exact Pm | exact C]. }
  destruct ranked as [|top rest]; [contradiction |].
  destruct limit as [|n]; [lia |].
  rewrite E. cbn [firstn].
  assert (T : In top (candidates js query examType store)).
  { eapply Permutation_in; [exact Pm | left; reflexivity]. }
  apply candidates_in in T. destruct T as (G & d' & _ & _ & Et).
  destruct (f_score top) as [q|] eqn:Ft; [| discriminate G].
  exists top, (firstn n rest), q. split; [reflexivity |]. split; [exact Ft |].
  apply Qle_antisym.
  - pose proof (similarity_range js (toLowerCase js query)
                  (toLowerCase js (doc_content d'))) as B.
    rewrite Et in Ft. cbn in Ft. rewrite Ft in B. tauto.
  - apply StronglySorted_inv in St. destruct St as [_ F].
    destruct R as [R | R].
    + rewrite R in Ft. cbn in Ft. rewrite S1 in Ft. injection Ft as <-.
      rewrite Q1. apply Qle_refl.
    + pose proof (proj1 (Forall_forall _ _) F _ R) as L.
      unfold by_score in L. rewrite Ft in L. cbn in L. rewrite S1 in L.
      cbn in L. rewrite <- Q1. exact L.
Qed.

End Search.

Lemma sorted_app_inv A (R : A -> A -> Prop) l1 l2 :
  StronglySorted R (l1 ++ l2) ->
  forall a b, In a l1 -> In b l2 -> R a b.
Proof.
  induction l1 as [|x l1 IH]; cbn; intros S a b Ha Hb; [contradiction |].
  apply StronglySorted_inv in S. destruct S as [S F].
  destruct Ha as [<- | Ha].
  - eapply Forall_forall; [exact F |]. apply in_or_app. right. exact Hb.
  - apply IH; assumption.
Qed.

(** X17.  [calculateTextSimilarity] is symmetric in its two texts, and its value,
    when a number, lies between 0 and 1; it is [NaN] only if both texts
    split into no word at all. *)
Theorem text_similarity_bounds js t1 t2 :
  RAGSystem.calculateTextSimilarity js t1 t2
  = RAGSystem.calculateTextSimilarity js t2 t1 /\
  match RAGSystem.calculateTextSimilarity js t1 t2 with
  | Num q => (0 <= q)%Q /\ (q <= 1)%Q
  | NaN => split_whitespace js t1 = [] /\ split_whitespace js t2 = []
  end.
Proof.
  split; [apply similarity_symmetric | apply similarity_range].
Qed.

(** X18.  On an initialized system with the memory fallback, [search] returns
    the first [limit] entries of a ranking that is a permutation of the
    scored documents of the exam type that score above 0.1, in descending
    order of score.  So there are at most [limit] results, each comes from
    a stored document of that exam type, and no dropped candidate scores
    above a returned one.  The state is unchanged and neither the embedding
    model nor the vector store is asked. *)
Theorem memory_search_ranks js backend query limit examType s :
  RAGSystem.isInitialized s = true ->
  RAGSystem.useMemoryFallback s = true ->
  let r := RAGSystem.search js backend query limit examType s in
  exists ranked,
    Proc.result r = Ok (firstn limit ranked) /\
    Proc.state r = s /\
    backend_requests (Proc.trace r) = [] /\
    Permutation ranked (RAGSystem.candidates js query examType (RAGSystem.memoryStore s)) /\
    StronglySorted RAGSystem.by_score ranked /\
    length (firstn limit ranked) <= limit /\
    (forall f, In f (firstn limit ranked) ->
       js_gt (RAGSystem.f_score f) (1 # 10)%Q = true /\
       exists d, In d (RAGSystem.memoryStore s) /\
                 RAGSystem.in_exam examType d = true /\
                 f = RAGSystem.scored js query d) /\
    (forall kept dropped,
       In kept (firstn limit ranked) -> In dropped (skipn limit ranked) ->
       RAGSystem.by_score kept dropped).
Proof.
  intros I F. cbv zeta. rewrite (search_memory_run js backend _ _ _ s I F).
  destruct (memory_search_shape js query limit examType (RAGSystem.memoryStore s))
    as (ranked & E & Pm & St).
  exists ranked. unfold Proc.result, Proc.state, Proc.trace. cbn [fst snd].
  split; [rewrite E; reflexivity |]. split; [reflexivity |].
  split; [reflexivity |]. split; [exact Pm |]. split; [exact St |].
  split; [apply firstn_le_length |]. split.
  - intros f Hf. apply candidates_in.
    eapply Permutation_in; [exact Pm |]. eapply firstn_in. exact Hf.
  - intros a b Ha Hb. rewrite <- (firstn_skipn limit ranked) in St.
    eapply sorted_app_inv; eassumption.
Qed.

Lemma memory_search_ranks_witness :
  RAGSystem.isInitialized Cases.notes = true /\
  RAGSystem.useMemoryFallback Cases.notes = true /\
  Proc.state (RAGSystem.search Cases.ascii_text Cases.chroma
                "capital of France" 5 None Cases.notes) = Cases.notes.
Proof.
  split; [reflexivity |]. split; [reflexivity |].
  destruct (@memory_search_ranks Cases.ascii_text Cases.chroma
              "capital of France" 5 None Cases.notes eq_refl eq_refl)
    as (ranked & _ & E & _).
  exact E.
Defined.

(** X19.  Before [initialize], [search], [addDocument] and
    [findSimilarQuestions] throw 'RAG system not initialized' after logging
    and leave the state unchanged, whereas [getExamTypeStats] returns
    normally, with [documentCount] 0, [isReady] false and that message as
    [error]. *)
Theorem uninitialized_rag_rejects
    js backend s query limit examType content metadata threshold :
  RAGSystem.isInitialized s = false ->
  RAGSystem.search js backend query limit examType s
  = (Throw "RAG system not initialized", s,
     [Core (Log Error "RAG search failed:")]) /\
  RAGSystem.addDocument js backend content metadata s
  = (Throw "RAG system not initialized", s,
     [Core (Log Error "Failed to add document to RAG:")]) /\
  RAGSystem.findSimilarQuestions js backend query threshold s
  = (Throw "RAG system not initialized", s,
     [Core (Log Error "RAG search failed:");
      Core (Log Error "Failed to find similar questions:")]) /\
  RAGSystem.getExamTypeStats js backend examType s
  = (Ok (RAGSystem.failed_stats examType "RAG system not initialized"), s,
     [Core (Log Error "Failed to get exam type stats:")]).
Proof.
  intros I.
  unfold RAGSystem.findSimilarQuestions, RAGSystem.search,
    RAGSystem.addDocument, RAGSystem.getExamTypeStats.
  prun. rewrite I. repeat split.
Qed.

Lemma uninitialized_rag_rejects_witness :
  RAGSystem.isInitialized RAGSystem.new = false /\
  Proc.result (RAGSystem.getExamTypeStats Cases.ascii_text Cases.chroma
                 (Some "geography") RAGSystem.new)
  = Ok (RAGSystem.failed_stats (Some "geography") "RAG system not initialized").
Proof.
  split; [reflexivity |].
  destruct (@uninitialized_rag_rejects Cases.ascii_text Cases.chroma
              RAGSystem.new "capital of France" 5 (Some "geography")
              "Paris is the capital of France" Cases.geography (8 # 10)%Q
              eq_refl) as (_ & _ & _ & E).
  rewrite E. reflexivity.
Defined.

(** X20.  With the memory fallback, a document added by [addDocument] is found
    by a [search] for its own content: the store grows by one, no backend
    is asked, and for a positive [limit] and an exam type that is unset or
    the document's subject, the first result has score 1. *)
Theorem added_document_is_found js backend content metadata limit examType s :
  RAGSystem.isInitialized s = true ->
  RAGSystem.useMemoryFallback s = true ->
  split_whitespace js (toLowerCase js content) <> [] ->
  truthy examType = false \/ RAGSystem.subject metadata = examType ->
  0 < limit ->
  let added := RAGSystem.addDocument js backend content metadata s in
  let r := RAGSystem.search js backend content limit examType (Proc.state added) in
  Proc.result added
  = Ok {| RAGSystem.a_id := RAGSystem.new_documentId backend;
          RAGSystem.a_success := true |} /\
  length (RAGSystem.memoryStore (Proc.state added))
  = S (length (RAGSystem.memoryStore s)) /\
  backend_requests (Proc.trace added) = [] /\
  exists top rest q,
    Proc.result r = Ok (top :: rest) /\
    RAGSystem.f_score top = Num q /\ (q == 1)%Q.
Proof.
  intros I F W X L. cbv zeta.
  assert (A : RAGSystem.addDocument js backend content metadata s =
              (Ok {| RAGSystem.a_id := RAGSystem.new_documentId backend;
                     RAGSystem.a_success := true |},
               RAGSystem.push
                 {| RAGSystem.doc_id := RAGSystem.new_documentId backend;
                    RAGSystem.doc_content := content;
                    RAGSystem.doc_metadata :=
                      {| RAGSystem.subject := RAGSystem.subject metadata;
                         RAGSystem.kind := RAGSystem.kind metadata;
                         RAGSystem.added_at := Some (RAGSystem.rag_now backend);
                         RAGSystem.content_length := Some (js_length js content) |} |}
                 s,
               [Core (Log Info "Adding document to RAG system");
                Core (Log Info "Document added to memory store:")])).
  { unfold RAGSystem.addDocument. prun. rewrite I, F. reflexivity. }
  rewrite A. unfold Proc.result, Proc.state, Proc.trace. cbn [fst snd].
  split; [reflexivity |]. split.
  { cbn. rewrite length_app. cbn. lia. }
  split; [reflexivity |].
  rewrite search_memory_run by (cbn; assumption). cbn [fst snd].
  match goal with
  | |- context [RAGSystem.push ?d s] =>
      destruct (@memory_search_finds_exact js content limit examType
                  (RAGSystem.memoryStore (RAGSystem.push d s)) d)
        as (top & rest & q & E & Sc & Q)
  end.
  - cbn. apply in_or_app. right. left. reflexivity.
  - unfold RAGSystem.in_exam. cbn.
    destruct X as [X | X]; [rewrite X; reflexivity |].
    rewrite X. destruct examType as [e|]; [| reflexivity].
    rewrite String.eqb_refl. apply orb_true_r.
  - reflexivity.
  - exact W.
  - exact L.
  - exists top, rest, q. rewrite E. auto.
Qed.

Lemma added_document_is_found_witness :
  split_whitespace Cases.ascii_text
    (toLowerCase Cases.ascii_text "Rome is the capital of Italy") <> [] /\
  length (RAGSystem.memoryStore
            (Proc.state (RAGSystem.addDocument Cases.ascii_text Cases.chroma
                           "Rome is the capital of Italy" Cases.geography
                           Cases.notes))) = 3.
Proof.
  split; [discriminate |].
  apply (@added_document_is_found Cases.ascii_text Cases.chroma
           "Rome is the capital of Italy" Cases.geography 5
           (Some "geography") Cases.notes).
  - reflexivity.
  - reflexivity.
  - discriminate.
  - right. reflexivity.
  - lia.
Defined.

(** X21.  On ChromaDB, when the embedding and the query succeed, [search]
    makes exactly these two requests in this order (the exam type, when
    set, is the query's filter), leaves the state unchanged, and returns
    the rows of the answer, each with the score that the subtraction
    [1 - distance] gives in doubles, in descending order of that score. *)
Theorem chroma_search_ranks js backend query limit examType s rows :
  RAGSystem.isInitialized s = true ->
  RAGSystem.useMemoryFallback s = false ->
  RAGSystem.generateEmbedding backend query = Ok tt ->
  RAGSystem.collection_query backend limit
    (if truthy examType then examType else None) = Ok (Some rows) ->
  let r := RAGSystem.search js backend query limit examType s in
  exists results,
    Proc.result r = Ok results /\
    Proc.state r = s /\
    backend_requests (Proc.trace r)
    = [Embed query;
       ChromaQuery limit (if truthy examType then examType else None)] /\
    Permutation
      (map (fun f => (RAGSystem.f_content f, RAGSystem.f_metadata f,
                      RAGSystem.f_distance f)) results) rows /\
    StronglySorted RAGSystem.by_score results /\
    Forall (fun f => RAGSystem.f_score f
                     = Num (one_minus js (RAGSystem.f_distance f))) results.
Proof.
  intros I F G Q. cbv zeta. unfold RAGSystem.search. prun.
  rewrite I, F, G, Q. cbn [negb fst snd].
  unfold Proc.result, Proc.state, Proc.trace. cbn [fst snd].
  eexists. split; [reflexivity |]. split; [reflexivity |].
  split; [reflexivity |].
  unfold RAGSystem.processed.
  set (found := map _ rows).
  assert (P : Permutation
                (sort_descending (fun r => number (RAGSystem.f_score r)) found)
                found) by apply sort_descending_perm.
  split; [| split].
  - rewrite (Permutation_map _ P). subst found. rewrite map_map.
    rewrite <- (map_id rows) at 2. apply Permutation_refl'.
    apply map_ext. intros [[a b] c]. reflexivity.
  - apply (sort_descending_sorted (fun r => number (RAGSystem.f_score r))).
  - eapply Permutation_Forall; [symmetry; exact P |].
    subst found. apply Forall_forall. intros f Hf.
    apply in_map_iff in Hf. destruct Hf as ([[a b] c] & <- & _). reflexivity.
Qed.

Lemma chroma_search_ranks_witness :
  RAGSystem.useMemoryFallback Cases.indexed = false /\
  Proc.state (RAGSystem.search Cases.ascii_text Cases.chroma
                "capital of France" 5 None Cases.indexed) = Cases.indexed.
Proof.
  split; [reflexivity |].
  destruct (@chroma_search_ranks Cases.ascii_text Cases.chroma
              "capital of France" 5 None Cases.indexed Cases.rows
              eq_refl eq_refl eq_refl eq_refl) as (results & _ & E & _).
  exact E.
Defined.

(** ** The action executor *)

Section Executor.
Import ActionExecutor.
Variable js : JsString.

Lemma guard_disabled s :
  isEnabled s = false ->
  guard s = (Throw "ActionExecutor is disabled", s, []).
Proof. intros H. unfold guard. prun. rewrite H. reflexivity. Qed.

Lemma guard_enabled s :
  isEnabled s = true -> guard s = (Ok tt, s, []).
Proof. intros H. unfold guard. prun. rewrite H. reflexivity. Qed.

Lemma wheel_run dy n s :
  wheel dy n s =
  (Ok tt, s,
   concat (repeat [Robot (robot_scrollMouse 0 dy); Core (Sleep 50)] n)).
Proof.
  induction n as [|n IH]; [reflexivity |].
  cbn [wheel repeat concat]. unfold Proc.bind at 1. unfold Proc.tell at 1.
  unfold Proc.bind at 1. unfold Proc.sleep, Proc.tell at 1.
  rewrite IH. reflexivity.
Qed.

End Executor.

(** X29.  While the executor is disabled, [click], [doubleClick], [drag],
    [type], [keyPress], [scroll], [moveMouse] and [clickAnswer] all throw
    'ActionExecutor is disabled' without a single robot call and leave the
    executor unchanged. *)
Theorem disabled_executor_fails_fast js s :
  ActionExecutor.isEnabled s = false ->
  let fails A (r : Res A * ActionExecutor.t * list Ext) :=
    Proc.result r = Throw "ActionExecutor is disabled" /\ Proc.state r = s /\
    Session.robot_calls (Proc.trace r) = [] in
  (forall px py button, fails _ (ActionExecutor.click px py button s)) /\
  (forall px py button, fails _ (ActionExecutor.doubleClick px py button s)) /\
  (forall a b c d, fails _ (ActionExecutor.drag a b c d s)) /\
  (forall txt clearFirst, fails _ (ActionExecutor.type js txt clearFirst s)) /\
  (forall key modifiers, fails _ (ActionExecutor.keyPress key modifiers s)) /\
  (forall direction clicks, fails _ (ActionExecutor.scroll direction clicks s)) /\
  (forall px py, fails _ (ActionExecutor.moveMouse px py s)) /\
  (forall px py i txt, fails _ (ActionExecutor.clickAnswer px py i txt s)).
Proof.
  intros H. cbv zeta.
  repeat split; intros;
    unfold ActionExecutor.clickAnswer, ActionExecutor.click,
      ActionExecutor.doubleClick, ActionExecutor.drag, ActionExecutor.type,
      ActionExecutor.keyPress, ActionExecutor.scroll, ActionExecutor.moveMouse;
    prun; rewrite (guard_disabled s H); reflexivity.
Qed.

Lemma disabled_executor_fails_fast_witness :
  ActionExecutor.isEnabled Cases.disabled = false /\
  Proc.result (ActionExecutor.clickAnswer 100 200 "A" "Paris" Cases.disabled)
  = Throw "ActionExecutor is disabled".
Proof.
  split; [reflexivity |].
  apply (@disabled_executor_fails_fast Cases.ascii_text Cases.disabled eq_refl).
Defined.

(** X30.  On an enabled executor, [click] moves the mouse, waits [actionDelay]
    and clicks once with the given button; [scroll] makes exactly [clicks]
    wheel steps, of -1 for 'up' and of +1 for any other direction, which it
    reports as 'down'; [setActionDelay] stores [max(0, delayMs)] and leaves
    the executor enabled. *)
Theorem enabled_executor_calls s px py button direction clicks delayMs :
  ActionExecutor.isEnabled s = true ->
  let clicked := ActionExecutor.click px py button s in
  let scrolled := ActionExecutor.scroll direction clicks s in
  let slowed := Proc.state (ActionExecutor.setActionDelay delayMs s) in
  (Proc.trace clicked =
     [Core (Log Info "Executing click at");
      Robot (robot_moveMouse px py);
      Core (Sleep (ActionExecutor.actionDelay s));
      Robot (robot_mouseClick button false);
      ActionLog "click"] /\
   Proc.result clicked =
     Ok {| ActionExecutor.k_success := true; ActionExecutor.k_x := px;
           ActionExecutor.k_y := py; ActionExecutor.k_button := button |}) /\
  (Session.robot_calls (Proc.trace scrolled) =
     repeat (robot_scrollMouse 0
               (if String.eqb direction "up" then (-1)%Z else 1%Z)) clicks /\
   Proc.result scrolled =
     Ok {| ActionExecutor.s_success := true;
           ActionExecutor.s_direction :=
             if String.eqb direction "up" then "up" else "down";
           ActionExecutor.s_clicks := clicks |}) /\
  (ActionExecutor.isEnabled slowed = true /\
   Z.of_nat (ActionExecutor.actionDelay slowed) = Z.max 0 delayMs).
Proof.
  intros H. cbv zeta. split; [| split].
  - unfold ActionExecutor.click, ActionExecutor.pause. prun.
    rewrite (guard_enabled s H). cbn. auto.
  - unfold ActionExecutor.scroll. prun. rewrite (guard_enabled s H).
    cbn -[ActionExecutor.wheel String.eqb]. rewrite wheel_run.
    cbn -[String.eqb].
    assert (E : (if String.eqb (if String.eqb direction "up" then "up" else "down") "up"
                 then (-1)%Z else 1%Z)
                = (if String.eqb direction "up" then (-1)%Z else 1%Z)).
    { destruct (String.eqb direction "up"); reflexivity. }
    rewrite E. split; [| reflexivity].
    unfold Session.robot_calls. rewrite flat_map_app. cbn. rewrite app_nil_r.
    generalize (if String.eqb direction "up" then (-1)%Z else 1%Z). intros dy.
    induction clicks as [|n IH]; [reflexivity |].
    cbn. f_equal. exact IH.
  - cbn. split; [exact H |]. rewrite Z2Nat.id; [reflexivity | lia].
Qed.

Lemma enabled_executor_calls_witness :
  ActionExecutor.isEnabled ActionExecutor.new = true /\
  Session.robot_calls
    (Proc.trace (ActionExecutor.scroll "up" 3 ActionExecutor.new))
  = [robot_scrollMouse 0 (-1); robot_scrollMouse 0 (-1); robot_scrollMouse 0 (-1)].
Proof.
  split; [reflexivity |].
  apply (@enabled_executor_calls ActionExecutor.new 100 200 "left" "up" 3 (-5)).
  reflexivity.
Defined.

(** ** Connection to the Remotely server *)

Lemma split_on_count c s :
  length (split_on c s)
  = S (length (filter (Ascii.eqb c) (list_ascii_of_string s))).
Proof.
  induction s as [|a rest IH]; [reflexivity |].
  cbn [split_on list_ascii_of_string filter].
  destruct (split_on c rest) as [|part parts] eqn:E; [discriminate IH |].
  rewrite (Ascii.eqb_sym c a).
  destruct (Ascii.eqb a c); cbn [length] in *; lia.
Qed.

(** X22.  An access key that, trimmed, does not hold exactly one colon makes
    [RemotelyClient.connect] throw 'Access key must be in format:
    keyId:keySecret' before any HTTP request; the server URL, the device
    id and the key are stored all the same. *)
Theorem connect_bad_key js server url deviceId key s :
  length (filter (Ascii.eqb ":") (list_ascii_of_string (trim js key))) <> 1 ->
  Link.connect js server url deviceId key s =
  (Throw "Access key must be in format: keyId:keySecret",
   Link.remember url deviceId key s,
   [Core (Log Info "Connecting to Remotely server:");
    Core (Log Error "Failed to connect to Remotely:")]).
Proof.
  intros H. unfold Link.connect. prun.
  pose proof (split_on_count ":" (trim js key)) as L.
  destruct (split_on ":" (trim js key)) as [|a [|b [|c l]]]; try reflexivity.
  cbn in L. lia.
Qed.

Lemma connect_bad_key_witness :
  length (filter (Ascii.eqb ":")
            (list_ascii_of_string (trim Cases.ascii_text " k3y-without-secret ")))
  <> 1 /\
  Session.http_requests
    (Proc.trace (Link.connect Cases.ascii_text Cases.lab "https://remotely.lab"
                   "device-1" " k3y-without-secret " Link.new)) = [].
Proof.
  split; [vm_compute; discriminate |].
  rewrite (@connect_bad_key Cases.ascii_text Cases.lab "https://remotely.lab"
             "device-1" " k3y-without-secret " Link.new);
    [reflexivity | vm_compute; discriminate].
Defined.

(** X23.  [RemotelyClient.connect] always stores the server URL, the device id
    and the access key, and never assigns the websocket [ws].  When it
    returns, [connected] is true, the session id is the generated one, the
    [connected] event is emitted once and three HTTP requests were made.
    When it throws, [connected] and the session id are as before and no
    event is emitted. *)
Theorem connect_outcome js server url deviceId key s :
  let r := Link.connect js server url deviceId key s in
  let before := Link.client s in
  let after := Link.client (Proc.state r) in
  RemotelyClient.ws after = RemotelyClient.ws before /\
  RemotelyClient.deviceId after = Some deviceId /\
  Link.remotelyServerUrl (Proc.state r) = Some url /\
  Link.accessKey (Proc.state r) = Some key /\
  match Proc.result r with
  | Ok c =>
      RemotelyClient.connected after = true /\
      RemotelyClient.sessionId after = Some (Link.generateConnectionId server) /\
      Link.c_sessionId c = Link.generateConnectionId server /\
      client_events (Proc.trace r) = [client_connected] /\
      length (Session.http_requests (Proc.trace r)) = 3
  | Throw _ =>
      RemotelyClient.connected after = RemotelyClient.connected before /\
      RemotelyClient.sessionId after = RemotelyClient.sessionId before /\
      client_events (Proc.trace r) = []
  end.
Proof.
  cbv zeta. unfold Link.connect. prun.
  repeat (next_case; cbn -[split_on String.append Link.deviceList]); auto 10.
Qed.

Section LinkRuns.
Variable js : JsString.
Variable env : Env.
Variable server : Link.Server.

Lemma connect_ok url deviceId key s c :
  Proc.result (Link.connect js server url deviceId key s) = Ok c ->
  Proc.state (Link.connect js server url deviceId key s)
  = Link.set_client
      (Link.session true (Some (Link.generateConnectionId server))
         (Link.client (Link.remember url deviceId key s)))
      (Link.remember url deviceId key s) /\
  Link.c_sessionId c = Link.generateConnectionId server /\
  client_events (Proc.trace (Link.connect js server url deviceId key s))
  = [client_connected].
Proof.
  unfold Link.connect. prun.
  repeat (next_case; cbn -[split_on String.append Link.deviceList]); try discriminate.
  intros [= <-]. auto.
Qed.

Lemma connect_throw url deviceId key s e :
  Proc.result (Link.connect js server url deviceId key s) = Throw e ->
  Proc.state (Link.connect js server url deviceId key s)
  = Link.remember url deviceId key s /\
  client_events (Proc.trace (Link.connect js server url deviceId key s)) = [].
Proof.
  unfold Link.connect. prun.
  repeat (next_case; cbn -[split_on String.append Link.deviceList]); try discriminate; auto.
Qed.

Lemma connect_sets_no_timer url deviceId key s :
  timers (Proc.trace (Link.connect js server url deviceId key s)) = [].
Proof.
  unfold Link.connect. prun.
  repeat (next_case; cbn -[split_on String.append Link.deviceList]); auto.
Qed.

Lemma connect_broadcasts_nothing url deviceId key s :
  more_broadcasts (Proc.trace (Link.connect js server url deviceId key s)) = [].
Proof.
  unfold Link.connect. prun.
  repeat (next_case; cbn -[split_on String.append Link.deviceList]); auto.
Qed.

Lemma disconnect_no_socket s :
  RemotelyClient.ws (Link.client s) = None ->
  Link.disconnect env s = (Ok tt, s, []).
Proof. intros H. unfold Link.disconnect. prun. rewrite H. reflexivity. Qed.

End LinkRuns.

(** ** The exam taker with its collaborators *)

Lemma timers_app a b : timers (a ++ b) = (timers a ++ timers b)%list.
Proof. apply flat_map_app. Qed.

Lemma more_broadcasts_app a b :
  more_broadcasts (a ++ b) = (more_broadcasts a ++ more_broadcasts b)%list.
Proof. apply flat_map_app. Qed.

Section SessionRuns.
Import Session.
Variable js : JsString.
Variable env : Env.
Variable server : Link.Server.
Variable interval timer : nat.

Lemma connectRDP_run url deviceId key s :
  connectRDP js env server interval timer url deviceId key s =
  match Link.connect js server url deviceId key (link s) with
  | (Ok c, l, tr) =>
      (Ok (Link.c_sessionId c),
       set_examTaker
         (ExamTaker.set_screenshotInterval (Some timer)
            (set_sessionId (Some (Link.c_sessionId c))
               (set_connected true (examTaker (set_link l s)))))
         (set_link l s),
       (Core (Log Info "Attempting Remotely connection to device:") :: tr ++
        [IoEmitMore (io_rdp_connected (RemotelyClient.sessionId (Link.client l))
                       (RemotelyClient.deviceId (Link.client l)) (now env));
         Core (Log Info "Remotely connected successfully. Session ID:");
         SetInterval interval])%list)
  | (Throw e, l, tr) =>
      (Throw e, set_link l s,
       (Core (Log Info "Attempting Remotely connection to device:") :: tr ++
        [Core (Log Error "Remotely connection failed:")])%list)
  end.
Proof.
  unfold connectRDP, in_link, on_connected, startScreenshotRequests, io_more.
  prun.
  destruct (Link.connect js server url deviceId key (link s)) as [[[c|e] l] tr];
    reflexivity.
Qed.

End SessionRuns.

(** X24.  [ExamTaker.connectRDP] never assigns the client's websocket and never
    changes [isActive] or the override.  On success the exam taker is
    connected with the new session id, the screenshot timer is started once
    with the configured period and [rdp_connected] is broadcast once; on
    failure the error is rethrown, [connected], the session id and the
    timer are as before, and nothing is broadcast. *)
Theorem connectRDP_outcome js env server interval timer url deviceId key s :
  let r := Session.connectRDP js env server interval timer url deviceId key s in
  let before := Session.examTaker s in
  let after := Session.examTaker (Proc.state r) in
  RemotelyClient.ws (ExamTaker.remotelyClient after)
  = RemotelyClient.ws (ExamTaker.remotelyClient before) /\
  ExamTaker.isActive after = ExamTaker.isActive before /\
  ExamTaker.manualOverride after = ExamTaker.manualOverride before /\
  match Proc.result r with
  | Ok id =>
      id = Link.generateConnectionId server /\
      ExamTaker.connected after = true /\
      ExamTaker.sessionId after = Some id /\
      RemotelyClient.connected (ExamTaker.remotelyClient after) = true /\
      ExamTaker.screenshotInterval after = Some timer /\
      timers (Proc.trace r) = [interval] /\
      more_broadcasts (Proc.trace r)
      = [io_rdp_connected (Some id) (Some deviceId) (now env)]
  | Throw _ =>
      ExamTaker.connected after = ExamTaker.connected before /\
      ExamTaker.sessionId after = ExamTaker.sessionId before /\
      ExamTaker.screenshotInterval after = ExamTaker.screenshotInterval before /\
      timers (Proc.trace r) = [] /\
      more_broadcasts (Proc.trace r) = []
  end.
Proof.
  cbv zeta. rewrite connectRDP_run.
  pose proof (@connect_ok js server url deviceId key (Session.link s)) as O.
  pose proof (@connect_throw js server url deviceId key (Session.link s)) as T.
  pose proof (@connect_sets_no_timer js server url deviceId key (Session.link s)) as N.
  pose proof (@connect_broadcasts_nothing js server url deviceId key (Session.link s)) as B.
  destruct (Link.connect js server url deviceId key (Session.link s))
    as [[[c|e] l] tr]; unfold Proc.result, Proc.state, Proc.trace in *;
    cbn [fst snd] in *.
  - destruct (O c eq_refl) as (-> & Ec & _). cbn.
    rewrite timers_app, more_broadcasts_app, N, B, Ec. cbn. auto 10.
  - destruct (T e eq_refl) as (-> & _). cbn.
    rewrite timers_app, more_broadcasts_app, N, B. cbn. auto 10.
Qed.

(** X25.  After a successful [connectRDP] on a new exam taker the client reports
    [connected] but holds no websocket.  So [startExam] succeeds, while
    each period of the screenshot timer only logs 'Cannot send message: not
    connected to Remotely', and [clickAnswer] sends nothing and still
    returns [success: true]. *)
Theorem connected_session_has_no_channel
    js env server interval timer rag url deviceId key c id :
  let r := Session.connectRDP js env server interval timer url deviceId key
             (Session.new rag) in
  Proc.result r = Ok id ->
  let taker := Session.examTaker (Proc.state r) in
  let client := ExamTaker.remotelyClient taker in
  RemotelyClient.connected client = true /\
  RemotelyClient.ws client = None /\
  result (ExamTaker.startExam env taker)
  = Ok {| ExamTaker.started_examId := uuidv4 env |} /\
  Session.tick env (Proc.state r)
  = (Ok tt, Proc.state r,
     [Core (Log Warn "Cannot send message: not connected to Remotely")]) /\
  sent (trace (RemotelyClient.clickAnswer env c false 100 client)) = [] /\
  result (RemotelyClient.clickAnswer env c false 100 client)
  = Ok {| RemotelyClient.success := true; RemotelyClient.clicked := c |}.
Proof.
  cbv zeta. rewrite connectRDP_run.
  pose proof (@connect_ok js server url deviceId key
                (Session.link (Session.new rag))) as O.
  destruct (Link.connect js server url deviceId key
              (Session.link (Session.new rag))) as [[[k|e] l] tr];
    unfold Proc.result, Proc.state, Proc.trace in *; cbn [fst snd] in *;
    [| discriminate].
  intros _. destruct (O k eq_refl) as (-> & _ & _).
  repeat split.
Qed.

Lemma connected_session_has_no_channel_witness :
  Proc.result
    (Session.connectRDP Cases.ascii_text Scenario.empty_kb Cases.lab 1000 1
       "https://remotely.lab" "device-1" "key1:s3cret"
       (Session.new Cases.notes))
  = Ok "viewer_k3j9x0q2a_1735725600000" /\
  sent (trace (RemotelyClient.clickAnswer Scenario.empty_kb Scenario.paris
                 false 100
                 (ExamTaker.remotelyClient
                    (Session.examTaker
                       (Proc.state
                          (Session.connectRDP Cases.ascii_text
                             Scenario.empty_kb Cases.lab 1000 1
                             "https://remotely.lab" "device-1" "key1:s3cret"
                             (Session.new Cases.notes))))))) = [].
Proof.
  split; [reflexivity |].
  apply (@connected_session_has_no_channel Cases.ascii_text Scenario.empty_kb
           Cases.lab 1000 1 Cases.notes "https://remotely.lab" "device-1"
           "key1:s3cret" Scenario.paris "viewer_k3j9x0q2a_1735725600000").
  reflexivity.
Defined.

(** X26.  When the client holds no websocket, [ExamTaker.disconnect] returns
    normally with the exam stopped, [connected] false and the session id
    cleared, but the client itself is untouched (no ViewerDisconnected
    message, no close) and the screenshot timer is cleared only if an exam
    was active.  A later [startExam] throws 'No active RDP connection'. *)
Theorem disconnect_without_socket env s :
  RemotelyClient.ws (ExamTaker.remotelyClient (Session.examTaker s)) = None ->
  let r := Session.disconnect env s in
  let before := Session.examTaker s in
  let after := Session.examTaker (Proc.state r) in
  Proc.result r = Ok tt /\
  ExamTaker.connected after = false /\
  ExamTaker.sessionId after = None /\
  ExamTaker.isActive after = false /\
  ExamTaker.remotelyClient after = ExamTaker.remotelyClient before /\
  ExamTaker.screenshotInterval after
  = (if ExamTaker.isActive before then None
     else ExamTaker.screenshotInterval before) /\
  sent (core_effects (Proc.trace r)) = [] /\
  ~ In WsClose (Proc.trace r) /\
  result (ExamTaker.startExam env after) = Throw "No active RDP connection".
Proof.
  intros W. cbv zeta.
  unfold Session.disconnect, Session.in_link, Session.in_examTaker. prun.
  destruct (ExamTaker.isActive (Session.examTaker s)) eqn:A.
  - rewrite stopExam_run. cbn [fst snd].
    rewrite disconnect_no_socket by exact W.
    destruct s as [[a b c d e f g h i j [k|] l] u v w x];
      cbn in *; subst; repeat split; try reflexivity;
      intros F; cbn in F; intuition discriminate.
  - rewrite disconnect_no_socket by exact W.
    destruct s as [[a b c d e f g h i j k l] u v w x];
      cbn in *; subst; repeat split; try reflexivity;
      intros F; cbn in F; intuition discriminate.
Qed.

Lemma disconnect_without_socket_witness :
  RemotelyClient.ws
    (ExamTaker.remotelyClient (Session.examTaker (Session.new Cases.notes)))
  = None /\
  Proc.result (Session.disconnect Scenario.empty_kb (Session.new Cases.notes))
  = Ok tt.
Proof.
  split; [reflexivity |].
  apply (@disconnect_without_socket Scenario.empty_kb (Session.new Cases.notes)).
  reflexivity.
Defined.

(** X27.  The [manual_click] and [manual_type] events of the dashboard do
    nothing unless the manual override is on.  With the override on and the
    executor enabled they perform the robot calls (move and click, or type
    the text), broadcast [manual_action] and answer [debug_info]; with the
    executor disabled they throw 'ActionExecutor is disabled' with no robot
    call, no broadcast and no answer.  The state is unchanged in all
    cases. *)
Theorem manual_actions_gate js env px py txt s :
  let click := Session.manual_click env px py s in
  let typing := Session.manual_type js env txt s in
  if ExamTaker.manualOverride (Session.examTaker s) then
    if ActionExecutor.isEnabled (Session.actionExecutor s) then
      (Proc.result click = Ok tt /\ Proc.state click = s /\
       Session.robot_calls (Proc.trace click)
       = [robot_moveMouse px py; robot_mouseClick "left" false] /\
       more_broadcasts (Proc.trace click) = [io_manual_click px py (now env)] /\
       socket_emits (Proc.trace click) = [click_at px py]) /\
      (Proc.result typing = Ok tt /\ Proc.state typing = s /\
       Session.robot_calls (Proc.trace typing) = [robot_typeString txt] /\
       more_broadcasts (Proc.trace typing) = [io_manual_type txt (now env)] /\
       socket_emits (Proc.trace typing) = [typed_text txt])
    else
      (Proc.result click = Throw "ActionExecutor is disabled" /\
       Proc.state click = s /\
       Session.robot_calls (Proc.trace click) = [] /\
       more_broadcasts (Proc.trace click) = [] /\
       socket_emits (Proc.trace click) = []) /\
      (Proc.result typing = Throw "ActionExecutor is disabled" /\
       Proc.state typing = s /\
       Session.robot_calls (Proc.trace typing) = [] /\
       more_broadcasts (Proc.trace typing) = [] /\
       socket_emits (Proc.trace typing) = [])
  else click = (Ok tt, s, []) /\ typing = (Ok tt, s, []).
Proof.
  cbv zeta.
  unfold Session.manual_click, Session.manual_type, Session.performClick,
    Session.performType, Session.io_more, ActionExecutor.click,
    ActionExecutor.type, ActionExecutor.guard, ActionExecutor.pause.
  prun.
  destruct s as [e u v [on d] w]. cbn [Session.examTaker Session.actionExecutor
    ActionExecutor.isEnabled ActionExecutor.actionDelay].
  destruct (ExamTaker.manualOverride e); [| split; reflexivity].
  destruct on; cbn; repeat split.
Qed.

Lemma some_passes A (f : A -> bool) l :
  (0 <? length (filter f l))%nat = existsb f l.
Proof.
  induction l as [|d l IH]; [reflexivity |].
  cbn [filter existsb]. destruct (f d); [reflexivity | exact IH].
Qed.

Section Readiness.
Import Session.
Variable js : JsString.
Variable env : Env.
Variable backend : RAGSystem.Backend.

Lemma rag_stats_total examType s :
  exists stats tr,
    RAGSystem.getExamTypeStats js backend examType s = (Ok stats, s, tr) /\
    more_broadcasts tr = [] /\
    (RAGSystem.isInitialized s = false ->
     stats = RAGSystem.failed_stats examType "RAG system not initialized") /\
    (RAGSystem.isInitialized s = true -> RAGSystem.useMemoryFallback s = true ->
     RAGSystem.documentCount stats
     = length (filter (RAGSystem.in_exam_or_all examType) (RAGSystem.memoryStore s))).
Proof.
  unfold RAGSystem.getExamTypeStats. prun.
  destruct (RAGSystem.isInitialized s); cbn.
  - destruct (RAGSystem.useMemoryFallback s); cbn.
    + do 2 eexists. split; [reflexivity |]. split; [reflexivity |].
      split; [discriminate | reflexivity].
    + destruct (RAGSystem.collection_get backend _); cbn;
        do 2 eexists; (split; [reflexivity |]); (split; [reflexivity |]);
        split; discriminate.
  - do 2 eexists. split; [reflexivity |]. split; [reflexivity |].
    split; [reflexivity | discriminate].
Qed.

End Readiness.

(** X28.  [validateExamReadiness] never throws and never changes the state, and
    broadcasts one [exam_readiness_check] with its verdict.  The verdict is
    false whenever the knowledge base is not initialized; with the memory
    fallback it is true exactly when some stored document passes the filter
    of the current exam type. *)
Theorem validateExamReadiness_verdict js env backend s :
  let r := Session.validateExamReadiness js env backend s in
  let rag := Session.ragSystem s in
  let examType := ExamTaker.currentExamType (Session.examTaker s) in
  exists ready,
    Proc.result r = Ok ready /\
    Proc.state r = s /\
    (ready = true -> RAGSystem.isInitialized rag = true) /\
    (RAGSystem.isInitialized rag = false -> ready = false) /\
    (RAGSystem.isInitialized rag = true ->
     RAGSystem.useMemoryFallback rag = true ->
     ready = existsb (RAGSystem.in_exam_or_all (Some examType))
               (RAGSystem.memoryStore rag)) /\
    exists count,
      more_broadcasts (Proc.trace r)
      = [io_exam_readiness_check examType ready count
           (RAGSystem.isInitialized rag) (now env)].
Proof.
  cbv zeta.
  unfold Session.validateExamReadiness, Session.getExamTypeStats, Session.io_more.
  prun.
  destruct (rag_stats_total js backend
              (Some (ExamTaker.currentExamType (Session.examTaker s)))
              (Session.ragSystem s)) as (stats & tr & E & N & U & C).
  rewrite E. cbn.
  assert (Es : Session.set_ragSystem (Session.ragSystem s) s = s)
    by (destruct s; reflexivity).
  rewrite Es.
  eexists. split; [reflexivity |]. split; [reflexivity |].
  split; [| split; [| split]].
  - intros H. apply andb_true_iff in H. tauto.
  - intros I. rewrite I. apply andb_false_r.
  - intros I F. rewrite I, andb_true_r, (C I F). apply some_passes.
  - eexists. rewrite more_broadcasts_app, N. reflexivity.
Qed.
